(** * x402 gateway: facilitator pipeline, receipts and agent client

    A shallow embedding of the TypeScript sources of the x402 payment
    gateway (packages core, facilitator and agent), and the properties of the
    specification proved, or refuted, on it.

    Conventions of the embedding.
    - A JavaScript [string] is a [string] of 8-bit code units.
    - A JavaScript [number] is [NaN], an infinity, or a finite binary64
      value carried as the rational it denotes; every arithmetic result is
      rounded by [binary64] (round to nearest, ties to even).  The sign of
      zero is not tracked: no function below distinguishes [-0] from [0].
    - A [bigint] is a [Z].
    - [Date.now()] is an explicit argument (milliseconds since the epoch).
    - A function that may throw returns a [Result]. *)

From Stdlib Require Import ZArith QArith Qround Qpower String Ascii List Lia Lqa.
From Stdlib Require Import DecimalString DecimalZ.
From Stdlib Require Strings.Byte.
From stdpp Require Import gmap strings.

Local Open Scope string_scope.
Local Open Scope Z_scope.

(** ** Exceptions and results *)

Inductive BudgetErrorCode := BUDGET_EXCEEDED | PER_REQUEST_LIMIT | DOMAIN_NOT_ALLOWED.
Inductive PaymentErrorCode :=
  PAYMENT_FAILED | FACILITATOR_ERROR | INSUFFICIENT_FUNDS | SIGNING_FAILED | INVALID_402_RESPONSE.
Inductive NetworkErrorCode := NETWORK_ERROR | RPC_ERROR | TIMEOUT.

(** The error classes of [errors.ts], and the built-in errors the modelled
    code can raise. *)
Inductive exn :=
| SyntaxError (message : string)
| RangeError (message : string)
| Error (message : string)
| X402PaymentError (message : string) (code : PaymentErrorCode)
| X402BudgetError (message : string) (code : BudgetErrorCode)
| X402NetworkError (message : string) (code : NetworkErrorCode).

Inductive Result (A : Type) :=
| Ok (a : A)
| Throw (e : exn).
Arguments Ok {A} a.
Arguments Throw {A} e.

(** Sequencing: a [Throw] propagates, as an uncaught exception does. *)
#[global] Instance Result_bind : MBind Result := fun A B k r =>
  match r with
  | Ok a => k a
  | Throw e => Throw e
  end.
#[global] Instance Result_ret : MRet Result := fun A a => Ok a.

Definition is_Ok {A} (r : Result A) : bool :=
  match r with Ok _ => true | Throw _ => false end.

(** ** Strings *)

Module JSString.

Definition is_whitespace (c : ascii) : bool :=
  let n := nat_of_ascii c in
  ((9 <=? n)%nat && (n <=? 13)%nat) || (n =? 32)%nat || (n =? 160)%nat.

Fixpoint trimStart (s : string) : string :=
  match s with
  | String c r => if is_whitespace c then trimStart r else s
  | EmptyString => EmptyString
  end.

Fixpoint trimEnd (s : string) : string :=
  match s with
  | String c r =>
      match trimEnd r with
      | EmptyString => if is_whitespace c then EmptyString else String c EmptyString
      | r' => String c r'
      end
  | EmptyString => EmptyString
  end.

Definition trim (s : string) : string := trimStart (trimEnd s).

(** [s.startsWith(p)] *)
Fixpoint startsWith (s p : string) {struct p} : bool :=
  match p, s with
  | EmptyString, _ => true
  | String a p', String b s' => Ascii.eqb a b && startsWith s' p'
  | String _ _, EmptyString => false
  end.

(** [s.slice(n)] for [0 <= n]. *)
Fixpoint slice (n : nat) (s : string) : string :=
  match n, s with
  | O, _ => s
  | S n', String _ r => slice n' r
  | S _, EmptyString => EmptyString
  end.

(** A non-empty string is truthy. *)
Definition truthy (s : string) : bool :=
  match s with EmptyString => false | _ => true end.

Definition toLowerCase_char (c : ascii) : ascii :=
  let n := nat_of_ascii c in
  if ((65 <=? n)%nat && (n <=? 90)%nat)%bool then ascii_of_nat (n + 32) else c.

Fixpoint toLowerCase (s : string) : string :=
  match s with
  | String c r => String (toLowerCase_char c) (toLowerCase r)
  | EmptyString => EmptyString
  end.

Definition is_digit (c : ascii) : bool :=
  let n := nat_of_ascii c in ((48 <=? n)%nat && (n <=? 57)%nat)%bool.

Fixpoint all_chars (P : ascii -> bool) (s : string) : bool :=
  match s with
  | String c r => P c && all_chars P r
  | EmptyString => true
  end.

(** The text [s] between double quotes. *)
Definition quoted (s : string) : string :=
  String "034" s ++ String "034" EmptyString.

(** [s.repeat(n)] *)
Fixpoint repeat (s : string) (n : nat) : string :=
  match n with
  | O => EmptyString
  | S n' => s ++ repeat s n'
  end.

End JSString.

(** ** BigInt *)

Module JSBigInt.
Import JSString.

(** Value of a digit in a radix up to 16. *)
Definition digit_value (c : ascii) : option Z :=
  let n := Z.of_nat (nat_of_ascii c) in
  if (48 <=? n) && (n <=? 57) then Some (n - 48)
  else if (97 <=? n) && (n <=? 102) then Some (n - 87)
  else if (65 <=? n) && (n <=? 70) then Some (n - 55)
  else None.

Fixpoint digits_value (radix acc : Z) (s : string) : option Z :=
  match s with
  | EmptyString => Some acc
  | String c r =>
      match digit_value c with
      | Some d => if d <? radix then digits_value radix (radix * acc + d) r else None
      | None => None
      end
  end.

(** Digits in a radix: at least one digit and nothing else. *)
Definition radix_literal (radix : Z) (s : string) : option Z :=
  match s with
  | EmptyString => None
  | _ => digits_value radix 0 s
  end.

Definition decimal_literal (s : string) : option Z :=
  option_map Z.of_uint (NilZero.uint_of_string s).

(** StringToBigInt: the text is trimmed; the empty text is [0n]; a [0x],
    [0o] or [0b] literal carries no sign; a decimal literal may. *)
Definition StringToBigInt (s : string) : option Z :=
  match trim s with
  | EmptyString => Some 0
  | String "0" (String "x" r) | String "0" (String "X" r) => radix_literal 16 r
  | String "0" (String "o" r) | String "0" (String "O" r) => radix_literal 8 r
  | String "0" (String "b" r) | String "0" (String "B" r) => radix_literal 2 r
  | String "-" r => option_map Z.opp (decimal_literal r)
  | String "+" r => decimal_literal r
  | t => decimal_literal t
  end.

(** [BigInt(s)] for a string [s]. *)
Definition BigInt (s : string) : Result Z :=
  match StringToBigInt s with
  | Some z => Ok z
  | None => Throw (SyntaxError ("Cannot convert " ++ s ++ " to a BigInt"))
  end.

(** [z.toString()] *)
Definition toString (z : Z) : string := NilZero.string_of_int (Z.to_int z).

End JSBigInt.

(** ** Numbers *)

Module JSNumber.
Import JSString.
Local Open Scope Q_scope.

Inductive number :=
| NaN
| Infinity (negative : bool)
| Finite (q : Q).

Definition pow2 (e : Z) : Q := Qpower 2 e.
Definition pow10 (e : Z) : Q := Qpower 10 e.

(** Nearest integer, ties to the even one. *)
Definition round_half_even (x : Q) : Z :=
  let f := Qfloor x in
  match ((x - inject_Z f) ?= (1 # 2))%Q with
  | Lt => f
  | Gt => (f + 1)%Z
  | Eq => if Z.even f then f else (f + 1)%Z
  end.

(** For [0 < x], the exponent [e] of the binade of [x]: [2^e <= x < 2^(e+1)]. *)
Definition binade (x : Q) : Z :=
  let e0 := (Z.log2 (Qnum x) - Z.log2 (Zpos (Qden x)))%Z in
  if Qle_bool (pow2 e0) x then e0 else (e0 - 1)%Z.

(** Rounding of a positive real to binary64: 53 significant bits, the
    exponent not below that of the subnormals, overflow to infinity. *)
Definition binary64_pos (x : Q) : number :=
  let e := Z.max (binade x) (-1022) in
  let ulp := pow2 (e - 52) in
  let y := inject_Z (round_half_even (x / ulp)) * ulp in
  if Qle_bool (pow2 1024) y then Infinity false else Finite (Qred y).

Definition neg (a : number) : number :=
  match a with
  | NaN => NaN
  | Infinity s => Infinity (negb s)
  | Finite q => Finite (Qred (- q))
  end.

Definition binary64 (x : Q) : number :=
  match Qnum x with
  | Z0 => Finite 0
  | Zpos _ => binary64_pos x
  | Zneg _ => neg (binary64_pos (- x))
  end.

Definition of_Z (z : Z) : number := binary64 (inject_Z z).

Definition is_zero (q : Q) : bool := Qeq_bool q 0.
Definition is_negative (q : Q) : bool := negb (Qle_bool 0 q).

(** [a * b] *)
Definition mul (a b : number) : number :=
  match a, b with
  | NaN, _ | _, NaN => NaN
  | Infinity s, Infinity t => Infinity (xorb s t)
  | Infinity s, Finite q | Finite q, Infinity s =>
      if is_zero q then NaN else Infinity (xorb s (is_negative q))
  | Finite p, Finite q => binary64 (p * q)
  end.

(** [a / b] *)
Definition div (a b : number) : number :=
  match a, b with
  | NaN, _ | _, NaN => NaN
  | Infinity _, Infinity _ => NaN
  | Infinity s, Finite q => Infinity (xorb s (is_negative q))
  | Finite _, Infinity _ => Finite 0
  | Finite p, Finite q =>
      if is_zero q then (if is_zero p then NaN else Infinity (is_negative p))
      else binary64 (p / q)
  end.

(** [a < b] *)
Definition lt (a b : number) : bool :=
  match a, b with
  | NaN, _ | _, NaN => false
  | Infinity s, Infinity t => s && negb t
  | Infinity s, Finite _ => s
  | Finite _, Infinity t => negb t
  | Finite p, Finite q => negb (Qle_bool q p)
  end.

(** [a <= b]: false when either is [NaN]. *)
Definition le (a b : number) : bool :=
  match a, b with
  | NaN, _ | _, NaN => false
  | _, _ => negb (lt b a)
  end.

Definition isNaN (a : number) : bool :=
  match a with NaN => true | _ => false end.

(** [Math.round]: the nearest integer, ties towards plus infinity. *)
Definition Math_round (a : number) : number :=
  match a with
  | Finite q => Finite (inject_Z (Qfloor (q + (1 # 2))))
  | _ => a
  end.

(** [Math.pow(10, n)] for an integer [n]. *)
Definition Math_pow10 (n : Z) : number := binary64 (pow10 n).

(** *** Text to number *)

Fixpoint span_digits (s : string) : string * string :=
  match s with
  | String c r =>
      if is_digit c then let (d, t) := span_digits r in (String c d, t) else (EmptyString, s)
  | EmptyString => (EmptyString, EmptyString)
  end.

(** The mathematical value of a run of decimal digits (the empty run is 0). *)
Definition digits_Z (s : string) : Z :=
  match NilEmpty.uint_of_string s with
  | Some d => Z.of_uint d
  | None => 0%Z
  end.

Definition split_sign (s : string) : bool * string :=
  match s with
  | String "-" r => (true, r)
  | String "+" r => (false, r)
  | _ => (false, s)
  end.

Definition with_sign (negative : bool) (a : number) : number :=
  if negative then neg a else a.

(** The exponent part [e], [e+] or [e-] followed by at least one digit,
    and the text after it; without a digit there is no exponent part. *)
Definition exponent_part (s : string) : Z * string :=
  match s with
  | String "e" r | String "E" r =>
      let (sg, t) := split_sign r in
      let (d, rest) := span_digits t in
      match d with
      | EmptyString => (0%Z, s)
      | _ => (if sg then (- digits_Z d)%Z else digits_Z d, rest)
      end
  | _ => (0%Z, s)
  end.

(** The longest prefix of the text that is a decimal literal (a sign, then
    [Infinity] or digits with an optional fraction and exponent): its
    value, and the text after it. *)
Definition StrDecimalLiteral (s : string) : option (number * string) :=
  let (sg, t) := split_sign s in
  if startsWith t "Infinity" then Some (Infinity sg, slice 8 t)
  else
    let (int, r1) := span_digits t in
    let (frac, r2) :=
      match r1 with
      | String "." r => span_digits r
      | _ => (EmptyString, r1)
      end in
    match (int ++ frac)%string with
    | EmptyString => None
    | ds =>
        let (e, rest) := exponent_part r2 in
        let e := (e - Z.of_nat (String.length frac))%Z in
        Some (with_sign sg (binary64 (inject_Z (digits_Z ds) * pow10 e)), rest)
    end.

(** [parseFloat(s)]: leading white space is skipped; [NaN] when no prefix
    is a decimal literal. *)
Definition parseFloat (s : string) : number :=
  match StrDecimalLiteral (trimStart s) with
  | Some (n, _) => n
  | None => NaN
  end.

(** [Number(s)]: the whole trimmed text is a numeric literal; the empty
    text is 0. *)
Definition StringToNumber (s : string) : number :=
  match trim s with
  | EmptyString => Finite 0
  | String "0" (String "x" r) | String "0" (String "X" r) =>
      from_option of_Z NaN (JSBigInt.radix_literal 16 r)
  | String "0" (String "o" r) | String "0" (String "O" r) =>
      from_option of_Z NaN (JSBigInt.radix_literal 8 r)
  | String "0" (String "b" r) | String "0" (String "B" r) =>
      from_option of_Z NaN (JSBigInt.radix_literal 2 r)
  | t =>
      match StrDecimalLiteral t with
      | Some (n, EmptyString) => n
      | _ => NaN
      end
  end.

(** [parseInt(s, 10)] *)
Definition parseInt10 (s : string) : number :=
  let (sg, t) := split_sign (trimStart s) in
  let (d, _) := span_digits t in
  match d with
  | EmptyString => NaN
  | _ => with_sign sg (of_Z (digits_Z d))
  end.

(** *** Number to text *)

Definition digits_of (z : Z) : string := NilZero.string_of_uint (N.to_uint (Z.to_N z)).

(** For [0 < x], the [n] with [10^(n-1) <= x < 10^n]. *)
Definition decimal_exponent (x : Q) : Z :=
  let n0 := (binade x * 30103 / 100000)%Z in
  let fits n := Qle_bool (pow10 (n - 1)) x && negb (Qle_bool (pow10 n) x) in
  if fits (n0 - 1)%Z then (n0 - 1)%Z
  else if fits n0 then n0
  else if fits (n0 + 1)%Z then (n0 + 1)%Z
  else (n0 + 2)%Z.

Definition reads_back (s n k : Z) (x : Q) : bool :=
  match binary64 (inject_Z s * pow10 (n - k)) with
  | Finite y => Qeq_bool y x
  | _ => false
  end.

(** The shortest digit string [s] of [k] digits, [k] from [k0] upwards, with
    [s * 10^(n-k)] reading back as [x]; the closest one when two qualify. *)
Fixpoint shortest_digits (fuel : nat) (k : Z) (n : Z) (x : Q) : Z * Z * Z :=
  let scaled := x / pow10 (n - k) in
  let lo := Qfloor scaled in
  let hi := (lo + 1)%Z in
  let ok_lo := Qle_bool (pow10 (k - 1)) (inject_Z lo) && reads_back lo n k x in
  let ok_hi := reads_back hi n k x in
  let closer_lo :=
    match (scaled - inject_Z lo) ?= (inject_Z hi - scaled) with
    | Lt => true
    | Gt => false
    | Eq => Z.even lo
    end in
  let pick s := if Qeq_bool (inject_Z s) (pow10 k) then (Qfloor (pow10 (k - 1)), k, (n + 1)%Z) else (s, k, n) in
  match fuel with
  | O => pick (if closer_lo then lo else hi)
  | S fuel' =>
      if ok_lo && ok_hi then pick (if closer_lo then lo else hi)
      else if ok_lo then pick lo
      else if ok_hi then pick hi
      else shortest_digits fuel' (k + 1)%Z n x
  end.

Definition exponent_text (e : Z) : string :=
  ((if (e <? 0)%Z then "e-" else "e+") ++ digits_of (Z.abs e))%string.

(** Number::toString of a positive finite value. *)
Definition toString_pos (x : Q) : string :=
  let '(s, k, n) := shortest_digits 17 1 (decimal_exponent x) x in
  let ds := digits_of s in
  let kn := Z.to_nat k in
  (if (k <=? n)%Z && (n <=? 21)%Z then ds ++ JSString.repeat "0" (Z.to_nat (n - k))
   else if (0 <? n)%Z && (n <=? 21)%Z then
     substring 0 (Z.to_nat n) ds ++ "." ++ substring (Z.to_nat n) (kn - Z.to_nat n) ds
   else if (-6 <? n)%Z && (n <=? 0)%Z then "0." ++ JSString.repeat "0" (Z.to_nat (- n)) ++ ds
   else if (k =? 1)%Z then ds ++ exponent_text (n - 1)
   else substring 0 1 ds ++ "." ++ substring 1 (kn - 1) ds ++ exponent_text (n - 1))%string.

(** [a.toString()] *)
Definition toString (a : number) : string :=
  match a with
  | NaN => "NaN"
  | Infinity s => if s then "-Infinity" else "Infinity"
  | Finite q =>
      if is_zero q then "0"
      else if is_negative q then ("-" ++ toString_pos (- q))%string
      else toString_pos q
  end.

(** [BigInt(a)]: defined on the integral numbers only. *)
Definition BigInt (a : number) : Result Z :=
  let refused :=
    RangeError ("The number " ++ toString a
                ++ " cannot be converted to a BigInt because it is not an integer")%string in
  match a with
  | Finite q => if Qeq_bool q (inject_Z (Qfloor q)) then Ok (Qfloor q) else Throw refused
  | _ => Throw refused
  end.

(** [a.toFixed(f)] for an integer [f]. *)
Definition toFixed (a : number) (f : Z) : Result string :=
  if ((f <? 0) || (100 <? f))%Z then Throw (RangeError "toFixed() digits argument must be between 0 and 100")
  else
    match a with
    | Finite q =>
        let sg := if is_negative q then "-" else EmptyString in
        let x := if is_negative q then - q else q in
        if Qle_bool (pow10 21) x then Ok (sg ++ toString_pos x)%string
        else
          (* the integer n with n / 10^f closest to x, the larger of two *)
          let n := Qfloor (x * pow10 f + (1 # 2)) in
          let m := digits_of n in
          let fn := Z.to_nat f in
          let m := JSString.repeat "0" (fn + 1 - String.length m) ++ m in
          let k := String.length m in
          Ok (if (f =? 0)%Z then sg ++ m
              else sg ++ substring 0 (k - fn) m ++ "." ++ substring (k - fn) fn m)%string
    | _ => Ok (toString a)
    end.

End JSNumber.

(** ** Constants ([constants.ts]) *)

Module Constants.

Inductive X402Network := base_mainnet | base_sepolia.

Definition network_name (n : X402Network) : string :=
  match n with
  | base_mainnet => "base-mainnet"
  | base_sepolia => "base-sepolia"
  end.

Definition NUMERIC_CHAIN_IDS (n : X402Network) : Z :=
  match n with
  | base_mainnet => 8453
  | base_sepolia => 84532
  end.

Definition USDC_ADDRESSES (n : X402Network) : string :=
  match n with
  | base_mainnet => "0x833589fCD6eDb6E08f4c7C32D4f71b54bdA02913"
  | base_sepolia => "0x036CbD53842c5426634e7929541eC2318f3dCF7e"
  end.

(** [Object.entries(NUMERIC_CHAIN_IDS)], in insertion order. *)
Definition NUMERIC_CHAIN_IDS_entries : list (X402Network * Z) :=
  [(base_mainnet, NUMERIC_CHAIN_IDS base_mainnet);
   (base_sepolia, NUMERIC_CHAIN_IDS base_sepolia)].

Definition DEFAULT_FACILITATOR_URL : string := "https://x402.org/facilitator".
Definition USDC_DECIMALS : Z := 6.
Definition DEFAULT_RECEIPT_TTL : Z := 86400.
Definition MIN_PRICE_USDC : string := "0.001".

End Constants.

(** ** Pricing ([pricing.ts]) *)

Module Pricing.
Import JSString JSNumber Constants.

(** A price or an amount is given as text or as a number. *)
Inductive amount_arg :=
| Text (s : string)
| Num (n : number).

Definition amount_text (a : amount_arg) : string :=
  match a with
  | Text s => s
  | Num n => JSNumber.toString n
  end.

(** [price.replace(/^\$/, '')] *)
Definition strip_dollar (s : string) : string :=
  match s with
  | String "$" r => r
  | _ => s
  end.

Definition parsePrice (price : amount_arg) : Result string :=
  let numericPrice :=
    match price with
    | Text s =>
        (* Remove currency symbol if present *)
        let cleanPrice := trim (strip_dollar s) in
        parseFloat cleanPrice
    | Num n => n
    end in
  if isNaN numericPrice || lt numericPrice (Finite 0)
  then Throw (Error ("Invalid price: " ++ amount_text price))
  else
    (* Convert to smallest unit (multiply by 10^6 for USDC) *)
    let multiplier := Math_pow10 USDC_DECIMALS in
    let smallestUnit := Math_round (mul numericPrice multiplier) in
    Ok (JSNumber.toString smallestUnit).

Record FormatOptions := {
  symbol : option bool;     (* default: true *)
  decimals : option Z       (* default: 2, up to 6 *)
}.

Definition default_options : FormatOptions := {| symbol := None; decimals := None |}.

Definition formatPrice (amount : amount_arg) (options : FormatOptions) : Result string :=
  let symbol := default true (symbol options) in
  let decimals := default 2%Z (decimals options) in
  let numericAmount :=
    match amount with
    | Text s => parseInt10 s
    | Num n => n
    end in
  if isNaN numericAmount || lt numericAmount (Finite 0)
  then Throw (Error ("Invalid amount: " ++ amount_text amount))
  else
    (* Convert from smallest unit *)
    let divisor := Math_pow10 USDC_DECIMALS in
    let price := div numericAmount divisor in
    (* Format with specified decimals *)
    formatted ← toFixed price (Z.min decimals USDC_DECIMALS);
    Ok (if symbol then "$" ++ formatted else formatted).

End Pricing.

(** ** Fee calculation (facilitator, [fee.ts]) *)

Module Fee.
Import JSNumber.

Record FeeBreakdown := {
  totalAmount : string;       (* Original amount in smallest unit *)
  publisherAmount : string;   (* Amount going to publisher *)
  feeAmount : string;         (* Fee amount kept by facilitator *)
  feePercent : number         (* Fee percentage applied *)
}.

(** The division of two bigints truncates towards zero: [Z.quot]. *)
Definition calculateFee (amount : string) (feePercent : number) : Result FeeBreakdown :=
  total ← JSBigInt.BigInt amount;
  (* Convert percent to basis points *)
  feeBps ← JSNumber.BigInt (Math_round (mul feePercent (Finite 100)));
  let fee := Z.quot (total * feeBps) 10000 in
  let publisherAmount := total - fee in
  Ok {| totalAmount := amount;
        publisherAmount := JSBigInt.toString publisherAmount;
        feeAmount := JSBigInt.toString fee;
        feePercent := feePercent |}.

End Fee.

(** A value of type [unknown], as [JSON.parse] delivers it. *)
Module JSON.
Import JSString JSNumber.

#[local] Unset Elimination Schemes.
Inductive json :=
| JNull
| JBool (b : bool)
| JNum (n : number)
| JStr (s : string)
| JArr (items : list json)
| JObj (fields : list (string * json)).
#[local] Set Elimination Schemes.

(** [unknown]: a value, or [undefined]. *)
Definition unknown := option json.

Fixpoint lookup_field (k : string) (fields : list (string * json)) : option json :=
  match fields with
  | (k', v) :: r =>
      match lookup_field k r with
      | Some w => Some w          (* the last of two equal keys wins *)
      | None => if String.eqb k k' then Some v else None
      end
  | [] => None
  end.

(** [o.k] for a value [o] that is not [null] or [undefined]. *)
Definition get (o : json) (k : string) : unknown :=
  match o with
  | JObj fields => lookup_field k fields
  | _ => None
  end.

Definition is_object (v : unknown) : bool :=      (* typeof v === 'object' *)
  match v with
  | Some (JNull | JArr _ | JObj _) => true
  | _ => false
  end.

Definition as_string (v : unknown) : option string :=   (* typeof v === 'string' *)
  match v with
  | Some (JStr s) => Some s
  | _ => None
  end.

Definition nullish (v : unknown) : bool :=        (* v === undefined || v === null *)
  match v with
  | None | Some JNull => true
  | _ => false
  end.

Definition falsy (v : unknown) : bool :=          (* !v *)
  match v with
  | None | Some JNull | Some (JBool false) | Some (JStr EmptyString) => true
  | Some (JNum NaN) => true
  | Some (JNum (Finite q)) => is_zero q
  | _ => false
  end.

(** [String(v)], as a template literal renders a value. *)
Fixpoint json_text (j : json) : string :=
  match j with
  | JNull => "null"
  | JBool b => if b then "true" else "false"
  | JNum n => JSNumber.toString n
  | JStr s => s
  | JArr items =>
      let element x := match x with JNull => EmptyString | _ => json_text x end in
      (fix join (l : list json) : string :=
         match l with
         | [] => EmptyString
         | [x] => element x
         | x :: r => element x ++ "," ++ join r
         end) items
  | JObj _ => "[object Object]"
  end.

Definition text (v : unknown) : string :=
  match v with
  | Some j => json_text j
  | None => "undefined"
  end.

(** [BigInt(v)] *)
Definition BigInt (v : json) : Result Z :=
  match v with
  | JNull => Throw (Error "Cannot convert null to a BigInt")
  | JBool b => Ok (if b then 1 else 0)
  | JNum n => JSNumber.BigInt n
  | JStr s => JSBigInt.BigInt s
  | JArr _ | JObj _ => JSBigInt.BigInt (json_text v)
  end.

(** [Number(v)], the conversion a comparison with a number applies. *)
Definition ToNumber (v : json) : number :=
  match v with
  | JNull => Finite 0
  | JBool b => Finite (if b then 1 else 0)
  | JNum n => n
  | JStr s => StringToNumber s
  | JArr _ | JObj _ => StringToNumber (json_text v)
  end.

(** A whole number as a JSON number; binary64 holds the integers the
    model meets exactly. *)
Definition integer (z : Z) : json := JNum (Finite (inject_Z z)).

(** [Number(v)] for a value that may be [undefined]: the conversion a
    comparison with a number applies. *)
Definition ToNumber_unknown (v : unknown) : number :=
  match v with
  | Some j => ToNumber j
  | None => NaN
  end.

(** [v !== s] for a string [s]. *)
Definition differs_from (v : unknown) (s : string) : bool :=
  match as_string v with
  | Some s' => negb (String.eqb s' s)
  | None => true
  end.

Definition number_eq_dec : forall a b : number, {a = b} + {a <> b}.
Proof.
  decide equality; [apply Bool.bool_dec|].
  decide equality; [apply Pos.eq_dec | apply Z.eq_dec].
Defined.

(** Equality of values is decidable. *)
Definition json_eq_dec : forall a b : json, {a = b} + {a <> b}.
Proof.
  fix IH 1. intros a b.
  destruct a as [|x|x|x|x|x], b as [|y|y|y|y|y];
    try (right; discriminate); try (left; reflexivity).
  - destruct (Bool.bool_dec x y) as [->|Hne]; [left; reflexivity | right; congruence].
  - destruct (number_eq_dec x y) as [->|Hne]; [left; reflexivity | right; congruence].
  - destruct (String.string_dec x y) as [->|Hne]; [left; reflexivity | right; congruence].
  - destruct (List.list_eq_dec IH x y) as [->|Hne]; [left; reflexivity | right; congruence].
  - assert (Hfield : forall p q : string * json, {p = q} + {p <> q}).
    { intros [k v] [k' v'].
      destruct (String.string_dec k k') as [->|Hne]; [|right; congruence].
      destruct (IH v v') as [->|Hne]; [left; reflexivity | right; congruence]. }
    destruct (List.list_eq_dec Hfield x y) as [->|Hne]; [left; reflexivity | right; congruence].
Defined.

#[global] Instance json_eq_decision : EqDecision json := json_eq_dec.

End JSON.

(** ** Receipts ([types.ts], [receipt.ts]) and the jose library *)

Module Types.

Record X402Receipt := {
  id : string;            (* Unique receipt ID *)
  contentId : string;     (* Content ID this receipt unlocks *)
  payer : string;         (* Payer's wallet address *)
  payee : string;         (* Payee's wallet address *)
  amount : string;        (* Amount paid in smallest unit *)
  currency : string;
  txHash : string;        (* Transaction hash on-chain *)
  chainId : Z;            (* Chain ID where payment occurred *)
  paidAt : Z;             (* Timestamp of payment (Unix seconds) *)
  expiresAt : Z;          (* Expiry timestamp (Unix seconds) *)
  facilitator : string    (* Facilitator URL that issued this receipt *)
}.

End Types.

(** A receipt as it is read off a claims set.  [payload.id as string] and
    the like check nothing: each property of the object holds what the
    claims set holds under its name, of whatever type, or [undefined]. *)
Module Unchecked.
Import JSON.

Record X402Receipt := {
  id : unknown;
  contentId : unknown;
  payer : unknown;
  payee : unknown;
  amount : unknown;
  currency : unknown;
  txHash : unknown;
  chainId : unknown;
  paidAt : unknown;
  expiresAt : unknown;
  facilitator : unknown
}.

(** A receipt of the declared types, as such an object. *)
Definition of_receipt (r : Types.X402Receipt) : X402Receipt :=
  {| id := Some (JStr (Types.id r));
     contentId := Some (JStr (Types.contentId r));
     payer := Some (JStr (Types.payer r));
     payee := Some (JStr (Types.payee r));
     amount := Some (JStr (Types.amount r));
     currency := Some (JStr (Types.currency r));
     txHash := Some (JStr (Types.txHash r));
     chainId := Some (integer (Types.chainId r));
     paidAt := Some (integer (Types.paidAt r));
     expiresAt := Some (integer (Types.expiresAt r));
     facilitator := Some (JStr (Types.facilitator r)) |}.

End Unchecked.

(** The part of the jose library the receipts use.  A compact JWS is kept
    structured: its first part, a protected header that names an algorithm
    or else a text that is none; its claims set, any JSON object; and its
    signature (the base64url and JSON layers are taken as a faithful
    encoding).  A text that is not of three parts, or whose second part
    does not encode a JSON object, is [Malformed]. *)
Module Jose.
Import JSString JSNumber JSON.

Record JWTHeader := {
  alg : string;
  typ : option string
}.

(** The claims set: the fields of a JSON object. *)
Definition JWTPayload := list (string * json).

Inductive token :=
| Compact (header : option JWTHeader) (payload : JWTPayload) (signature : string)
| Malformed (text : string).

(** The cryptographic primitives, left abstract: the MAC of the HS
    algorithms over the signing input, and the import and the verification
    of an ECDSA P-256 public key. *)
Class Primitives := {
  HMAC : string -> string -> JWTHeader * JWTPayload -> string;
  importSPKI_ok : string -> bool;
  ECDSA_verify : string -> JWTHeader * JWTPayload -> string -> bool
}.

Inductive KeyLike :=
| SecretKey (bytes : string)      (* a Uint8Array *)
| PublicKey (spki : string).      (* a CryptoKey imported for ES256 *)

Section WithPrimitives.
Context `{Primitives}.

(** [new SignJWT(payload).setProtectedHeader(header).sign(secretKey)] *)
Definition SignJWT_sign (header : JWTHeader) (payload : JWTPayload) (secretKey : string) : token :=
  Compact (Some header) payload (HMAC (alg header) secretKey (header, payload)).

(** [importSPKI(pem, 'ES256')] *)
Definition importSPKI (pem : string) : Result KeyLike :=
  if importSPKI_ok pem then Ok (PublicKey pem)
  else Throw (Error (quoted "spki" ++ " must be SPKI formatted string")).

Definition is_HS (a : string) : bool :=
  String.eqb a "HS256" || String.eqb a "HS384" || String.eqb a "HS512".

(** The signature check of [jwtVerify]: the first part must be a protected
    header, the key must suit its algorithm, and the signature must
    verify. *)
Definition verify_signature (key : KeyLike) (header : option JWTHeader) (payload : JWTPayload)
    (signature : string) : Result unit :=
  match header with
  | None => Throw (Error "JWS Protected Header is invalid")
  | Some header =>
      match key with
      | SecretKey k =>
          if is_HS (alg header) then
            if String.eqb signature (HMAC (alg header) k (header, payload)) then Ok tt
            else Throw (Error "signature verification failed")
          else Throw (Error "Key for this algorithm must be of type CryptoKey")
      | PublicKey pk =>
          if String.eqb (alg header) "ES256" then
            if ECDSA_verify pk (header, payload) signature then Ok tt
            else Throw (Error "signature verification failed")
          else Throw (Error "CryptoKey does not support this operation")
      end
  end.

(** The claims validation of [jwtVerify] without options: [iat], [nbf] and
    [exp], when present, must be numbers; [nbf] must not be in the future
    and [exp] must be in the future; [now] is in seconds. *)
Definition validate_claims (payload : JWTPayload) (now : Z) : Result JWTPayload :=
  let now_number := Finite (inject_Z now) in
  match lookup_field "iat" payload with
  | None | Some (JNum _) => Ok tt
  | Some _ => Throw (Error (quoted "iat" ++ " claim must be a number"))
  end;;
  match lookup_field "nbf" payload with
  | None => Ok tt
  | Some (JNum n) =>
      if lt now_number n then Throw (Error (quoted "nbf" ++ " claim timestamp check failed"))
      else Ok tt
  | Some _ => Throw (Error (quoted "nbf" ++ " claim must be a number"))
  end;;
  match lookup_field "exp" payload with
  | None => Ok tt
  | Some (JNum e) =>
      if le e now_number then Throw (Error (quoted "exp" ++ " claim timestamp check failed"))
      else Ok tt
  | Some _ => Throw (Error (quoted "exp" ++ " claim must be a number"))
  end;;
  Ok payload.

(** [jwtVerify(token, key)] at the instant [now] (seconds). *)
Definition jwtVerify (t : token) (key : KeyLike) (now : Z) : Result JWTPayload :=
  match t with
  | Malformed _ => Throw (Error "Invalid Compact JWS")
  | Compact header payload signature =>
      verify_signature key header payload signature;;
      validate_claims payload now
  end.

(** [decodeJwt(token)]: the claims set, nothing verified; the first and the
    third part are not looked at. *)
Definition decodeJwt (t : token) : Result JWTPayload :=
  match t with
  | Malformed _ => Throw (Error "Invalid JWT")
  | Compact _ payload _ => Ok payload
  end.

End WithPrimitives.
End Jose.

Module Receipt.
Import JSString JSNumber Constants Types JSON Jose.

(** [n.toString(36)] for an integer [n]. *)
Definition digit36 (d : Z) : ascii :=
  ascii_of_nat (Z.to_nat (if d <? 10 then 48 + d else 87 + d)).

Fixpoint radix36 (fuel : nat) (n : Z) (acc : string) : string :=
  let acc' := String (digit36 (n mod 36)) acc in
  match fuel with
  | O => acc'
  | S fuel' => if n / 36 =? 0 then acc' else radix36 fuel' (n / 36) acc'
  end.

Definition toString36 (n : Z) : string :=
  if n <? 0 then "-" ++ radix36 (Z.to_nat (Z.log2 (- n))) (- n) EmptyString
  else radix36 (Z.to_nat (Z.log2 n)) n EmptyString.

(** Generate a unique receipt ID.  [random36] is the text
    [Math.random().toString(36)] of the random number drawn. *)
Definition generateReceiptId (now_ms : Z) (random36 : string) : string :=
  let timestamp := toString36 now_ms in
  let random := substring 2 8 random36 in
  "rcpt_" ++ timestamp ++ random.

Record BuildReceiptParams := {
  p_contentId : string;
  p_payer : string;
  p_payee : string;
  p_amount : string;
  p_currency : option string;
  p_txHash : string;
  p_chainId : Z;
  p_facilitator : option string;
  p_ttlSeconds : option Z
}.

(** Build a receipt object from payment details. *)
Definition buildReceipt (params : BuildReceiptParams) (now_ms : Z) (random36 : string)
    : X402Receipt :=
  let now := now_ms / 1000 in
  let ttl := default DEFAULT_RECEIPT_TTL (p_ttlSeconds params) in
  {| id := generateReceiptId now_ms random36;
     contentId := p_contentId params;
     payer := p_payer params;
     payee := p_payee params;
     amount := p_amount params;
     currency := default "USDC" (p_currency params);
     txHash := p_txHash params;
     chainId := p_chainId params;
     paidAt := now;
     expiresAt := now + ttl;
     facilitator := default "https://x402.org/facilitator" (p_facilitator params) |}.

Record VerifyOptions := {
  jwtSecret : option string;              (* JWT secret for signature verification *)
  facilitatorPublicKey : option string;   (* Facilitator public key *)
  expectedContentId : option string       (* Expected content ID *)
}.

Record VerifyResult := {
  valid : bool;
  receipt : option Unchecked.X402Receipt;
  error : option string
}.

(** An optional string that is present and not empty. *)
Definition truthy_opt (o : option string) : option string :=
  match o with
  | Some s => if truthy s then Some s else None
  | None => None
  end.

Definition exn_message (e : exn) : string :=
  match e with
  | SyntaxError m | RangeError m | Error m => m
  | X402PaymentError m _ | X402BudgetError m _ | X402NetworkError m _ => m
  end.

Section WithPrimitives.
Context `{Primitives}.

(** The claims set of a receipt token, [{ ...receipt, sub, iat, exp }], as
    its JSON text reads back. *)
Definition receipt_claims (receipt : X402Receipt) : JWTPayload :=
  [ ("id", JStr (id receipt));
    ("contentId", JStr (contentId receipt));
    ("payer", JStr (payer receipt));
    ("payee", JStr (payee receipt));
    ("amount", JStr (amount receipt));
    ("currency", JStr (currency receipt));
    ("txHash", JStr (txHash receipt));
    ("chainId", integer (chainId receipt));
    ("paidAt", integer (paidAt receipt));
    ("expiresAt", integer (expiresAt receipt));
    ("facilitator", JStr (facilitator receipt));
    (* Standard JWT claims *)
    ("sub", JStr (payer receipt));
    ("iat", integer (paidAt receipt));
    ("exp", integer (expiresAt receipt)) ].

(** Create a signed JWT receipt token. *)
Definition createReceiptToken (receipt : X402Receipt) (secret : string) : token :=
  let secretKey := secret in
  SignJWT_sign {| alg := "HS256"; typ := Some "JWT" |} (receipt_claims receipt) secretKey.

(** The first step of [verifyReceipt]: the claims set of the token, by the
    path the options select; [now] is in seconds. *)
Definition verified_payload (t : token) (options : VerifyOptions) (now : Z) : Result JWTPayload :=
  match truthy_opt (jwtSecret options) with
  | Some secret =>
      (* Verify with symmetric secret *)
      jwtVerify t (SecretKey secret) now
  | None =>
      match truthy_opt (facilitatorPublicKey options) with
      | Some pem =>
          (* Verify with asymmetric public key *)
          publicKey ← importSPKI pem;
          jwtVerify t publicKey now
      | None =>
          (* Decode without verification (for client-side display only) *)
          decodeJwt t
      end
  end.

(** Extract receipt from payload: [{ id: payload.id as string, ... }]. *)
Definition receipt_of (payload : JWTPayload) : Unchecked.X402Receipt :=
  {| Unchecked.id := lookup_field "id" payload;
     Unchecked.contentId := lookup_field "contentId" payload;
     Unchecked.payer := lookup_field "payer" payload;
     Unchecked.payee := lookup_field "payee" payload;
     Unchecked.amount := lookup_field "amount" payload;
     Unchecked.currency := lookup_field "currency" payload;
     Unchecked.txHash := lookup_field "txHash" payload;
     Unchecked.chainId := lookup_field "chainId" payload;
     Unchecked.paidAt := lookup_field "paidAt" payload;
     Unchecked.expiresAt := lookup_field "expiresAt" payload;
     Unchecked.facilitator := lookup_field "facilitator" payload |}.

(** Verify a receipt JWT token; the clock reads [now_ms]. *)
Definition verifyReceipt (t : token) (options : VerifyOptions) (now_ms : Z) : VerifyResult :=
  let now := now_ms / 1000 in
  let attempt : Result VerifyResult :=
    payload ← verified_payload t options now;
    (* Extract receipt from payload *)
    let receipt := receipt_of payload in
    (* Check expiry *)
    if lt (ToNumber_unknown (Unchecked.expiresAt receipt)) (Finite (inject_Z now)) then
      Ok {| valid := false; receipt := Some receipt; error := Some "Receipt has expired" |}
    else
      (* Check content ID if specified *)
      match truthy_opt (expectedContentId options) with
      | Some expected =>
          if differs_from (Unchecked.contentId receipt) expected then
            Ok {| valid := false; receipt := Some receipt;
                  error := Some ("Receipt is for content "
                                 ++ quoted (text (Unchecked.contentId receipt))
                                 ++ ", not " ++ quoted expected) |}
          else Ok {| valid := true; receipt := Some receipt; error := None |}
      | None => Ok {| valid := true; receipt := Some receipt; error := None |}
      end in
  match attempt with
  | Ok r => r
  | Throw e =>
      {| valid := false; receipt := None;
         error := Some ("Receipt verification failed: " ++ exn_message e) |}
  end.

(** Decode a receipt token without verification. *)
Definition decodeReceipt (t : token) : option Unchecked.X402Receipt :=
  match decodeJwt t with
  | Ok payload => Some (receipt_of payload)
  | Throw _ => None
  end.

End WithPrimitives.

(** *** Receipt extraction from HTTP headers *)

(** A Web API [Headers] object: a list of name and value pairs; [get] looks
    a name up without regard to case and joins the values found. *)
Definition WebHeaders := list (string * string).

Fixpoint Headers_values (name : string) (h : WebHeaders) : list string :=
  match h with
  | (n, v) :: r =>
      if String.eqb (toLowerCase n) (toLowerCase name) then v :: Headers_values name r
      else Headers_values name r
  | [] => []
  end.

Fixpoint join_comma (l : list string) : string :=
  match l with
  | [] => EmptyString
  | [v] => v
  | v :: r => v ++ ", " ++ join_comma r
  end.

Definition Headers_get (h : WebHeaders) (name : string) : option string :=
  match Headers_values name h with
  | [] => None
  | vs => Some (join_comma vs)
  end.

(** The two forms the headers come in. *)
Inductive headers_arg :=
| OfHeaders (h : WebHeaders)
| OfRecord (o : gmap string string).

(** [a || b] on optional strings: [a] when it is present and not empty. *)
Definition or_else (a b : option string) : option string :=
  match truthy_opt a with
  | Some s => Some s
  | None => b
  end.

Definition extractReceiptFromHeaders (headers : headers_arg) : option string :=
  match headers with
  | OfHeaders h =>
      (* Check X-402-Receipt header first *)
      match truthy_opt (Headers_get h "X-402-Receipt") with
      | Some receipt => Some receipt
      | None =>
          (* Check X-PAYMENT header (V2 / agent-compatible) *)
          match truthy_opt (Headers_get h "X-PAYMENT") with
          | Some xPayment => Some xPayment
          | None =>
              (* Check Authorization header *)
              match Headers_get h "Authorization" with
              | Some auth => if startsWith auth "X402 " then Some (slice 5 auth) else None
              | None => None
              end
          end
      end
  | OfRecord o =>
      match truthy_opt (or_else (o !! "X-402-Receipt") (o !! "x-402-receipt")) with
      | Some receipt => Some receipt
      | None =>
          match truthy_opt (or_else (o !! "X-PAYMENT") (o !! "x-payment")) with
          | Some xPayment => Some xPayment
          | None =>
              match or_else (o !! "Authorization") (o !! "authorization") with
              | Some auth => if startsWith auth "X402 " then Some (slice 5 auth) else None
              | None => None
              end
          end
      end
  end.

End Receipt.

(** ** Facilitator ([signature.ts], [executor.ts], [config.ts], [handler.ts]) *)

Module Facilitator.
Import JSString JSNumber Constants Types Jose Receipt Fee JSON.

(** The authorization of a payload that passed [validatePayload]: the
    addresses and the nonce are strings; nothing was checked of the amount
    and of the two bounds but their presence. *)
Record TransferAuthorization := {
  from : string;
  to : string;
  value : json;
  validAfter : json;
  validBefore : json;
  nonce : string
}.

Record FacilitatorPayload := {
  network : string;
  signature : string;
  authorization : TransferAuthorization;
  resource : string
}.

(** *** [signature.ts] *)

Record NetworkInfo := {
  x402Network : X402Network;
  net_chainId : Z
}.

(** Resolve a CAIP-2 network string to X402Network identifier. *)
Definition resolveNetwork (network : string) : option NetworkInfo :=
  match
    List.find (fun '(name, id) => String.eqb network ("eip155:" ++ JSBigInt.toString id))
      NUMERIC_CHAIN_IDS_entries
  with
  | Some (name, id) => Some {| x402Network := name; net_chainId := id |}
  | None => None
  end.

Record Domain := {
  d_name : string;
  d_version : string;
  d_chainId : Z;
  d_verifyingContract : string
}.

Definition buildDomain (chainId : Z) (x402Network : X402Network) : Domain :=
  {| d_name := "USD Coin";
     d_version := "2";
     d_chainId := chainId;
     d_verifyingContract := USDC_ADDRESSES x402Network |}.

Record Message := {
  m_from : string;
  m_to : string;
  m_value : Z;
  m_validAfter : Z;
  m_validBefore : Z;
  m_nonce : string
}.

(** viem's [recoverTypedDataAddress] for the primary type
    [TransferWithAuthorization], left abstract. *)
Class Recovery := {
  recoverTypedDataAddress : Domain -> Message -> string -> Result string
}.

(** [executor.execute(params)]; a [Throw] is a rejected promise. *)
Record ExecuteParams := {
  e_authorization : TransferAuthorization;
  e_signature : string;
  e_chainId : Z
}.

Record TransferResult := {
  r_txHash : string;
  success : bool
}.

Definition TransferExecutor := ExecuteParams -> Result TransferResult.

(** The mock executor of [executor.ts]: a fake hash made of the nonce. *)
Definition MockTransferExecutor : TransferExecutor := fun params =>
  let nonce := slice 2 (nonce (e_authorization params)) in
  let txHash := "0x" ++ JSString.repeat "00" 12 ++ substring 0 40 nonce in
  Ok {| r_txHash := txHash; success := true |}.

Record FacilitatorConfig := {
  port : Z;
  jwtSecret : string;
  feePercent : number;
  facilitatorUrl : string;
  mockTransfers : bool
}.

Section WithPrimitives.
Context `{Primitives} `{Recovery}.

(** Recover the signer address from an EIP-712 signature. *)
Definition recoverSigner (authorization : TransferAuthorization) (signature : string)
    (chainId : Z) (x402Network : X402Network) : Result string :=
  let domain := buildDomain chainId x402Network in
  value ← BigInt (value authorization);
  validAfter ← BigInt (validAfter authorization);
  validBefore ← BigInt (validBefore authorization);
  recoverTypedDataAddress domain
    {| m_from := from authorization;
       m_to := to authorization;
       m_value := value;
       m_validAfter := validAfter;
       m_validBefore := validBefore;
       m_nonce := nonce authorization |}
    signature.

Record SignatureResult := {
  sig_valid : bool;
  recoveredAddress : string;
  sig_error : option string
}.

(** Verify that an EIP-712 signature is valid for the given authorization. *)
Definition verifySignature (authorization : TransferAuthorization) (signature : string)
    (chainId : Z) (x402Network : X402Network) : SignatureResult :=
  match recoverSigner authorization signature chainId x402Network with
  | Ok recovered =>
      let fromNormalized := toLowerCase (from authorization) in
      let recoveredNormalized := toLowerCase recovered in
      if negb (String.eqb fromNormalized recoveredNormalized) then
        {| sig_valid := false;
           recoveredAddress := recovered;
           sig_error := Some ("Signature mismatch: expected " ++ from authorization
                              ++ ", recovered " ++ recovered) |}
      else {| sig_valid := true; recoveredAddress := recovered; sig_error := None |}
  | Throw err =>
      {| sig_valid := false;
         recoveredAddress := "0x0000000000000000000000000000000000000000";
         sig_error := Some ("Signature recovery failed: " ++ exn_message err) |}
  end.

Record TimeResult := {
  time_valid : bool;
  time_error : option string
}.

(** Validate the time window of a transfer authorization. *)
Definition validateTimeWindow (authorization : TransferAuthorization) (now_ms : Z) : TimeResult :=
  let now := now_ms / 1000 in
  let now_number := Finite (inject_Z now) in    (* an integer that binary64 holds exactly *)
  if le (ToNumber (validBefore authorization)) now_number then
    {| time_valid := false;
       time_error := Some ("Authorization expired: validBefore "
                           ++ json_text (validBefore authorization)
                           ++ " <= now " ++ JSBigInt.toString now) |}
  else if lt now_number (ToNumber (validAfter authorization)) then
    {| time_valid := false;
       time_error := Some ("Authorization not yet valid: validAfter "
                           ++ json_text (validAfter authorization)
                           ++ " > now " ++ JSBigInt.toString now) |}
  else {| time_valid := true; time_error := None |}.

(** *** [handler.ts] *)

Inductive Validation :=
| ValidPayload (payload : FacilitatorPayload)
| InvalidPayload (error : string).

Definition is_0x (v : unknown) : option string :=
  match as_string v with
  | Some s => if startsWith s "0x" then Some s else None
  | None => None
  end.

(** Validate the shape of a FacilitatorPayload. *)
Definition validatePayload (body : unknown) : Validation :=
  match body with
  | Some obj =>
  if falsy body || negb (is_object body) then InvalidPayload "Request body must be a JSON object"
  else
  match get obj "x402Version" with
  | Some (JNum (Finite q)) =>
  if negb (Qeq_bool q 1) then
    InvalidPayload ("Unsupported x402Version: " ++ text (get obj "x402Version") ++ ". Expected 1")
  else
  match get obj "scheme" with
  | Some (JStr "exact") =>
  match as_string (get obj "network") with
  | None => InvalidPayload "Missing or invalid network field"
  | Some network =>
  match as_string (get obj "resource") with
  | None => InvalidPayload "Missing or invalid resource field"
  | Some resource =>
  match get obj "payload" with
  | Some payload =>
  if falsy (Some payload) || negb (is_object (Some payload)) then InvalidPayload "Missing payload field"
  else
  match is_0x (get payload "signature") with
  | None => InvalidPayload "Missing or invalid payload.signature"
  | Some signature =>
  match get payload "authorization" with
  | Some auth =>
  if falsy (Some auth) || negb (is_object (Some auth)) then InvalidPayload "Missing payload.authorization"
  else
  match
    List.find (fun field => nullish (get auth field))
      ["from"; "to"; "value"; "validAfter"; "validBefore"; "nonce"]
  with
  | Some field => InvalidPayload ("Missing payload.authorization." ++ field)
  | None =>
  match is_0x (get auth "from") with
  | None => InvalidPayload "Invalid authorization.from address"
  | Some from =>
  match is_0x (get auth "to") with
  | None => InvalidPayload "Invalid authorization.to address"
  | Some to =>
  match is_0x (get auth "nonce") with
  | None => InvalidPayload "Invalid authorization.nonce"
  | Some nonce =>
  match get auth "value", get auth "validAfter", get auth "validBefore" with
  | Some value, Some validAfter, Some validBefore =>
      ValidPayload
        {| network := network;
           signature := signature;
           authorization :=
             {| from := from; to := to; value := value;
                validAfter := validAfter; validBefore := validBefore; nonce := nonce |};
           resource := resource |}
  | _, _, _ => InvalidPayload "Missing payload.authorization.value"   (* excluded by the loop above *)
  end end end end end
  | None => InvalidPayload "Missing payload.authorization"
  end end
  | None => InvalidPayload "Missing payload field"
  end end end
  | _ => InvalidPayload ("Unsupported scheme: " ++ text (get obj "scheme") ++ ". Expected " ++ quoted "exact")
  end
  | _ => InvalidPayload ("Unsupported x402Version: " ++ text (get obj "x402Version") ++ ". Expected 1")
  end
  | None => InvalidPayload "Request body must be a JSON object"
  end.

(** [calculateFee(authorization.value, feePercent)]: the amount is a string
    by its type; of any other value [BigInt] makes the same total. *)
Definition calculateFee_of (amount : json) (feePercent : number) : Result FeeBreakdown :=
  match amount with
  | JStr text => calculateFee text feePercent
  | _ =>
      total ← BigInt amount;
      calculateFee (JSBigInt.toString total) feePercent
  end.

(** The body of an answer: [{ error }], the error being a string or
    [undefined], or [{ receipt, txHash }]. *)
Inductive HandlerBody :=
| ErrorBody (error : option string)
| ReceiptBody (receipt : token) (txHash : string).

Record HandlerResult := {
  status : Z;
  body : HandlerBody
}.

(** Handle a facilitator payment request.  The clock reads [now_window] at
    the time-window check and [now_receipt] when the receipt is built, after
    the transfer; [random36] feeds the receipt id.  A [Throw] is an error
    the handler does not catch. *)
Definition handlePayment (payload : unknown) (config : FacilitatorConfig)
    (executor : TransferExecutor) (now_window now_receipt : Z) (random36 : string)
    : Result HandlerResult :=
  (* 1. Validate payload structure *)
  match validatePayload payload with
  | InvalidPayload error => Ok {| status := 400; body := ErrorBody (Some error) |}
  | ValidPayload request =>
  (* 2. Resolve network *)
  match resolveNetwork (network request) with
  | None =>
      Ok {| status := 400; body := ErrorBody (Some ("Unsupported network: " ++ network request)) |}
  | Some networkInfo =>
  let authorization := authorization request in
  let signature := signature request in
  (* 3. Verify EIP-712 signature *)
  let sigResult :=
    verifySignature authorization signature (net_chainId networkInfo) (x402Network networkInfo) in
  if negb (sig_valid sigResult) then
    Ok {| status := 400; body := ErrorBody (sig_error sigResult) |}
  else
  (* 4. Validate time window *)
  let timeResult := validateTimeWindow authorization now_window in
  if negb (time_valid timeResult) then
    Ok {| status := 400; body := ErrorBody (time_error timeResult) |}
  else
  (* 5. Calculate fee *)
  fees ← calculateFee_of (value authorization) (feePercent config);
  (* 6. Execute transfer *)
  match
    executor {| e_authorization := authorization;
                e_signature := signature;
                e_chainId := net_chainId networkInfo |}
  with
  | Throw err =>
      Ok {| status := 500; body := ErrorBody (Some ("Transfer failed: " ++ exn_message err)) |}
  | Ok transferResult =>
  if negb (success transferResult) then
    Ok {| status := 500; body := ErrorBody (Some "Transfer execution failed") |}
  else
  let txHash := r_txHash transferResult in
  (* 7. Build & sign receipt *)
  let receipt :=
    buildReceipt
      {| p_contentId := resource request;
         p_payer := from authorization;
         p_payee := to authorization;
         p_amount := publisherAmount fees;
         p_currency := Some "USDC";
         p_txHash := txHash;
         p_chainId := net_chainId networkInfo;
         p_facilitator := Some (facilitatorUrl config);
         p_ttlSeconds := None |}
      now_receipt random36 in
  let receiptToken := createReceiptToken receipt (jwtSecret config) in
  (* 8. Return receipt *)
  Ok {| status := 200; body := ReceiptBody receiptToken txHash |}
  end end end.

End WithPrimitives.
End Facilitator.

(** ** Agent: receipt cache ([cache.ts]) *)

Module Cache.

Record CacheEntry := {
  token : string;      (* JWT receipt token *)
  expiresAt : Z        (* Expiry timestamp (ms since epoch) *)
}.

Record ReceiptCache := {
  cache : gmap string CacheEntry;
  defaultTTL : Z;
  accessCount : Z
}.

Definition cleanupInterval : Z := 100.

(** [new ReceiptCache(defaultTTL)], 86400 when no TTL is given. *)
Definition new (defaultTTL : option Z) : ReceiptCache :=
  {| cache := ∅; defaultTTL := default 86400 defaultTTL; accessCount := 0 |}.

Definition with_cache (c : ReceiptCache) (m : gmap string CacheEntry) : ReceiptCache :=
  {| cache := m; defaultTTL := defaultTTL c; accessCount := accessCount c |}.

(** Remove all expired entries. *)
Definition cleanup (now : Z) (c : ReceiptCache) : ReceiptCache :=
  with_cache c (filter (fun kv => ¬ (expiresAt kv.2 < now)) (cache c)).

(** Get a cached receipt token: the token and the cache after the call. *)
Definition get (contentId : string) (now : Z) (c : ReceiptCache)
    : option string * ReceiptCache :=
  let c := {| cache := cache c; defaultTTL := defaultTTL c; accessCount := accessCount c + 1 |} in
  (* Periodic cleanup every N accesses *)
  let c := if Z.rem (accessCount c) cleanupInterval =? 0 then cleanup now c else c in
  match cache c !! contentId with
  | None => (None, c)
  | Some entry =>
      (* Check expiry *)
      if expiresAt entry <? now then (None, with_cache c (delete contentId (cache c)))
      else (Some (token entry), c)
  end.

(** Cache a receipt token. *)
Definition set (contentId : string) (token : string) (ttl : option Z) (now : Z)
    (c : ReceiptCache) : ReceiptCache :=
  let effectiveTTL := default (defaultTTL c) ttl in
  with_cache c (<[contentId := {| token := token; expiresAt := now + effectiveTTL * 1000 |}]> (cache c)).

Definition has (contentId : string) (now : Z) (c : ReceiptCache) : bool * ReceiptCache :=
  match cache c !! contentId with
  | None => (false, c)
  | Some entry =>
      if expiresAt entry <? now then (false, with_cache c (delete contentId (cache c)))
      else (true, c)
  end.

Definition delete (contentId : string) (c : ReceiptCache) : ReceiptCache :=
  with_cache c (base.delete contentId (cache c)).

Definition clear (c : ReceiptCache) : ReceiptCache :=
  {| cache := ∅; defaultTTL := defaultTTL c; accessCount := 0 |}.

End Cache.

(** ** Agent: budget manager ([budget.ts]) *)

Module Budget.
Import JSString JSNumber Pricing Receipt.

Record SpendingPolicy := {
  maxPerRequest : option string;          (* Maximum USDC per single request *)
  maxTotal : option string;               (* Maximum USDC lifetime spend *)
  allowedDomains : option (list string)   (* Whitelist of allowed domains *)
}.

Record PaymentRecord := {
  contentId : string;
  amount : string;
  domain : string;
  timestamp : Z
}.

Record SpendCheckResult := {
  allowed : bool;
  reason : option string
}.

(** The manager: its policy, its two counters, and whether the callback
    [onBudgetWarning] is set. *)
Record BudgetManager := {
  policy : SpendingPolicy;
  totalSpent : Z;
  history : list PaymentRecord;
  onBudgetWarning : bool
}.

Definition new (policy : SpendingPolicy) : BudgetManager :=
  {| policy := policy; totalSpent := 0; history := []; onBudgetWarning := false |}.

Definition includes (l : list string) (s : string) : bool :=
  existsb (String.eqb s) l.

Definition no_symbol : FormatOptions := {| symbol := Some false; decimals := None |}.

(** [BigInt(parsePrice(amount))] *)
Definition smallest (amount : string) : Result Z :=
  s ← parsePrice (Text amount);
  JSBigInt.BigInt s.

(** Check if a spend amount is allowed under the current policy. *)
Definition checkSpend (b : BudgetManager) (amount : string) (domain : option string)
    : Result SpendCheckResult :=
  let domain_check : option SpendCheckResult :=
    (* Check domain allowlist *)
    match truthy_opt domain, allowedDomains (policy b) with
    | Some domain, Some allowedDomains =>
        if (0 <? Z.of_nat (length allowedDomains)) && negb (includes allowedDomains domain)
        then Some {| allowed := false;
                     reason := Some ("Domain " ++ quoted domain ++ " is not in the allowed list") |}
        else None
    | _, _ => None
    end in
  match domain_check with
  | Some rejected => Ok rejected
  | None =>
  amountSmallest ← smallest amount;
  (* Check per-request limit *)
  per_request ←
    match truthy_opt (maxPerRequest (policy b)) with
    | Some limit =>
        maxPerRequest ← smallest limit;
        if maxPerRequest <? amountSmallest then
          Ok (Some {| allowed := false;
                      reason := Some ("Amount " ++ amount ++ " USDC exceeds per-request limit of "
                                      ++ limit ++ " USDC") |})
        else Ok None
    | None => Ok None
    end;
  match per_request with
  | Some rejected => Ok rejected
  | None =>
  (* Check total limit *)
  match truthy_opt (maxTotal (policy b)) with
  | Some limit =>
      maxTotal ← smallest limit;
      let projectedTotal := totalSpent b + amountSmallest in
      if maxTotal <? projectedTotal then
        let remaining := maxTotal - totalSpent b in
        text ← formatPrice (Text (JSBigInt.toString remaining)) no_symbol;
        Ok {| allowed := false;
              reason := Some ("Would exceed total budget. Remaining: " ++ text ++ " USDC") |}
      else Ok {| allowed := true; reason := None |}
  | None => Ok {| allowed := true; reason := None |}
  end end end.

(** Record a completed spend.  The manager is updated in place: the state
    returned is the one reached, also when the call throws.  The value
    returned is the argument [onBudgetWarning] was called with, if it was. *)
Definition recordSpend (b : BudgetManager) (amountSmallest contentId domain : string) (now : Z)
    : Result (option string) * BudgetManager :=
  match JSBigInt.BigInt amountSmallest with
  | Throw e => (Throw e, b)
  | Ok a =>
      let b :=
        {| policy := policy b;
           totalSpent := totalSpent b + a;
           history := history b ++ [{| contentId := contentId; amount := amountSmallest;
                                       domain := domain; timestamp := now |}];
           onBudgetWarning := onBudgetWarning b |} in
      (* Check for 80% budget warning *)
      match truthy_opt (maxTotal (policy b)) with
      | Some limit =>
          (maxTotal ← smallest limit;
           let threshold := Z.quot (maxTotal * 80) 100 in
           if (threshold <=? totalSpent b) && onBudgetWarning b then
             let remaining := maxTotal - totalSpent b in
             text ← formatPrice (Text (JSBigInt.toString remaining)) no_symbol;
             Ok (Some text)
           else Ok None, b)
      | None => (Ok None, b)
      end
  end.

(** Get the remaining total budget in smallest unit (or null if unlimited). *)
Definition getRemainingSmallest (b : BudgetManager) : Result (option string) :=
  match truthy_opt (maxTotal (policy b)) with
  | None => Ok None
  | Some limit =>
      maxTotal ← smallest limit;
      let remaining := maxTotal - totalSpent b in
      Ok (Some (JSBigInt.toString remaining))
  end.

Definition reset (b : BudgetManager) : BudgetManager :=
  {| policy := policy b; totalSpent := 0; history := []; onBudgetWarning := onBudgetWarning b |}.

(** Assert that a spend is allowed, throwing if not. *)
Definition assertSpend (b : BudgetManager) (amount : string) (domain : option string)
    : Result unit :=
  check ← checkSpend b amount domain;
  if negb (allowed check) then
    let reason := default EmptyString (reason check) in
    (* Determine specific error code *)
    let domain_rejected :=
      match truthy_opt domain, allowedDomains (policy b) with
      | Some domain, Some allowedDomains => negb (includes allowedDomains domain)
      | _, _ => false
      end in
    if domain_rejected then Throw (X402BudgetError reason DOMAIN_NOT_ALLOWED)
    else
      per_request ←
        match truthy_opt (maxPerRequest (policy b)) with
        | Some limit =>
            maxPerRequest ← smallest limit;
            amountSmallest ← smallest amount;
            Ok (maxPerRequest <? amountSmallest)
        | None => Ok false
        end;
      if per_request : bool then Throw (X402BudgetError reason PER_REQUEST_LIMIT)
      else Throw (X402BudgetError reason BUDGET_EXCEEDED)
  else Ok tt.

End Budget.

(** ** Core: EIP-712 typed data ([eip712.ts]) and facilitator client ([facilitator.ts]) *)

Module EIP712.
Import Constants Pricing.

(** The authorization as the client builds it, with its declared types. *)
Record TransferAuthorization := {
  from : string;
  to : string;
  value : string;
  validAfter : Z;
  validBefore : Z;
  nonce : string
}.

Record USDCDomain := {
  name : string;
  version : string;
  chainId : Z;
  verifyingContract : string
}.

Definition buildUSDCDomain (network : X402Network) : USDCDomain :=
  {| name := "USD Coin";
     version := "2";
     chainId := NUMERIC_CHAIN_IDS network;
     verifyingContract := USDC_ADDRESSES network |}.

Record TypedData := {
  domain : USDCDomain;
  primaryType : string;
  message : TransferAuthorization
}.

Record BuildTransferAuthorizationParams := {
  p_from : string;
  p_to : string;
  p_price : string;
  p_network : X402Network;
  p_validAfter : option Z;
  p_validBefore : option Z;
  p_nonce : option string
}.

(** Build the full EIP-712 typed data; [fresh_nonce] is what
    [generateNonce()] draws. *)
Definition buildTransferAuthorization (params : BuildTransferAuthorizationParams)
    (now_ms : Z) (fresh_nonce : string) : Result (TypedData * TransferAuthorization) :=
  let validAfter := default 0 (p_validAfter params) in
  let validBefore := default (now_ms / 1000 + 3600) (p_validBefore params) in
  let nonce := default fresh_nonce (p_nonce params) in
  amountInSmallestUnit ← parsePrice (Text (p_price params));
  let domain := buildUSDCDomain (p_network params) in
  let authorization :=
    {| from := p_from params; to := p_to params; value := amountInSmallestUnit;
       validAfter := validAfter; validBefore := validBefore; nonce := nonce |} in
  Ok ({| domain := domain;
         primaryType := "TransferWithAuthorization";
         message := authorization |},
      authorization).

End EIP712.

Module FacilitatorClient.
Import Constants EIP712.

Record FacilitatorPayload := {
  x402Version : Z;
  scheme : string;
  network : string;
  signature : string;
  authorization : TransferAuthorization;
  resource : string
}.

Record FacilitatorResponse := {
  receipt : string;            (* JWT receipt token *)
  txHash : option string
}.

Definition buildFacilitatorPayload (signature : string) (authorization : TransferAuthorization)
    (network : X402Network) (contentId : string) : FacilitatorPayload :=
  let chainId := NUMERIC_CHAIN_IDS network in
  {| x402Version := 1;
     scheme := "exact";
     network := "eip155:" ++ JSBigInt.toString chainId;
     signature := signature;
     authorization := authorization;
     resource := contentId |}.

(** [submitToFacilitator(url, payload)] depends on the network and on the
    facilitator: the outcome of the attempt number [i] is given. *)
Definition Submission := nat -> string -> FacilitatorPayload -> Result FacilitatorResponse.

Definition non_retryable (err : exn) : bool :=
  match err with
  | X402PaymentError _ FACILITATOR_ERROR => false
  | X402PaymentError _ _ => true
  | _ => false
  end.

(** The loop of [submitToFacilitatorWithRetry], [remaining] attempts to go. *)
Fixpoint attempts (submitToFacilitator : Submission) (facilitatorUrl : string)
    (payload : FacilitatorPayload) (remaining attempt : nat) (lastError : option exn)
    : Result FacilitatorResponse :=
  match remaining with
  | O =>
      Throw (default (X402PaymentError "Facilitator request failed after retries" FACILITATOR_ERROR)
               lastError)
  | S remaining' =>
      match submitToFacilitator attempt facilitatorUrl payload with
      | Ok response => Ok response
      | Throw err =>
          (* Don't retry non-retryable errors *)
          if non_retryable err then Throw err
          else attempts submitToFacilitator facilitatorUrl payload remaining' (S attempt) (Some err)
      end
  end.

Record RetryConfig := {
  maxRetries : Z;
  backoffMs : Z
}.

Definition submitToFacilitatorWithRetry (submitToFacilitator : Submission)
    (facilitatorUrl : string) (payload : FacilitatorPayload) (options : RetryConfig)
    : Result FacilitatorResponse :=
  attempts submitToFacilitator facilitatorUrl payload (Z.to_nat (maxRetries options + 1)) 0 None.

End FacilitatorClient.

(** ** Agent: client ([client.ts]) *)

Module Client.
Import JSString Constants Pricing EIP712 FacilitatorClient.

Record PaymentRequest := {
  payTo : string;
  price : string;
  currency : string;
  contentId : string;
  pr_network : X402Network;
  pr_facilitatorUrl : string;
  description : option string
}.

Inductive PaymentEventType := payment_started | payment_success | payment_failed | budget_warning.

Record PaymentEvent := {
  type : PaymentEventType;
  ev_contentId : string;
  ev_amount : option string;
  ev_error : option exn;
  budgetRemaining : option string;
  timestamp : Z
}.

(** The client: its wallet address, its budget and its cache, and the
    events it has emitted to its listeners, oldest first. *)
Record X402AgentClient := {
  address : string;
  network : X402Network;
  budget : Budget.BudgetManager;
  receiptCache : Cache.ReceiptCache;
  facilitatorUrl : string;
  retryConfig : RetryConfig;
  emitted : list PaymentEvent
}.

(** What a call of [executePayment] meets outside the client. *)
Record Environment := {
  hostname : string -> Result string;                (* new URL(url).hostname *)
  generateNonce : string;
  signTypedData : TypedData -> Result string;        (* the wallet *)
  submitToFacilitator : Submission;
  t_start : Z;                                       (* the clock before the awaits *)
  t_end : Z                                          (* the clock after them *)
}.

Definition emit (event : PaymentEvent) (c : X402AgentClient) : X402AgentClient :=
  {| address := address c; network := network c; budget := budget c;
     receiptCache := receiptCache c; facilitatorUrl := facilitatorUrl c;
     retryConfig := retryConfig c; emitted := emitted c ++ [event] |}.

Definition with_budget (b : Budget.BudgetManager) (c : X402AgentClient) : X402AgentClient :=
  {| address := address c; network := network c; budget := b;
     receiptCache := receiptCache c; facilitatorUrl := facilitatorUrl c;
     retryConfig := retryConfig c; emitted := emitted c |}.

Definition with_receiptCache (r : Cache.ReceiptCache) (c : X402AgentClient) : X402AgentClient :=
  {| address := address c; network := network c; budget := budget c;
     receiptCache := r; facilitatorUrl := facilitatorUrl c;
     retryConfig := retryConfig c; emitted := emitted c |}.

(** Extract domain from a URL. *)
Definition extractDomain (env : Environment) (url : string) : string :=
  match hostname env url with
  | Ok h => h
  | Throw _ => url
  end.

Record Paid := {
  receiptToken : string;
  paid_txHash : option string
}.

(** The body of the [try] of [executePayment] up to the answer of the
    facilitator: nothing of the client changes in it. *)
Definition obtain_receipt (env : Environment) (c : X402AgentClient)
    (paymentRequest : PaymentRequest) (domain : string) : Result FacilitatorResponse :=
  (* Check budget *)
  Budget.assertSpend (budget c) (price paymentRequest) (Some domain);;
  (* Build EIP-712 typed data *)
  '(typedData, authorization) ←
    buildTransferAuthorization
      {| p_from := address c; p_to := payTo paymentRequest; p_price := price paymentRequest;
         p_network := network c; p_validAfter := None; p_validBefore := None; p_nonce := None |}
      (t_start env) (generateNonce env);
  (* Sign with agent wallet *)
  signature ← signTypedData env typedData;
  (* Build facilitator payload *)
  let payload := buildFacilitatorPayload signature authorization (network c) (contentId paymentRequest) in
  (* Submit to facilitator (with retry) *)
  let facilitatorUrl :=
    if truthy (pr_facilitatorUrl paymentRequest) then pr_facilitatorUrl paymentRequest
    else facilitatorUrl c in
  submitToFacilitatorWithRetry (submitToFacilitator env) facilitatorUrl payload (retryConfig c).

(** The rest of the [try]: cache the receipt, record the spend, emit the
    success.  The client is updated in place: the state returned is the one
    reached, also when a step throws. *)
Definition settle (env : Environment) (c : X402AgentClient) (paymentRequest : PaymentRequest)
    (domain : string) (result : FacilitatorResponse) : Result Paid * X402AgentClient :=
  let contentId := contentId paymentRequest in
  let price := price paymentRequest in
  (* Cache receipt *)
  let c := with_receiptCache (Cache.set contentId (receipt result) None (t_end env) (receiptCache c)) c in
  (* Record spend *)
  match parsePrice (Text price) with
  | Throw err => (Throw err, c)
  | Ok amountSmallest =>
  let (warned, b) := Budget.recordSpend (budget c) amountSmallest contentId domain (t_end env) in
  let c := with_budget b c in
  match warned with
  | Throw err => (Throw err, c)
  | Ok warning =>
  let c :=
    match warning with
    | Some remaining =>
        emit {| type := budget_warning; ev_contentId := EmptyString; ev_amount := None;
                ev_error := None; budgetRemaining := Some remaining; timestamp := t_end env |} c
    | None => c
    end in
  (* Emit success *)
  match Budget.getRemainingSmallest (budget c) with
  | Throw err => (Throw err, c)
  | Ok remaining =>
  let shown : Result (option string) :=
    match Receipt.truthy_opt remaining with
    | Some remaining => text ← formatPrice (Text remaining) Budget.no_symbol; Ok (Some text)
    | None => Ok None
    end in
  match shown with
  | Throw err => (Throw err, c)
  | Ok shown =>
  let c :=
    emit {| type := payment_success; ev_contentId := contentId; ev_amount := Some price;
            ev_error := None; budgetRemaining := shown; timestamp := t_end env |} c in
  (Ok {| receiptToken := receipt result; paid_txHash := txHash result |}, c)
  end end end end.

(** Execute the full payment flow: budget check, sign, submit, cache. *)
Definition executePayment (env : Environment) (c : X402AgentClient)
    (paymentRequest : PaymentRequest) : Result Paid * X402AgentClient :=
  let contentId := contentId paymentRequest in
  let price := price paymentRequest in
  let domain := extractDomain env (pr_facilitatorUrl paymentRequest) in
  (* Emit payment started *)
  let c :=
    emit {| type := payment_started; ev_contentId := contentId; ev_amount := Some price;
            ev_error := None; budgetRemaining := None; timestamp := t_start env |} c in
  let (outcome, c) :=
    match obtain_receipt env c paymentRequest domain with
    | Throw err => (Throw err, c)
    | Ok result => settle env c paymentRequest domain result
    end in
  match outcome with
  | Ok paid => (Ok paid, c)
  | Throw err =>
      (* Emit failure *)
      let c :=
        emit {| type := payment_failed; ev_contentId := contentId; ev_amount := Some price;
                ev_error := Some err; budgetRemaining := None; timestamp := t_end env |} c in
      (Throw err, c)
  end.

End Client.

(** ** Reference definitions and sample data *)

(** The canonical representation of a decimal price with six decimals: its
    integer part, a point, and its fraction filled with zeros to six digits. *)
Module Canonical.
Import JSString.

Fixpoint split_point (s : string) : string * string :=
  match s with
  | EmptyString => (EmptyString, EmptyString)
  | String "." r => (EmptyString, r)
  | String c r => let (i, f) := split_point r in (String c i, f)
  end.

Definition canonical6 (p : string) : string :=
  let (i, f) := split_point p in
  i ++ "." ++ f ++ JSString.repeat "0" (6 - String.length f).

Definition sample_prices : list string := ["0"; "0.001"; "0.01"; "1.00"; "1000.00"].

End Canonical.

(** The order in which a receipt is looked for in HTTP headers: the receipt
    header, then the payment header, then an authorization of the X402
    scheme; a header with an empty value is passed over. *)
Module HeaderOrder.
Import JSString Receipt.

Definition first_hit (receipt payment auth : option string) : option string :=
  match truthy_opt receipt, truthy_opt payment, auth with
  | Some r, _, _ => Some r
  | None, Some p, _ => Some p
  | None, None, Some a => if startsWith a "X402 " then Some (slice 5 a) else None
  | None, None, None => None
  end.

(** Two header lists that differ in the case of their names only. *)
Definition same_up_to_case (h h' : WebHeaders) : Prop :=
  Forall2 (fun x y => toLowerCase x.1 = toLowerCase y.1 /\ x.2 = y.2) h h'.

End HeaderOrder.

(** The error code of a rejection, as the specification assigns it. *)
Module RejectionCode.
Import JSString.

(** The check a reason of [checkSpend] comes from, told by its first word,
    and the error code the specification gives it. *)
Definition code_of_reason (reason : string) : BudgetErrorCode :=
  if startsWith reason "Domain " then DOMAIN_NOT_ALLOWED
  else if startsWith reason "Amount " then PER_REQUEST_LIMIT
  else BUDGET_EXCEEDED.

End RejectionCode.

(** Sample primitives, for the examples: a MAC that writes the algorithm,
    the key and the receipt id down, no public key; a signer recovery that
    answers the sender of the message unless the signature is [0xbad]. *)
Module Sample.
Import JSString JSNumber JSON Types.

#[export] Instance primitives : Jose.Primitives := {|
  Jose.HMAC := fun alg key input => alg ++ ":" ++ key ++ ":" ++ text (lookup_field "id" input.2);
  Jose.importSPKI_ok := fun _ => false;
  Jose.ECDSA_verify := fun _ _ _ => false |}.

#[export] Instance recovery : Facilitator.Recovery := {|
  Facilitator.recoverTypedDataAddress := fun _ m signature =>
    if String.eqb signature "0xbad" then Throw (Error "Invalid signature")
    else Ok (toLowerCase (Facilitator.m_from m)) |}.

Definition receipt_a : X402Receipt :=
  {| id := "rcpt_1"; contentId := "a"; payer := "0xA"; payee := "0xB"; amount := "98000";
     currency := "USDC"; txHash := "0x01"; chainId := 8453; paidAt := 1000; expiresAt := 2000;
     facilitator := "http://localhost:4020" |}.

(** The payload of the happy path: 100000 units from [0xAAAA] to [0xBBBB]. *)
Definition authorization : json :=
  JObj [("from", JStr "0xAAAA"); ("to", JStr "0xBBBB"); ("value", JStr "100000");
        ("validAfter", JNum (Finite 0)); ("validBefore", JNum (Finite 9999999999));
        ("nonce", JStr "0xabababababababababababababababababababababababababababababababab")].

Definition payload : json :=
  JObj [("x402Version", JNum (Finite 1)); ("scheme", JStr "exact");
        ("network", JStr "eip155:8453"); ("resource", JStr "article-1");
        ("payload", JObj [("signature", JStr "0x1234"); ("authorization", authorization)])].

(** The same payload once validated, and the network it names. *)
Definition validated : Facilitator.FacilitatorPayload :=
  {| Facilitator.network := "eip155:8453";
     Facilitator.signature := "0x1234";
     Facilitator.authorization :=
       {| Facilitator.from := "0xAAAA"; Facilitator.to := "0xBBBB";
          Facilitator.value := JStr "100000";
          Facilitator.validAfter := JNum (Finite 0);
          Facilitator.validBefore := JNum (Finite 9999999999);
          Facilitator.nonce :=
            "0xabababababababababababababababababababababababababababababababab" |};
     Facilitator.resource := "article-1" |}.

Definition mainnet : Facilitator.NetworkInfo :=
  {| Facilitator.x402Network := Constants.base_mainnet; Facilitator.net_chainId := 8453 |}.

Definition mock_hash : string :=
  "0x000000000000000000000000abababababababababababababababababababab".

Definition config : Facilitator.FacilitatorConfig :=
  {| Facilitator.port := 4020; Facilitator.jwtSecret := "test-secret";
     Facilitator.feePercent := Finite 2; Facilitator.facilitatorUrl := "http://localhost:4020";
     Facilitator.mockTransfers := true |}.

(** A policy with a per-request limit and an allow-list that is empty. *)
Definition empty_allow_list : Budget.SpendingPolicy :=
  {| Budget.maxPerRequest := Some "1.00"; Budget.maxTotal := None;
     Budget.allowedDomains := Some [] |}.

Definition agent : Client.X402AgentClient :=
  {| Client.address := "0xAAAA"; Client.network := Constants.base_mainnet;
     Client.budget :=
       {| Budget.policy := {| Budget.maxPerRequest := Some "1.00"; Budget.maxTotal := Some "10.00";
                              Budget.allowedDomains := None |};
          Budget.totalSpent := 0; Budget.history := []; Budget.onBudgetWarning := true |};
     Client.receiptCache := Cache.new None;
     Client.facilitatorUrl := Constants.DEFAULT_FACILITATOR_URL;
     Client.retryConfig := {| FacilitatorClient.maxRetries := 2; FacilitatorClient.backoffMs := 1000 |};
     Client.emitted := [] |}.

Definition request (price : string) : Client.PaymentRequest :=
  {| Client.payTo := "0xBBBB"; Client.price := price; Client.currency := "USDC";
     Client.contentId := "api.example.com/premium"; Client.pr_network := Constants.base_mainnet;
     Client.pr_facilitatorUrl := "https://x402.org/facilitator"; Client.description := None |}.

(** A world whose facilitator fails on every attempt. *)
Definition facilitator_down : Client.Environment :=
  {| Client.hostname := fun _ => Ok "x402.org";
     Client.generateNonce := "0x00";
     Client.signTypedData := fun _ => Ok "0x1234";
     Client.submitToFacilitator := fun _ _ _ => Throw (X402PaymentError "Server down" FACILITATOR_ERROR);
     Client.t_start := 1700000000000;
     Client.t_end := 1700000007000 |}.

(** A world whose facilitator answers a receipt at the second attempt. *)
Definition facilitator_up : Client.Environment :=
  {| Client.hostname := fun _ => Ok "x402.org";
     Client.generateNonce := "0x00";
     Client.signTypedData := fun _ => Ok "0x1234";
     Client.submitToFacilitator := fun attempt _ _ =>
       match attempt with
       | O => Throw (X402PaymentError "Temporary error" FACILITATOR_ERROR)
       | _ => Ok {| FacilitatorClient.receipt := "jwt.retry.token"; FacilitatorClient.txHash := None |}
       end;
     Client.t_start := 1700000000000;
     Client.t_end := 1700000001000 |}.

(** The fixtures of the test suites. *)
Definition Result_map {A B} (f : A -> B) (r : Result A) : Result B :=
  x ← r; mret (f x).

Definition failingExecutor : Facilitator.TransferExecutor := fun _ =>
  Ok {| Facilitator.r_txHash := "0x00"; Facilitator.success := false |}.

Definition with_field (k : string) (v : json) (o : json) : json :=
  match o with
  | JObj fields => JObj (fields ++ [(k, v)])
  | _ => o
  end.

Definition limits (perRequest total : option string) (domains : option (list string))
    : Budget.BudgetManager :=
  Budget.new {| Budget.maxPerRequest := perRequest; Budget.maxTotal := total;
                Budget.allowedDomains := domains |}.

Definition listening (b : Budget.BudgetManager) : Budget.BudgetManager :=
  {| Budget.policy := Budget.policy b; Budget.totalSpent := Budget.totalSpent b;
     Budget.history := Budget.history b; Budget.onBudgetWarning := true |}.

Definition test_receipt (contentId : string) (ttlSeconds : option Z) : Types.X402Receipt :=
  Receipt.buildReceipt
    {| Receipt.p_contentId := contentId;
       Receipt.p_payer := "0x1234567890123456789012345678901234567890";
       Receipt.p_payee := "0x0987654321098765432109876543210987654321";
       Receipt.p_amount := "100000";
       Receipt.p_currency := None;
       Receipt.p_txHash := "0xabcdef1234567890abcdef1234567890abcdef1234567890abcdef1234567890";
       Receipt.p_chainId := 8453;
       Receipt.p_facilitator := None;
       Receipt.p_ttlSeconds := ttlSeconds |}
    1700000000123 "0.4fzyo82mvyr".

End Sample.

(** ** Core: the other price utilities ([pricing.ts]) *)

Module PriceOps.
Import JSString JSNumber Constants Pricing.

Record PriceValidation := {
  valid : bool;
  amount : option string;
  error : option string
}.

(** Validate a price value: it parses, and it is not below the minimum. *)
Definition validatePrice (price : amount_arg) : PriceValidation :=
  let attempt : Result PriceValidation :=
    amount ← parsePrice price;
    minAmount ← parsePrice (Text MIN_PRICE_USDC);
    a ← JSBigInt.BigInt amount;
    m ← JSBigInt.BigInt minAmount;
    if a <? m then
      Ok {| valid := false; amount := None;
            error := Some ("Price must be at least " ++ MIN_PRICE_USDC ++ " USDC") |}
    else Ok {| valid := true; amount := Some amount; error := None |} in
  match attempt with
  | Ok r => r
  | Throw e => {| valid := false; amount := None; error := Some (Receipt.exn_message e) |}
  end.

(** Compare two prices: -1 if a < b, 0 if a === b, 1 if a > b. *)
Definition comparePrice (a b : amount_arg) : Result Z :=
  sa ← parsePrice a;
  amountA ← JSBigInt.BigInt sa;
  sb ← parsePrice b;
  amountB ← JSBigInt.BigInt sb;
  if amountA <? amountB then Ok (-1)
  else if amountB <? amountA then Ok 1
  else Ok 0.

(** Add two prices together: the sum in smallest unit as string. *)
Definition addPrices (a b : amount_arg) : Result string :=
  sa ← parsePrice a;
  amountA ← JSBigInt.BigInt sa;
  sb ← parsePrice b;
  amountB ← JSBigInt.BigInt sb;
  Ok (JSBigInt.toString (amountA + amountB)).

(** Calculate percentage of a price; [percentage] is a decimal (0.1 for 10%). *)
Definition percentageOfPrice (price : amount_arg) (percentage : number) : Result string :=
  s ← parsePrice price;
  amount ← JSBigInt.BigInt s;
  (* Use integer math to avoid floating point issues *)
  percentBasis ← JSNumber.BigInt (Math_round (mul percentage (Finite 10000)));
  Ok (JSBigInt.toString (Z.quot (amount * percentBasis) 10000)).

End PriceOps.

(** ** Core: the state of a receipt ([receipt.ts]) *)

(** [isReceiptValid] is given what [decodeReceipt] returns, an object
    whose properties nothing has checked.  The time left is computed of a
    receipt of the declared types: its times are whole seconds; of such
    values, below 2^53, the quotients by 3600, 60 and 24 floor to the
    integer quotients. *)
Module ReceiptStatus.
Import JSString JSNumber Types JSON Receipt.

(** Check if a receipt is valid (not expired and matches content ID).  The
    receipt is an object as [decodeReceipt] returns it. *)
Definition isReceiptValid (receipt : Unchecked.X402Receipt) (contentId : option string)
    (now_ms : Z) : bool :=
  let now := now_ms / 1000 in
  if lt (ToNumber_unknown (Unchecked.expiresAt receipt)) (Finite (inject_Z now)) then false
  else
    match truthy_opt contentId with
    | Some expected =>
        if differs_from (Unchecked.contentId receipt) expected then false else true
    | None => true
    end.

(** Remaining time in seconds, or 0 if expired. *)
Definition getReceiptRemainingTime (receipt : X402Receipt) (now_ms : Z) : Z :=
  let now := now_ms / 1000 in
  let remaining := expiresAt receipt - now in
  Z.max 0 remaining.

(** [`${n} unit${n === 1 ? '' : 's'}`] *)
Definition counted (n : Z) (unit : string) : string :=
  JSNumber.toString (of_Z n) ++ " " ++ unit ++ (if n =? 1 then EmptyString else "s").

(** Format receipt expiry as human-readable string. *)
Definition formatReceiptExpiry (receipt : X402Receipt) (now_ms : Z) : string :=
  let remaining := getReceiptRemainingTime receipt now_ms in
  if remaining =? 0 then "Expired"
  else
    let hours := remaining / 3600 in
    let minutes := Z.rem remaining 3600 / 60 in
    if 24 <? hours then
      let days := hours / 24 in
      counted days "day"
    else if 0 <? hours then counted hours "hour"
    else counted minutes "minute".

End ReceiptStatus.

(** ** Agent: the size of the receipt cache ([cache.ts]) *)

Module CacheSize.
Import Cache.

(** Get the number of cached (non-expired) entries. *)
Definition size (now : Z) (c : ReceiptCache) : Z * ReceiptCache :=
  let c := cleanup now c in
  (Z.of_nat (base.size (cache c)), c).

End CacheSize.

(** ** Agent: the status of the budget ([budget.ts]) *)

Module BudgetStatus.
Import JSString Pricing Receipt Budget.

Record BudgetStatus := {
  perRequest : string;
  totalRemaining : string;
  totalSpent : string;
  paymentCount : Z
}.

(** Get current budget status. *)
Definition getStatus (b : BudgetManager) : Result BudgetStatus :=
  let perRequest :=
    match truthy_opt (maxPerRequest (policy b)) with
    | Some limit => limit ++ " USDC"
    | None => "unlimited"
    end in
  totalRemaining ←
    match truthy_opt (maxTotal (policy b)) with
    | Some limit =>
        maxTotal ← smallest limit;
        let remaining := maxTotal - Budget.totalSpent b in
        text ← formatPrice (Text (JSBigInt.toString remaining)) no_symbol;
        Ok (text ++ " USDC")
    | None => Ok "unlimited"
    end;
  totalSpent ← formatPrice (Text (JSBigInt.toString (Budget.totalSpent b))) no_symbol;
  Ok {| perRequest := perRequest;
        totalRemaining := totalRemaining;
        totalSpent := totalSpent ++ " USDC";
        paymentCount := Z.of_nat (length (history b)) |}.

(** Get payment history. *)
Definition getHistory (b : BudgetManager) : list PaymentRecord := history b.

End BudgetStatus.

(** The amounts a history records, added up. *)
Module Ledger.
Import Budget.

Fixpoint recorded_total (h : list PaymentRecord) : Result Z :=
  match h with
  | [] => Ok 0
  | record :: rest =>
      a ← JSBigInt.BigInt (amount record);
      total ← recorded_total rest;
      Ok (a + total)
  end.

End Ledger.

(** What the budget manager is to keep: its total is the sum of the
    amounts its history records, and it is within the lifetime limit. *)
Module BudgetInvariant.
Import Receipt Budget Ledger.

Definition balanced (b : BudgetManager) : Prop :=
  recorded_total (history b) = Ok (totalSpent b).

Definition within_total (b : BudgetManager) : Prop :=
  match truthy_opt (maxTotal (policy b)) with
  | Some limit => exists m, smallest limit = Ok m /\ totalSpent b <= m
  | None => True
  end.

End BudgetInvariant.

(** Shapes of texts. *)
Module TextShape.
Import JSString.

(** A text that begins with a digit. *)
Definition starts_with_digit (s : string) : bool :=
  match s with
  | String c _ => is_digit c
  | EmptyString => false
  end.

(** A text with a space in it. *)
Fixpoint has_space (s : string) : bool :=
  match s with
  | String c r => Ascii.eqb c " " || has_space r
  | EmptyString => false
  end.

End TextShape.

(** ** The payload on the wire *)

(** What the facilitator parses of the payload the client has sent:
    [JSON.parse(JSON.stringify(payload))].  The payload nests the signature
    and the authorization under [payload]; the two bounds of the
    authorization are integers that binary64 holds exactly. *)
Module Wire.
Import JSNumber JSON EIP712 FacilitatorClient.

Definition authorization_json (a : TransferAuthorization) : json :=
  JObj [("from", JStr (from a)); ("to", JStr (to a)); ("value", JStr (value a));
        ("validAfter", integer (validAfter a)); ("validBefore", integer (validBefore a));
        ("nonce", JStr (nonce a))].

Definition to_json (p : FacilitatorPayload) : json :=
  JObj [("x402Version", integer (x402Version p)); ("scheme", JStr (scheme p));
        ("network", JStr (network p));
        ("payload", JObj [("signature", JStr (signature p));
                          ("authorization", authorization_json (authorization p))]);
        ("resource", JStr (resource p))].

End Wire.

(** ** Core: the nonce of an authorization ([eip712.ts]) *)

Module Nonce.
Import JSString.

Definition hex_digit (d : N) : ascii :=
  ascii_of_N (if (d <? 10)%N then 48 + d else 87 + d).

(** [b.toString(16)] for a byte [b]. *)
Definition toString16 (b : Byte.byte) : string :=
  let n := Byte.to_N b in
  if (n <? 16)%N then String (hex_digit n) EmptyString
  else String (hex_digit (n / 16)) (String (hex_digit (n mod 16)) EmptyString).

(** [s.padStart(n, fill)] for a filler of one character. *)
Definition padStart (n : nat) (fill : string) (s : string) : string :=
  JSString.repeat fill (n - String.length s) ++ s.

(** [Array.from(bytes).map(f).join('')] *)
Fixpoint join_map (f : Byte.byte -> string) (bytes : list Byte.byte) : string :=
  match bytes with
  | [] => EmptyString
  | b :: rest => f b ++ join_map f rest
  end.

(** Generate a random 32-byte hex nonce; [bytes] is the array once
    [getRandomValues] has filled it. *)
Definition generateNonce (bytes : list Byte.byte) : string :=
  "0x" ++ join_map (fun b => padStart 2 "0" (toString16 b)) bytes.

(** The byte two hexadecimal digits write. *)
Definition hex_value (c : ascii) : option N :=
  let n := N_of_ascii c in
  if ((48 <=? n) && (n <=? 57))%N then Some (n - 48)%N
  else if ((97 <=? n) && (n <=? 102))%N then Some (n - 87)%N
  else None.

Definition byte_of_hex (s : string) : option Byte.byte :=
  match s with
  | String h (String l EmptyString) =>
      match hex_value h, hex_value l with
      | Some a, Some b => Byte.of_N (16 * a + b)
      | _, _ => None
      end
  | _ => None
  end.

End Nonce.

(** ** Facilitator: configuration and start ([config.ts], [transfer.ts], [index.ts]) *)

Module Config.
Import JSString JSNumber Receipt.

Record FacilitatorConfig := {
  port : number;
  jwtSecret : string;
  feePercent : number;
  facilitatorUrl : string;
  mockTransfers : bool;
  facilitatorPrivateKey : option string;
  rpcUrl : option string
}.

(** [v || d] for an environment variable [v]. *)
Definition or_string (v : option string) (d : string) : string :=
  match truthy_opt v with
  | Some s => s
  | None => d
  end.

(** Load and validate the environment variables; [env] is [process.env]. *)
Definition loadConfig (env : gmap string string) : Result FacilitatorConfig :=
  let port := parseInt10 (or_string (env !! "PORT") "4020") in
  let jwtSecret := or_string (env !! "JWT_SECRET") EmptyString in
  let feePercent := parseFloat (or_string (env !! "FEE_PERCENT") "2") in
  let facilitatorUrl :=
    or_string (env !! "FACILITATOR_URL") ("http://localhost:" ++ JSNumber.toString port) in
  let mockTransfers :=
    match env !! "MOCK_TRANSFERS" with
    | Some s => negb (String.eqb s "false")
    | None => true
    end in
  let facilitatorPrivateKey := env !! "FACILITATOR_PRIVATE_KEY" in
  let rpcUrl : option string := env !! "RPC_URL" in
  if negb (truthy jwtSecret) then
    Throw (Error "JWT_SECRET environment variable is required")
  else if lt feePercent (Finite 0) || lt (Finite 50) feePercent then
    Throw (Error "FEE_PERCENT must be between 0 and 50")
  else if negb mockTransfers && negb (truthy (default EmptyString facilitatorPrivateKey)) then
    Throw (Error "FACILITATOR_PRIVATE_KEY is required when MOCK_TRANSFERS=false")
  else
    Ok {| port := port;
          jwtSecret := jwtSecret;
          feePercent := feePercent;
          facilitatorUrl := facilitatorUrl;
          mockTransfers := mockTransfers;
          facilitatorPrivateKey := facilitatorPrivateKey;
          rpcUrl := rpcUrl |}.

(** Create the appropriate transfer executor based on configuration. *)
Definition createTransferExecutor (mock : bool) : Result Facilitator.TransferExecutor :=
  if mock then Ok Facilitator.MockTransferExecutor
  else Throw (Error "On-chain transfer executor not yet implemented. Set MOCK_TRANSFERS=true").

(** The start of the facilitator, up to the call of [startServer]: the
    configuration and the executor the server is started with. *)
Definition start (env : gmap string string)
    : Result (FacilitatorConfig * Facilitator.TransferExecutor) :=
  config ← loadConfig env;
  executor ← createTransferExecutor (mockTransfers config);
  Ok (config, executor).

End Config.

(** ** Core: the 402 response ([constants.ts], [x402.ts]) *)

Module Protocol.
Import JSString Constants Pricing Receipt.

Definition CHAIN_IDS (n : X402Network) : string :=
  match n with
  | base_mainnet => "eip155:8453"
  | base_sepolia => "eip155:84532"
  end.

Module X402_HEADERS.
Definition PAY_TO : string := "X-402-PayTo".
Definition PRICE : string := "X-402-Price".
Definition CURRENCY : string := "X-402-Currency".
Definition NETWORK : string := "X-402-Network".
Definition FACILITATOR : string := "X-402-Facilitator".
Definition CONTENT_ID : string := "X-402-Content-Id".
Definition DESCRIPTION : string := "X-402-Description".
Definition RECEIPT : string := "X-402-Receipt".
End X402_HEADERS.

(** An entry [{ name, type }] of an EIP-712 type. *)
Record Field := {
  f_name : string;
  f_type : string
}.

Record SchemeDomain := {
  d_name : string;
  d_version : string;
  d_chainId : Z;
  d_verifyingContract : string
}.

(** The message of the scheme: from, validAfter, validBefore and nonce are
    filled by the client. *)
Record SchemeMessage := {
  m_to : string;
  m_value : string
}.

Record SchemePayload := {
  types_EIP712Domain : list Field;
  types_TransferWithAuthorization : list Field;
  primaryType : string;
  domain : SchemeDomain;
  message : SchemeMessage
}.

Record PaymentScheme := {
  scheme : string;
  s_network : string;           (* network: the chain id *)
  maxAmountRequired : string;
  resource : string;
  s_description : string;       (* description *)
  mimeType : string;
  payload : SchemePayload
}.

Record X402ResponseBody := {
  payTo : string;
  price : string;
  currency : string;
  contentId : string;
  network : X402Network;
  facilitatorUrl : string;
  description : option string;
  accepts : list PaymentScheme
}.

(** The argument of [buildPaymentRequiredResponse]. *)
Record PaymentConfig := {
  c_payTo : string;
  c_price : string;
  c_currency : option string;
  c_contentId : string;
  c_network : X402Network;
  c_facilitatorUrl : option string;
  c_description : option string
}.

Record PaymentRequiredResponse := {
  status : Z;
  headers : gmap string string;
  body : X402ResponseBody
}.

(** Build a 402 Payment Required response. *)
Definition buildPaymentRequiredResponse (config : PaymentConfig)
    : Result PaymentRequiredResponse :=
  let payTo := c_payTo config in
  let price := c_price config in
  let currency := default "USDC" (c_currency config) in
  let contentId := c_contentId config in
  let network := c_network config in
  let facilitatorUrl := default DEFAULT_FACILITATOR_URL (c_facilitatorUrl config) in
  let description := c_description config in
  amountInSmallestUnit ← parsePrice (Text price);
  let chainId := CHAIN_IDS network in
  let usdcAddress := USDC_ADDRESSES network in
  (* Build headers *)
  let headers : gmap string string :=
    <[ "Content-Type" := "application/json" ]>
    (<[ X402_HEADERS.CONTENT_ID := contentId ]>
    (<[ X402_HEADERS.FACILITATOR := facilitatorUrl ]>
    (<[ X402_HEADERS.NETWORK := network_name network ]>
    (<[ X402_HEADERS.CURRENCY := currency ]>
    (<[ X402_HEADERS.PRICE := price ]>
    (<[ X402_HEADERS.PAY_TO := payTo ]> ∅)))))) in
  let headers :=
    match truthy_opt description with
    | Some text => <[ X402_HEADERS.DESCRIPTION := text ]> headers
    | None => headers
    end in
  (* Build payment scheme (EIP-3009 transferWithAuthorization) *)
  let paymentScheme :=
    {| scheme := "exact";
       s_network := chainId;
       maxAmountRequired := amountInSmallestUnit;
       resource := contentId;
       s_description :=
         match truthy_opt description with
         | Some text => text
         | None => "Payment for " ++ contentId
         end;
       mimeType := "application/json";
       payload :=
         {| types_EIP712Domain :=
              [ {| f_name := "name"; f_type := "string" |};
                {| f_name := "version"; f_type := "string" |};
                {| f_name := "chainId"; f_type := "uint256" |};
                {| f_name := "verifyingContract"; f_type := "address" |} ];
            types_TransferWithAuthorization :=
              [ {| f_name := "from"; f_type := "address" |};
                {| f_name := "to"; f_type := "address" |};
                {| f_name := "value"; f_type := "uint256" |};
                {| f_name := "validAfter"; f_type := "uint256" |};
                {| f_name := "validBefore"; f_type := "uint256" |};
                {| f_name := "nonce"; f_type := "bytes32" |} ];
            primaryType := "TransferWithAuthorization";
            domain :=
              {| d_name := "USD Coin";
                 d_version := "2";
                 d_chainId := match network with base_mainnet => 8453 | base_sepolia => 84532 end;
                 d_verifyingContract := usdcAddress |};
            message := {| m_to := payTo; m_value := amountInSmallestUnit |} |} |} in
  (* Build response body *)
  let body :=
    {| payTo := payTo; price := price; currency := currency; contentId := contentId;
       network := network; facilitatorUrl := facilitatorUrl; description := description;
       accepts := [paymentScheme] |} in
  Ok {| status := 402; headers := headers; body := body |}.

(** The fields of a payment request, each one present or not: a
    [Partial<X402ResponseBody>], of which [accepts] is not read, and a
    [Partial<PaymentRequest>]. *)
Record PartialFields := {
  p_payTo : option string;
  p_price : option string;
  p_currency : option string;
  p_contentId : option string;
  p_network : option string;
  p_facilitatorUrl : option string;
  p_description : option string
}.

(** The body of a 402 response as its reader finds it. *)
Definition fields_of (body : X402ResponseBody) : PartialFields :=
  {| p_payTo := Some (payTo body);
     p_price := Some (price body);
     p_currency := Some (currency body);
     p_contentId := Some (contentId body);
     p_network := Some (network_name (network body));
     p_facilitatorUrl := Some (facilitatorUrl body);
     p_description := description body |}.

Definition no_fields : PartialFields :=
  {| p_payTo := None; p_price := None; p_currency := None; p_contentId := None;
     p_network := None; p_facilitatorUrl := None; p_description := None |}.

(** The payment request read off a 402 response; the network is the text
    found, whatever it is. *)
Record PaymentRequest := {
  r_payTo : string;
  r_price : string;
  r_currency : string;
  r_contentId : string;
  r_network : string;
  r_facilitatorUrl : string;
  r_description : option string
}.

(** Parse 402 response from headers and body directly (for server-side use). *)
Definition parsePaymentRequiredFromParts (headers : gmap string string) (body : PartialFields)
    : option PaymentRequest :=
  let payTo := or_else (p_payTo body) (headers !! X402_HEADERS.PAY_TO) in
  let price := or_else (p_price body) (headers !! X402_HEADERS.PRICE) in
  let currency :=
    or_else (or_else (p_currency body) (headers !! X402_HEADERS.CURRENCY)) (Some "USDC") in
  let contentId := or_else (p_contentId body) (headers !! X402_HEADERS.CONTENT_ID) in
  let network := or_else (p_network body) (headers !! X402_HEADERS.NETWORK) in
  let facilitatorUrl :=
    or_else (or_else (p_facilitatorUrl body) (headers !! X402_HEADERS.FACILITATOR))
      (Some DEFAULT_FACILITATOR_URL) in
  let description := or_else (p_description body) (headers !! X402_HEADERS.DESCRIPTION) in
  match truthy_opt payTo, truthy_opt price, truthy_opt contentId, truthy_opt network with
  | Some payTo, Some price, Some contentId, Some network =>
      Some {| r_payTo := payTo;
              r_price := price;
              r_currency := default EmptyString currency;
              r_contentId := contentId;
              r_network := network;
              r_facilitatorUrl := default EmptyString facilitatorUrl;
              r_description := description |}
  | _, _, _, _ => None
  end.

Definition is_hex (c : ascii) : bool :=
  let n := nat_of_ascii c in
  (((48 <=? n) && (n <=? 57)) || ((97 <=? n) && (n <=? 102)) || ((65 <=? n) && (n <=? 70)))%nat.

(** [/^0x[a-fA-F0-9]{40}$/.test(s)] *)
Definition is_address (s : string) : bool :=
  match s with
  | String "0" (String "x" r) => (String.length r =? 40)%nat && all_chars is_hex r
  | _ => false
  end.

(** [errors.push(e)] *)
Definition push (errors : list string) (e : string) : list string := (errors ++ [e])%list.

Record RequestValidation := {
  valid : bool;
  errors : list string
}.

(** Validate that a payment request has all required fields. *)
Definition validatePaymentRequest (request : PartialFields) : RequestValidation :=
  let errors : list string := [] in
  let errors :=
    match truthy_opt (p_payTo request) with
    | None => push errors "Missing payTo address"
    | Some payTo =>
        if negb (is_address payTo) then push errors "Invalid payTo address format" else errors
    end in
  let errors :=
    match truthy_opt (p_price request) with
    | None => push errors "Missing price"
    | Some price =>
        match parsePrice (Text price) with
        | Ok _ => errors
        | Throw _ => push errors "Invalid price format"
        end
    end in
  let errors :=
    match truthy_opt (p_contentId request) with
    | None => push errors "Missing contentId"
    | Some _ => errors
    end in
  let errors :=
    match truthy_opt (p_network request) with
    | None => push errors "Missing network"
    | Some network =>
        if negb (existsb (String.eqb network) ["base-mainnet"; "base-sepolia"]) then
          push errors "Invalid network (must be base-mainnet or base-sepolia)"
        else errors
    end in
  {| valid := (length errors =? 0)%nat; errors := errors |}.

(** The request as [validatePaymentRequest] is given it. *)
Definition fields_of_request (r : PaymentRequest) : PartialFields :=
  {| p_payTo := Some (r_payTo r);
     p_price := Some (r_price r);
     p_currency := Some (r_currency r);
     p_contentId := Some (r_contentId r);
     p_network := Some (r_network r);
     p_facilitatorUrl := Some (r_facilitatorUrl r);
     p_description := r_description r |}.

(** Create headers with receipt for authenticated requests. *)
Definition createAuthenticatedHeaders (receiptToken : string) : gmap string string :=
  {[ X402_HEADERS.RECEIPT := receiptToken ]}.

End Protocol.

(** ** Next.js: the receipt verifier ([receiptVerifier.ts]) *)

Module Verifier.
Import JSString Types JSON Jose Receipt.

(** The keys of the cache are tokens; two tokens are the same key when
    their parts are the same. *)
#[global] Instance JWTHeader_eq_dec : EqDecision JWTHeader.
Proof. solve_decision. Defined.
#[global] Instance JWTPayload_eq_dec : EqDecision JWTPayload.
Proof. unfold JWTPayload. solve_decision. Defined.
#[global] Instance token_eq_dec : EqDecision token.
Proof. solve_decision. Defined.

(** A property of an object literal that may be left out: absent, or
    present with a value that may be [undefined]. *)
Inductive optional (A : Type) :=
| Absent
| Present (v : option A).
Arguments Absent {A}.
Arguments Present {A} v.

(** [{ k: d, ...config }.k] *)
Definition spread_over {A} (d : A) (p : optional A) : option A :=
  match p with
  | Absent => Some d
  | Present v => v
  end.

(** The configuration the verifier is made of, and the one it keeps. *)
Record ReceiptVerifierConfig := {
  jwtSecret : string;
  facilitatorPublicKey : option string;
  enableCache : optional bool;
  cacheTTL : optional Z
}.

Record StoredConfig := {
  s_jwtSecret : string;
  s_facilitatorPublicKey : option string;
  s_enableCache : option bool;
  s_cacheTTL : option Z            (* milliseconds *)
}.

Record CachedReceipt := {
  c_receipt : Unchecked.X402Receipt;
  verifiedAt : Z
}.

(** A [Map] from tokens, in the order of insertion. *)
Definition TokenMap := list (token * CachedReceipt).

Fixpoint Map_get (k : token) (m : TokenMap) : option CachedReceipt :=
  match m with
  | [] => None
  | (k', v) :: r => if decide (k = k') then Some v else Map_get k r
  end.

Fixpoint Map_set (k : token) (v : CachedReceipt) (m : TokenMap) : TokenMap :=
  match m with
  | [] => [(k, v)]
  | (k', v') :: r => if decide (k = k') then (k, v) :: r else (k', v') :: Map_set k v r
  end.

Definition Map_delete (k : token) (m : TokenMap) : TokenMap :=
  filter (fun kv => kv.1 <> k) m.

Record ReceiptVerifier := {
  config : StoredConfig;
  cache : TokenMap
}.

Definition new (config : ReceiptVerifierConfig) : ReceiptVerifier :=
  {| config :=
       {| s_jwtSecret := jwtSecret config;
          s_facilitatorPublicKey := facilitatorPublicKey config;
          s_enableCache := spread_over true (enableCache config);
          s_cacheTTL := spread_over 60000 (cacheTTL config) |};
     cache := [] |}.

Definition with_cache (v : ReceiptVerifier) (m : TokenMap) : ReceiptVerifier :=
  {| config := config v; cache := m |}.

(** Clean up expired cache entries. *)
Definition cleanCache (now : Z) (v : ReceiptVerifier) : ReceiptVerifier :=
  let ttl := default 60000 (s_cacheTTL (config v)) in
  with_cache v (filter (fun kv => ~ (ttl < now - verifiedAt kv.2)) (cache v)).

(** Clear the verification cache. *)
Definition clearCache (v : ReceiptVerifier) : ReceiptVerifier := with_cache v [].

(** The readings of the clock in the course of one [verify]: when the
    cache is looked up, when [verifyReceipt] checks the expiry, when the
    receipt is stored, and when the cache is cleaned. *)
Record Clock := {
  at_lookup : Z;
  at_verify : Z;
  at_store : Z;
  at_clean : Z
}.

Section WithPrimitives.
Context `{Primitives}.

(** The options [verify] calls [verifyReceipt] with. *)
Definition options_of (v : ReceiptVerifier) (expectedContentId : option string) : VerifyOptions :=
  {| Receipt.jwtSecret := Some (s_jwtSecret (config v));
     Receipt.facilitatorPublicKey := s_facilitatorPublicKey (config v);
     Receipt.expectedContentId := expectedContentId |}.

(** Verify a receipt token: the result, and the verifier after the call. *)
Definition verify (v : ReceiptVerifier) (t : token) (expectedContentId : option string)
    (clock : Clock) : VerifyResult * ReceiptVerifier :=
  let enabled := default false (s_enableCache (config v)) in
  (* Check cache first *)
  let looked_up : option VerifyResult * ReceiptVerifier :=
    if enabled then
      match Map_get t (cache v) with
      | Some cached =>
          let age := at_lookup clock - verifiedAt cached in
          if age <? default 60000 (s_cacheTTL (config v)) then
            (* Verify content ID match if specified *)
            match truthy_opt expectedContentId with
            | Some expected =>
                if differs_from (Unchecked.contentId (c_receipt cached)) expected then
                  (Some {| valid := false; receipt := None;
                           error := Some ("Receipt is for "
                                          ++ quoted (text (Unchecked.contentId (c_receipt cached)))
                                          ++ ", not " ++ quoted expected) |}, v)
                else (Some {| valid := true; receipt := Some (c_receipt cached); error := None |}, v)
            | None => (Some {| valid := true; receipt := Some (c_receipt cached); error := None |}, v)
            end
          else
            (* Cache expired, remove it *)
            (None, with_cache v (Map_delete t (cache v)))
      | None => (None, v)
      end
    else (None, v) in
  match looked_up with
  | (Some result, v) => (result, v)
  | (None, v) =>
      (* Verify the token *)
      let result := verifyReceipt t (options_of v expectedContentId) (at_verify clock) in
      (* Cache if valid *)
      match receipt result with
      | Some r =>
          if valid result && enabled then
            let v := with_cache v (Map_set t {| c_receipt := r; verifiedAt := at_store clock |}
                                     (cache v)) in
            (* Clean up old cache entries periodically *)
            let v := if (1000 <? length (cache v))%nat then cleanCache (at_clean clock) v else v in
            (result, v)
          else (result, v)
      | None => (result, v)
      end
  end.

(** What the cache is to hold: one entry for a token, and only receipts
    that [verifyReceipt] accepted for that token, with the keys of the
    verifier, at some time and for some expected content. *)
Definition backed (v : ReceiptVerifier) : Prop :=
  NoDup (cache v).*1 /\
  forall t c, Map_get t (cache v) = Some c ->
    exists expected now_ms,
      verifyReceipt t (options_of v expected) now_ms
      = {| valid := true; receipt := Some (c_receipt c); error := None |}.

End WithPrimitives.

End Verifier.

(** A verifier with the defaults, and a clock that reads one time
    throughout a call, for the examples. *)
Module VerifierSample.
Import Verifier.

Definition verifier_a : ReceiptVerifier :=
  new {| Verifier.jwtSecret := "k"; Verifier.facilitatorPublicKey := None;
         enableCache := Absent; cacheTTL := Absent |}.

Definition at_time (now_ms : Z) : Clock :=
  {| at_lookup := now_ms; at_verify := now_ms; at_store := now_ms; at_clean := now_ms |}.

End VerifierSample.

(** * Properties *)

(** ** Texts of integers *)

Module JSFacts.
Import JSString JSBigInt.

Definition not_whitespace (c : ascii) : bool := negb (is_whitespace c).

Lemma trimStart_id c s : is_whitespace c = false -> trimStart (String c s) = String c s.
Proof. intros Hc. simpl. now rewrite Hc. Qed.

Lemma trimEnd_id s : all_chars not_whitespace s = true -> trimEnd s = s.
Proof.
  induction s as [|c s IH]; simpl; [reflexivity|].
  intros [Hc Hs]%andb_prop. rewrite (IH Hs).
  unfold not_whitespace in Hc. apply negb_true_iff in Hc. rewrite Hc.
  now destruct s.
Qed.

Lemma trim_id s : all_chars not_whitespace s = true -> trim s = s.
Proof.
  intros Hs. unfold trim. rewrite (trimEnd_id _ Hs).
  destruct s as [|c s]; [reflexivity|].
  simpl in Hs. apply andb_prop in Hs as [Hc _].
  apply trimStart_id. now apply negb_true_iff.
Qed.

Lemma is_digit_not_whitespace c : is_digit c = true -> not_whitespace c = true.
Proof.
  destruct c as [[] [] [] [] [] [] [] []]; vm_compute; congruence.
Qed.

Lemma all_chars_impl (P Q : ascii -> bool) s :
  (forall c, P c = true -> Q c = true) -> all_chars P s = true -> all_chars Q s = true.
Proof.
  intros HPQ. induction s as [|c s IH]; simpl; [reflexivity|].
  intros [Hc Hs]%andb_prop. now rewrite (HPQ _ Hc), (IH Hs).
Qed.

Lemma string_of_uint_digits d : all_chars is_digit (NilEmpty.string_of_uint d) = true.
Proof. induction d; simpl; auto. Qed.

Lemma NilZero_string_of_uint_digits d : all_chars is_digit (NilZero.string_of_uint d) = true.
Proof. destruct d; try apply string_of_uint_digits. reflexivity. Qed.

Lemma NilZero_string_of_uint_nonempty d : NilZero.string_of_uint d <> EmptyString.
Proof. destruct d; simpl; congruence. Qed.

(** A run of digits is read by [StringToBigInt] as a decimal literal. *)
Lemma StringToBigInt_digits s :
  s <> EmptyString -> all_chars is_digit s = true -> StringToBigInt s = decimal_literal s.
Proof.
  intros Hne Hs. unfold StringToBigInt.
  rewrite trim_id by (eapply all_chars_impl; [apply is_digit_not_whitespace | exact Hs]).
  destruct s as [|c s]; [congruence|].
  simpl in Hs. apply andb_prop in Hs as [Hc Hs].
  destruct c as [[] [] [] [] [] [] [] []]; try discriminate Hc; try reflexivity.
  destruct s as [|c s]; [reflexivity|].
  simpl in Hs. apply andb_prop in Hs as [Hc' _].
  destruct c as [[] [] [] [] [] [] [] []]; try discriminate Hc'; reflexivity.
Qed.

Lemma StringToBigInt_minus s :
  all_chars is_digit s = true ->
  StringToBigInt (String "-" s) = option_map Z.opp (decimal_literal s).
Proof.
  intros Hs. unfold StringToBigInt.
  rewrite trim_id; [reflexivity|].
  simpl. eapply all_chars_impl; [apply is_digit_not_whitespace | exact Hs].
Qed.

Lemma decimal_literal_of_uint d :
  decimal_literal (NilZero.string_of_uint d) = Some (Z.of_uint d).
Proof.
  unfold decimal_literal. destruct d; try reflexivity; now rewrite NilZero.usu.
Qed.

(** Reading back the text of a bigint. *)
Lemma StringToBigInt_toString z : StringToBigInt (toString z) = Some z.
Proof.
  unfold toString. pose proof (DecimalZ.of_to z) as Hz.
  destruct (Z.to_int z) as [d|d]; simpl in *.
  - rewrite StringToBigInt_digits, decimal_literal_of_uint; [congruence | |].
    + apply NilZero_string_of_uint_nonempty.
    + apply NilZero_string_of_uint_digits.
  - rewrite StringToBigInt_minus, decimal_literal_of_uint; simpl; [congruence|].
    apply NilZero_string_of_uint_digits.
Qed.

Lemma BigInt_toString z : BigInt (toString z) = Ok z.
Proof. unfold BigInt. now rewrite StringToBigInt_toString. Qed.

End JSFacts.

(** ** Rounding to binary64 *)

Module Binary64Facts.
Import JSNumber.
Local Open Scope Q_scope.

Lemma pow2_pos e : 0 < pow2 e.
Proof. apply Qpower_0_lt. reflexivity. Qed.

Lemma pow2_le e e' : (e <= e')%Z -> pow2 e <= pow2 e'.
Proof. intros. apply Qpower_le_compat_l; [assumption | discriminate]. Qed.

Lemma pow2_inject k : (0 <= k)%Z -> pow2 k == inject_Z (2 ^ k).
Proof. intros. unfold pow2. now rewrite Zpower_Qpower. Qed.

Lemma pow2_succ e : pow2 (e + 1) == 2 * pow2 e.
Proof.
  unfold pow2. rewrite Qpower_plus by discriminate. change (2 ^ 1) with 2. ring.
Qed.

Lemma round_half_even_bounds x :
  x - (1 # 2) <= inject_Z (round_half_even x) <= x + (1 # 2).
Proof.
  unfold round_half_even.
  pose proof (Qfloor_le x) as Hlo. pose proof (Qlt_floor x) as Hhi.
  rewrite inject_Z_plus in Hhi. change (inject_Z 1) with 1 in Hhi.
  destruct (Qcompare_spec (x - inject_Z (Qfloor x)) (1 # 2)) as [He|Hl|Hg].
  - destruct (Z.even (Qfloor x)); [|rewrite inject_Z_plus; change (inject_Z 1) with 1]; lra.
  - lra.
  - rewrite inject_Z_plus. change (inject_Z 1) with 1. lra.
Qed.

Lemma round_half_even_nonneg x : 0 <= x -> (0 <= round_half_even x)%Z.
Proof.
  intros Hx. pose proof (Qfloor_resp_le _ _ Hx) as Hf. change (Qfloor 0) with 0%Z in Hf.
  unfold round_half_even.
  destruct (x - inject_Z (Qfloor x) ?= 1 # 2); [destruct (Z.even _)| |]; lia.
Qed.

(** The binade of a positive real below [2^k] is below [k]. *)
Lemma binade_lt x k :
  0 < x -> x < inject_Z (2 ^ k) -> (0 <= k)%Z -> (binade x < k)%Z.
Proof.
  intros Hpos Hlt Hk. unfold binade.
  destruct (Qle_bool _ x) eqn:Hb.
  - apply Qle_bool_iff in Hb.
    apply (Qpower_lt_compat_l_inv 2); [|reflexivity].
    fold (pow2 (Z.log2 (Qnum x) - Z.log2 (Z.pos (Qden x)))). fold (pow2 k).
    rewrite (pow2_inject k) by assumption. now apply Qle_lt_trans with x.
  - destruct x as [n d]. unfold Qlt in *. cbn [Qnum Qden inject_Z] in *.
    assert (Hn : (n <= Z.pos d * 2 ^ k)%Z) by lia.
    apply Z.log2_le_mono in Hn.
    rewrite Z.log2_mul_pow2 in Hn by lia. lia.
Qed.

(** Rounding a positive real below [2^k]: the error is at most half a
    unit in the last place of the binade below [2^k]. *)
Lemma binary64_pos_error x k :
  0 < x -> x < inject_Z (2 ^ k) -> (0 <= k <= 1023)%Z ->
  exists y, binary64_pos x = Finite y /\ 0 <= y /\
            x - pow2 (k - 54) <= y <= x + pow2 (k - 54).
Proof.
  intros Hpos Hlt Hk. unfold binary64_pos.
  pose proof (binade_lt x k Hpos Hlt (proj1 Hk)) as He.
  rewrite <- pow2_inject in Hlt by lia.
  set (e := Z.max (binade x) (-1022)).
  assert (Hek : (e - 52 <= k - 53)%Z) by lia.
  set (ulp := pow2 (e - 52)).
  assert (Hulp : 0 < ulp) by apply pow2_pos.
  assert (Hulp' : ulp <= 2 * pow2 (k - 54)).
  { rewrite <- pow2_succ. apply pow2_le. lia. }
  pose proof (round_half_even_bounds (x / ulp)) as [Hlo Hhi].
  assert (Hq : 0 <= x / ulp).
  { apply Qle_shift_div_l; [assumption|]. lra. }
  pose proof (round_half_even_nonneg _ Hq) as Hm.
  set (m := inject_Z (round_half_even (x / ulp))) in *.
  assert (Hm' : 0 <= m) by (rewrite Zle_Qle in Hm; exact Hm).
  assert (Hx : x / ulp * ulp == x) by (field; lra).
  pose proof (Qmult_le_compat_r _ _ ulp Hlo (Qlt_le_weak _ _ Hulp)) as Hy1.
  pose proof (Qmult_le_compat_r _ _ ulp Hhi (Qlt_le_weak _ _ Hulp)) as Hy2.
  fold m in Hy1, Hy2. set (t := x / ulp) in *.
  assert (Hbig : m * ulp < pow2 1024).
  { assert (pow2 (k - 54) <= pow2 k) by (apply pow2_le; lia).
    assert (pow2 (k + 1) <= pow2 1024) by (apply pow2_le; lia).
    rewrite pow2_succ in *. lra. }
  destruct (Qle_bool (pow2 1024) (m * ulp)) eqn:Hb.
  { apply Qle_bool_iff in Hb. lra. }
  exists (Qred (m * ulp)).
  split; [reflexivity|]. rewrite Qred_correct. split; [nra|]. lra.
Qed.

(** The rounding of a real that is not negative is not negative. *)
Lemma binary64_nonneg x :
  0 <= x ->
  binary64 x = Infinity false \/ exists y, binary64 x = Finite y /\ 0 <= y.
Proof.
  intros Hx. unfold binary64.
  destruct x as [[|n|n] d]; simpl.
  - right. exists 0. split; [reflexivity | lra].
  - unfold binary64_pos.
    set (ulp := pow2 (_ - 52)). assert (Hulp : 0 < ulp) by apply pow2_pos.
    assert (Hq : 0 <= (Z.pos n # d) / ulp) by (apply Qle_shift_div_l; [assumption | lra]).
    pose proof (round_half_even_nonneg _ Hq) as Hm. rewrite Zle_Qle in Hm.
    destruct (Qle_bool _ _); [now left|].
    right. eexists. split; [reflexivity|]. rewrite Qred_correct.
    apply Qmult_le_0_compat; [exact Hm | now apply Qlt_le_weak].
  - exfalso. unfold Qle in Hx. simpl in Hx. lia.
Qed.

(** [Math.round(x * 100)] for a rate [x] between 0 and 50 is an integer
    between 0 and 5000. *)
Lemma round_percent q :
  0 <= q <= 50 ->
  exists bps, Math_round (mul (Finite q) (Finite 100)) = Finite (inject_Z bps) /\
              (0 <= bps <= 5000)%Z.
Proof.
  intros [Hlo Hhi].
  assert (Hx : q * 100 <= 5000) by lra. revert Hx.
  change (mul (Finite q) (Finite 100)) with (binary64 (q * 100)).
  assert (H0 : 0 <= q * 100) by lra.
  revert H0. generalize (q * 100) as x. intros x H0 Hx.
  assert (Hnum : (0 <= Qnum x)%Z).
  { unfold Qle in H0. simpl in H0. lia. }
  unfold binary64.
  destruct (Qnum x) as [|n|n] eqn:Hn; [| |lia].
  - exists 0%Z. split; [reflexivity | lia].
  - destruct (binary64_pos_error x 13) as (y & -> & Hy0 & Hy1 & Hy2); [| |lia|].
    + unfold Qlt. simpl. rewrite Hn. lia.
    + change (inject_Z (2 ^ 13)) with 8192. lra.
    + change (pow2 (13 - 54)) with (1 # 2199023255552) in *.
      exists (Qfloor (y + (1 # 2))). split; [reflexivity|].
      assert (H1 : 0 <= y + (1 # 2)) by lra.
      assert (H2 : y + (1 # 2) <= 5000 + (3 # 4)) by lra.
      apply Qfloor_resp_le in H1, H2.
      change (Qfloor 0) with 0%Z in H1. change (Qfloor (5000 + (3 # 4))) with 5000%Z in H2.
      lia.
Qed.

End Binary64Facts.

(** ** Fee calculation *)

Section FeeProperties.
Import JSNumber JSBigInt Fee JSFacts Binary64Facts.

Lemma BigInt_integer z : JSNumber.BigInt (Finite (inject_Z z)) = Ok z.
Proof.
  unfold JSNumber.BigInt. rewrite Qfloor_Z. now rewrite Qeq_bool_refl.
Qed.

(** The fee of an amount at a given number of basis points. *)
Lemma calculateFee_bps amount value feePercent feeBps :
  StringToBigInt amount = Some value ->
  Math_round (mul feePercent (Finite 100)) = Finite (inject_Z feeBps) ->
  calculateFee amount feePercent =
    Ok {| totalAmount := amount;
          publisherAmount := toString (value - Z.quot (value * feeBps) 10000);
          feeAmount := toString (Z.quot (value * feeBps) 10000);
          feePercent := feePercent |}.
Proof.
  intros Hv Hb. unfold calculateFee, JSBigInt.BigInt.
  rewrite Hv. unfold mbind, Result_bind. now rewrite Hb, BigInt_integer.
Qed.

(** C1. For an amount text that reads as an integer [value >= 0] and a fee
    percent between 0 and 50, [calculateFee] returns the breakdown whose fee
    is [value * Math.round(feePercent * 100) / 10000], truncated, and whose
    publisher amount is the rest; both read back as integers that add up to
    [value], and the fee lies between 0 and [value]. *)
Theorem C1_fee_conservation (amount : string) (value : Z) (feePercent : Q) :
  StringToBigInt amount = Some value ->
  0 <= value ->
  (0 <= feePercent <= 50)%Q ->
  exists feeBps fee publisher : Z,
    Math_round (mul (Finite feePercent) (Finite 100)) = Finite (inject_Z feeBps) /\
    fee = Z.quot (value * feeBps) 10000 /\
    publisher = value - fee /\
    calculateFee amount (Finite feePercent) =
      Ok {| totalAmount := amount;
            publisherAmount := toString publisher;
            feeAmount := toString fee;
            Fee.feePercent := Finite feePercent |} /\
    StringToBigInt (toString fee) = Some fee /\
    StringToBigInt (toString publisher) = Some publisher /\
    fee + publisher = value /\
    0 <= fee <= value.
Proof.
  intros Hv Hpos Hq.
  destruct (round_percent feePercent Hq) as (feeBps & Hb & Hlo & Hhi).
  exists feeBps, (Z.quot (value * feeBps) 10000), (value - Z.quot (value * feeBps) 10000).
  split; [exact Hb|]. split; [reflexivity|]. split; [reflexivity|].
  split; [now apply calculateFee_bps|].
  split; [apply StringToBigInt_toString|]. split; [apply StringToBigInt_toString|].
  split; [lia|].
  rewrite Z.quot_div_nonneg by nia.
  split; [apply Z.div_pos; nia|].
  apply Z.div_le_upper_bound; nia.
Qed.

Lemma C1_fee_conservation_witness :
  exists feeBps fee publisher : Z,
    Math_round (mul (Finite 2) (Finite 100)) = Finite (inject_Z feeBps) /\
    fee = Z.quot (100000 * feeBps) 10000 /\
    publisher = 100000 - fee /\
    calculateFee "100000" (Finite 2) =
      Ok {| totalAmount := "100000";
            publisherAmount := toString publisher;
            feeAmount := toString fee;
            Fee.feePercent := Finite 2 |} /\
    StringToBigInt (toString fee) = Some fee /\
    StringToBigInt (toString publisher) = Some publisher /\
    fee + publisher = 100000 /\
    0 <= fee <= 100000.
Proof.
  apply (C1_fee_conservation "100000" 100000 2); [reflexivity | lia | split; discriminate].
Defined.

End FeeProperties.

(** ** Prices *)

Section PriceProperties.
Import Pricing Canonical.

(** C7. For each of the prices 0, 0.001, 0.01, 1.00 and 1000.00, parsing
    the price and formatting the result with six decimals and no symbol
    gives the canonical six-decimal text of the price. *)
Theorem C7_price_round_trip (p : string) :
  In p sample_prices ->
  (s ← parsePrice (Text p);
   formatPrice (Text s) {| symbol := Some false; decimals := Some 6 |})
  = Ok (canonical6 p).
Proof.
  unfold sample_prices. intros Hp.
  repeat (destruct Hp as [<-|Hp]; [vm_compute; reflexivity|]).
  destruct Hp.
Qed.

Lemma C7_price_round_trip_witness :
  In "0.01" sample_prices /\
  (s ← parsePrice (Text "0.01");
   formatPrice (Text s) {| symbol := Some false; decimals := Some 6 |})
  = Ok "0.010000".
Proof.
  split; [unfold sample_prices; simpl; tauto|].
  apply (C7_price_round_trip "0.01"). unfold sample_prices. simpl. tauto.
Defined.

End PriceProperties.

(** ** Receipt cache *)

Section CacheProperties.
Import Cache.

Lemma cleanup_lookup now (c : ReceiptCache) (k : string) :
  cache (cleanup now c) !! k =
    match cache c !! k with
    | Some e => if expiresAt e <? now then None else Some e
    | None => None
    end.
Proof.
  unfold cleanup. cbn [cache with_cache].
  destruct (cache c !! k) as [e|] eqn:Hk.
  - destruct (Z.ltb_spec (expiresAt e) now) as [Hlt|Hge].
    + apply map_lookup_filter_None. right. intros e' He'. simpl.
      rewrite Hk in He'. injection He' as <-. tauto.
    + apply map_lookup_filter_Some. split; [exact Hk|]. simpl. lia.
  - apply map_lookup_filter_None. now left.
Qed.

(** What [get] answers, and what it leaves under the key, in terms of the
    entry found under the key before the call. *)
Lemma get_spec (contentId : string) now (c : ReceiptCache) :
  match cache c !! contentId with
  | Some e =>
      if expiresAt e <? now
      then (get contentId now c).1 = None /\ cache (get contentId now c).2 !! contentId = None
      else (get contentId now c).1 = Some (token e) /\
           cache (get contentId now c).2 !! contentId = Some e
  | None => (get contentId now c).1 = None /\ cache (get contentId now c).2 !! contentId = None
  end.
Proof.
  unfold get.
  set (c0 := {| cache := cache c; defaultTTL := defaultTTL c; accessCount := accessCount c + 1 |}).
  change (cache c) with (cache c0). clearbody c0.
  destruct (Z.rem (accessCount c0) cleanupInterval =? 0).
  - rewrite cleanup_lookup.
    destruct (cache c0 !! contentId) as [e|] eqn:Hk; [|cbn [fst snd]; rewrite cleanup_lookup, Hk; now split].
    destruct (expiresAt e <? now) eqn:Hlt; [cbn [fst snd]; rewrite cleanup_lookup, Hk, Hlt; now split|].
    rewrite Hlt. cbn [fst snd]. rewrite cleanup_lookup, Hk, Hlt. now split.
  - destruct (cache c0 !! contentId) as [e|] eqn:Hk; [|cbn [fst snd cache]; now split].
    destruct (expiresAt e <? now) eqn:Hlt; cbn [fst snd cache with_cache].
    + split; [reflexivity | apply lookup_delete_eq].
    + now split.
Qed.

(** C6. After [set(id, tok, ttl)] at the instant [t0], [get(id)] answers
    [tok] at every instant up to [t0 + ttl] seconds, and answers null and
    leaves no entry at every later instant; the same holds of any cache in
    which the entry is absent or expired. *)
Theorem C6_cache_correctness (c : ReceiptCache) (id tok : string) (ttl t0 t : Z) :
  let c1 := set id tok (Some ttl) t0 c in
  (t <= t0 + ttl * 1000 -> (get id t c1).1 = Some tok) /\
  (t0 + ttl * 1000 < t ->
     (get id t c1).1 = None /\ cache (get id t c1).2 !! id = None) /\
  (forall c' : ReceiptCache,
     cache c' !! id = None \/ (exists e, cache c' !! id = Some e /\ expiresAt e < t) ->
     (get id t c').1 = None /\ cache (get id t c').2 !! id = None).
Proof.
  intros c1.
  assert (H1 : cache c1 !! id = Some {| token := tok; expiresAt := t0 + ttl * 1000 |}).
  { unfold c1, set. cbn [cache with_cache default]. apply lookup_insert_eq. }
  pose proof (get_spec id t c1) as Hget. rewrite H1 in Hget. cbn [expiresAt token] in Hget.
  repeat split.
  - intros Ht. destruct (Z.ltb_spec (t0 + ttl * 1000) t); [lia | tauto].
  - destruct (Z.ltb_spec (t0 + ttl * 1000) t); [tauto | lia].
  - destruct (Z.ltb_spec (t0 + ttl * 1000) t); [tauto | lia].
  - pose proof (get_spec id t c') as Hc. destruct H as [Hn|(e & He & Hlt)].
    + rewrite Hn in Hc. tauto.
    + rewrite He in Hc. destruct (Z.ltb_spec (expiresAt e) t); [tauto | lia].
  - pose proof (get_spec id t c') as Hc. destruct H as [Hn|(e & He & Hlt)].
    + rewrite Hn in Hc. tauto.
    + rewrite He in Hc. destruct (Z.ltb_spec (expiresAt e) t); [tauto | lia].
Qed.

Lemma C6_cache_correctness_witness :
  let c1 := set "article-1" "jwt.token" (Some 60) 1000 (new None) in
  (get "article-1" 61000 c1).1 = Some "jwt.token" /\
  (get "article-1" 61001 c1).1 = None /\
  cache (get "article-1" 61001 c1).2 !! "article-1" = None.
Proof.
  intros c1. split.
  - apply (proj1 (C6_cache_correctness (new None) "article-1" "jwt.token" 60 1000 61000)). lia.
  - apply (proj1 (proj2 (C6_cache_correctness (new None) "article-1" "jwt.token" 60 1000 61001))). lia.
Defined.

End CacheProperties.

(** ** Receipt extraction *)

Section HeaderProperties.
Import JSString Receipt HeaderOrder.

Lemma Headers_values_case (h h' : WebHeaders) (name name' : string) :
  same_up_to_case h h' -> toLowerCase name = toLowerCase name' ->
  Headers_values name h = Headers_values name' h'.
Proof.
  intros Hh Hn. induction Hh as [|[n v] [n' v'] h h' [Hnn Hvv] _ IH]; [reflexivity|].
  simpl in *. subst v'. rewrite Hnn, Hn, IH. reflexivity.
Qed.

Lemma Headers_get_case (h h' : WebHeaders) (name name' : string) :
  same_up_to_case h h' -> toLowerCase name = toLowerCase name' ->
  Headers_get h name = Headers_get h' name'.
Proof.
  intros Hh Hn. unfold Headers_get. now rewrite (Headers_values_case h h' name name').
Qed.

Lemma extract_Headers (h : WebHeaders) :
  extractReceiptFromHeaders (OfHeaders h) =
    first_hit (Headers_get h "X-402-Receipt") (Headers_get h "X-PAYMENT")
      (Headers_get h "Authorization").
Proof.
  unfold extractReceiptFromHeaders, first_hit.
  destruct (truthy_opt (Headers_get h "X-402-Receipt")); [reflexivity|].
  destruct (truthy_opt (Headers_get h "X-PAYMENT")); [reflexivity|].
  now destruct (Headers_get h "Authorization").
Qed.

Lemma extract_Record (o : gmap string string) :
  extractReceiptFromHeaders (OfRecord o) =
    first_hit (or_else (o !! "X-402-Receipt") (o !! "x-402-receipt"))
      (or_else (o !! "X-PAYMENT") (o !! "x-payment"))
      (or_else (o !! "Authorization") (o !! "authorization")).
Proof.
  unfold extractReceiptFromHeaders, first_hit.
  destruct (truthy_opt (or_else (o !! "X-402-Receipt") (o !! "x-402-receipt"))); [reflexivity|].
  destruct (truthy_opt (or_else (o !! "X-PAYMENT") (o !! "x-payment"))); [reflexivity|].
  now destruct (or_else (o !! "Authorization") (o !! "authorization")).
Qed.

(** C9, as the code has it.  From a [Headers] object the receipt is the
    first hit among the three headers in order, the names looked up without
    regard to case.  From a plain record it is the first hit among the same
    three, each read under its canonical spelling or else its lower-case
    spelling, and under no other: a record that carries none of these six
    keys yields null. *)
Theorem C9_receipt_extraction :
  (forall (h h' : WebHeaders) (r p a : string),
     same_up_to_case h h' ->
     toLowerCase r = "x-402-receipt" -> toLowerCase p = "x-payment" ->
     toLowerCase a = "authorization" ->
     extractReceiptFromHeaders (OfHeaders h') =
       first_hit (Headers_get h r) (Headers_get h p) (Headers_get h a)) /\
  (forall o : gmap string string,
     extractReceiptFromHeaders (OfRecord o) =
       first_hit (or_else (o !! "X-402-Receipt") (o !! "x-402-receipt"))
         (or_else (o !! "X-PAYMENT") (o !! "x-payment"))
         (or_else (o !! "Authorization") (o !! "authorization"))) /\
  (forall o : gmap string string,
     o !! "X-402-Receipt" = None -> o !! "x-402-receipt" = None ->
     o !! "X-PAYMENT" = None -> o !! "x-payment" = None ->
     o !! "Authorization" = None -> o !! "authorization" = None ->
     extractReceiptFromHeaders (OfRecord o) = None).
Proof.
  split; [|split].
  - intros h h' r p a Hh Hr Hp Ha. rewrite extract_Headers.
    assert (Hh' : same_up_to_case h' h).
    { clear -Hh. induction Hh as [|x y ? ? [H1 H2]]; constructor; [now split | assumption]. }
    f_equal; apply Headers_get_case; try assumption; now rewrite ?Hr, ?Hp, ?Ha.
  - apply extract_Record.
  - intros o H1 H2 H3 H4 H5 H6. rewrite extract_Record, H1, H2, H3, H4, H5, H6. reflexivity.
Qed.

Lemma C9_receipt_extraction_witness :
  extractReceiptFromHeaders (OfHeaders [("x-402-RECEIPT", EmptyString); ("X-Payment", "pay-token")])
    = Some "pay-token" /\
  extractReceiptFromHeaders (OfRecord {["AUTHORIZATION" := "X402 token"]}) = None.
Proof.
  split.
  - rewrite (proj1 C9_receipt_extraction
               [("X-402-Receipt", EmptyString); ("X-PAYMENT", "pay-token")]
               [("x-402-RECEIPT", EmptyString); ("X-Payment", "pay-token")]
               "X-402-RECEIPT" "x-payment" "Authorization");
      [reflexivity | | reflexivity | reflexivity | reflexivity].
    repeat constructor.
  - apply (proj2 (proj2 C9_receipt_extraction)); reflexivity.
Defined.

(** The claim fails on a plain record: the receipt under a name in another
    case is found in a [Headers] object and missed in a record. *)
Lemma C9_record_lookup_is_case_sensitive :
  extractReceiptFromHeaders (OfHeaders [("X-402-RECEIPT", "tok")]) = Some "tok" /\
  extractReceiptFromHeaders (OfRecord {["X-402-RECEIPT" := "tok"]}) = None.
Proof. split; reflexivity. Qed.

End HeaderProperties.

(** ** Comparisons of whole numbers *)

Section IntegerComparisons.
Import JSNumber.

(** The comparisons of two whole numbers. *)
Lemma le_integers (a b : Z) :
  le (Finite (inject_Z a)) (Finite (inject_Z b)) = (a <=? b).
Proof.
  unfold le, lt. rewrite negb_involutive.
  destruct (Z.leb_spec a b) as [Hab|Hab].
  - apply Qle_bool_iff. now rewrite <- Zle_Qle.
  - destruct (Qle_bool _ _) eqn:E; [|reflexivity].
    apply Qle_bool_iff in E. rewrite <- Zle_Qle in E. lia.
Qed.

Lemma lt_integers (a b : Z) :
  lt (Finite (inject_Z a)) (Finite (inject_Z b)) = (a <? b).
Proof.
  unfold lt.
  destruct (Z.ltb_spec a b) as [Hab|Hab].
  - apply negb_true_iff. destruct (Qle_bool _ _) eqn:E; [|reflexivity].
    apply Qle_bool_iff in E. rewrite <- Zle_Qle in E. lia.
  - apply negb_false_iff, Qle_bool_iff. now rewrite <- Zle_Qle.
Qed.

End IntegerComparisons.

(** ** Receipt tokens *)

Section ReceiptProperties.
Import JSString JSNumber Types JSON Jose Receipt.
Context `{Primitives}.

Lemma truthy_opt_Some (s : string) : s <> EmptyString -> truthy_opt (Some s) = Some s.
Proof. now destruct s. Qed.

Lemma truthy_opt_inv (o : option string) (s : string) :
  truthy_opt o = Some s -> o = Some s /\ s <> EmptyString.
Proof.
  destruct o as [[|c r]|]; simpl; try discriminate.
  intros [= <-]. now split.
Qed.

(** The claims set of a receipt reads back as the receipt. *)
Lemma receipt_of_claims (r : X402Receipt) :
  receipt_of (receipt_claims r) = Unchecked.of_receipt r.
Proof. reflexivity. Qed.

(** The expiry check of [verifyReceipt] on a whole number of seconds. *)
Lemma expired_integer (e now : Z) :
  lt (ToNumber_unknown (Some (integer e))) (Finite (inject_Z now)) = (e <? now).
Proof. apply lt_integers. Qed.

(** The token of a receipt, verified with its own secret. *)
Lemma jwtVerify_own (r : X402Receipt) (s : string) (now : Z) :
  jwtVerify (createReceiptToken r s) (SecretKey s) now =
    if expiresAt r <=? now then Throw (Error (quoted "exp" ++ " claim timestamp check failed"))
    else decodeJwt (createReceiptToken r s).
Proof.
  unfold createReceiptToken, SignJWT_sign, jwtVerify, verify_signature.
  cbn [alg]. rewrite String.eqb_refl.
  change (is_HS "HS256") with true. cbn [mbind Result_bind decodeJwt].
  unfold validate_claims.
  change (lookup_field "iat" (receipt_claims r)) with (Some (integer (paidAt r))).
  change (lookup_field "nbf" (receipt_claims r)) with (@None json).
  change (lookup_field "exp" (receipt_claims r)) with (Some (integer (expiresAt r))).
  unfold integer. rewrite le_integers. cbn [mbind Result_bind].
  now destruct (expiresAt r <=? now).
Qed.




(** [v !== s] is false for the string [s] alone. *)
Lemma differs_from_false (v : unknown) (s : string) :
  differs_from v s = false <-> v = Some (JStr s).
Proof.
  unfold differs_from, as_string. destruct v as [[| | |s'| |]|]; try (split; discriminate).
  destruct (String.eqb_spec s' s) as [->|Hne]; cbn [negb].
  - split; reflexivity.
  - split; [discriminate | intros [= ->]; contradiction].
Qed.

(** What [verifyReceipt] makes of the claims set of a receipt [r]: the
    expiry check and the content check on [r] itself. *)
Lemma verifyReceipt_claims (r : X402Receipt) (s : string) (options : VerifyOptions)
    (now_ms : Z) :
  verified_payload (createReceiptToken r s) options (now_ms / 1000)
  = decodeJwt (createReceiptToken r s) ->
  verifyReceipt (createReceiptToken r s) options now_ms
  = if expiresAt r <? now_ms / 1000 then
      {| valid := false; receipt := Some (Unchecked.of_receipt r);
         error := Some "Receipt has expired" |}
    else
      match truthy_opt (expectedContentId options) with
      | Some expected =>
          if negb (String.eqb (contentId r) expected) then
            {| valid := false; receipt := Some (Unchecked.of_receipt r);
               error := Some ("Receipt is for content " ++ quoted (contentId r)
                              ++ ", not " ++ quoted expected) |}
          else {| valid := true; receipt := Some (Unchecked.of_receipt r); error := None |}
      | None => {| valid := true; receipt := Some (Unchecked.of_receipt r); error := None |}
      end.
Proof.
  intros Hpayload. unfold verifyReceipt. rewrite Hpayload.
  unfold createReceiptToken, SignJWT_sign. cbn [decodeJwt mbind Result_bind].
  rewrite receipt_of_claims.
  cbn [Unchecked.expiresAt Unchecked.contentId Unchecked.of_receipt].
  rewrite expired_integer.
  destruct (expiresAt r <? now_ms / 1000); [reflexivity|].
  destruct (truthy_opt (expectedContentId options)) as [expected|]; [|reflexivity].
  cbn [differs_from as_string text json_text].
  now destruct (String.eqb (contentId r) expected).
Qed.

(** C4, as the code has it.  The token of a receipt [r] signed with [s],
    verified with [s] at an instant before [r.expiresAt], is valid and
    yields [r].  Verified with a secret that is not empty and that signs
    [r] to another token, it is invalid at every instant; so it is,
    verified with [s] not empty, from the instant [r.expiresAt] on. *)
Theorem C4_receipt_round_trip (r : X402Receipt) (s : string) :
  (forall now_ms : Z,
     now_ms < expiresAt r * 1000 ->
     verifyReceipt (createReceiptToken r s)
       {| jwtSecret := Some s; facilitatorPublicKey := None; expectedContentId := None |} now_ms
     = {| valid := true; receipt := Some (Unchecked.of_receipt r); error := None |}) /\
  (forall (s' : string) (options : VerifyOptions) (now_ms : Z),
     jwtSecret options = Some s' -> s' <> EmptyString ->
     createReceiptToken r s' <> createReceiptToken r s ->
     valid (verifyReceipt (createReceiptToken r s) options now_ms) = false) /\
  (forall (options : VerifyOptions) (now_ms : Z),
     jwtSecret options = Some s -> s <> EmptyString ->
     expiresAt r * 1000 <= now_ms ->
     valid (verifyReceipt (createReceiptToken r s) options now_ms) = false).
Proof.
  split; [|split].
  - intros now_ms Hnow.
    assert (Hlt : now_ms / 1000 < expiresAt r) by (apply Z.div_lt_upper_bound; lia).
    rewrite verifyReceipt_claims.
    + cbn [expectedContentId truthy_opt].
      destruct (Z.ltb_spec (expiresAt r) (now_ms / 1000)); [lia | reflexivity].
    + unfold verified_payload. cbn [jwtSecret facilitatorPublicKey].
      destruct (truthy_opt (Some s)) as [s0|] eqn:Hs; [|reflexivity].
      apply truthy_opt_inv in Hs as [[= <-] _]. rewrite jwtVerify_own.
      destruct (Z.leb_spec (expiresAt r) (now_ms / 1000)); [lia | reflexivity].
  - intros s' options now_ms Hs' Hne Hmac.
    unfold verifyReceipt, verified_payload. rewrite Hs', (truthy_opt_Some s' Hne).
    unfold createReceiptToken, SignJWT_sign, jwtVerify, verify_signature in *.
    cbn [alg] in *. change (is_HS "HS256") with true. cbv iota.
    match goal with |- context [String.eqb ?a ?b] => destruct (String.eqb_spec a b) as [Heq|_] end.
    + now rewrite Heq in Hmac.
    + reflexivity.
  - intros options now_ms Hs Hne Hnow.
    assert (Hle : expiresAt r <= now_ms / 1000) by (apply Z.div_le_lower_bound; lia).
    unfold verifyReceipt, verified_payload. rewrite Hs, (truthy_opt_Some s Hne), jwtVerify_own.
    destruct (Z.leb_spec (expiresAt r) (now_ms / 1000)); [reflexivity | lia].
Qed.


End ReceiptProperties.

Section ReceiptExamples.
Import JSString JSNumber Types JSON Jose Receipt Sample.

Lemma C4_receipt_round_trip_witness :
  let r := Sample.receipt_a in
  verifyReceipt (createReceiptToken r "k")
    {| jwtSecret := Some "k"; facilitatorPublicKey := None; expectedContentId := None |} 1999999
  = {| valid := true; receipt := Some (Unchecked.of_receipt r); error := None |} /\
  valid (verifyReceipt (createReceiptToken r "k")
           {| jwtSecret := Some "other"; facilitatorPublicKey := None;
              expectedContentId := None |} 1999999) = false /\
  valid (verifyReceipt (createReceiptToken r "k")
           {| jwtSecret := Some "k"; facilitatorPublicKey := None;
              expectedContentId := None |} 2000000) = false.
Proof.
  intros r. split; [|split].
  - apply (proj1 (C4_receipt_round_trip r "k")). unfold r. simpl. lia.
  - apply (proj1 (proj2 (C4_receipt_round_trip r "k")) "other"); [reflexivity | discriminate | discriminate].
  - apply (proj2 (proj2 (C4_receipt_round_trip r "k"))); [reflexivity | discriminate | unfold r; simpl; lia].
Defined.


(** The claim fails for the empty secret: it counts as no secret, and the
    token signed with another secret is decoded and found valid. *)
Lemma C4_empty_secret_accepts :
  EmptyString <> "k" /\
  verifyReceipt (createReceiptToken receipt_a "k")
    {| jwtSecret := Some EmptyString; facilitatorPublicKey := None; expectedContentId := None |}
    1999000
  = {| valid := true; receipt := Some (Unchecked.of_receipt receipt_a); error := None |}.
Proof. split; [discriminate | reflexivity]. Qed.


End ReceiptExamples.

(** ** Facilitator pipeline *)

Section FacilitatorProperties.
Import JSString JSNumber Constants Types Jose Receipt Fee JSON Facilitator.
Import JSFacts Binary64Facts.
Context `{Primitives} `{Recovery}.



Lemma validateTimeWindow_spec (a : TransferAuthorization) (now_ms : Z) :
  time_valid (validateTimeWindow a now_ms) = false <->
  le (ToNumber (validBefore a)) (Finite (inject_Z (now_ms / 1000))) = true \/
  lt (Finite (inject_Z (now_ms / 1000))) (ToNumber (validAfter a)) = true.
Proof.
  unfold validateTimeWindow.
  destruct (le _ _); [simpl; tauto|].
  destruct (lt _ _); simpl; [tauto|]. split; [discriminate | intros [|]; discriminate].
Qed.

(** C3. For a payload that passed validation, network resolution and the
    signature check, [handlePayment] answers 400 exactly when [validBefore
    <= now] or [validAfter > now], with [now] the present second; when the
    two bounds are numbers, the comparisons are those of their values. *)
Theorem C3_time_window (payload : unknown) (config : FacilitatorConfig)
    (executor : TransferExecutor) (now_window now_receipt : Z) (random36 : string)
    (request : FacilitatorPayload) (networkInfo : NetworkInfo) :
  validatePayload payload = ValidPayload request ->
  resolveNetwork (network request) = Some networkInfo ->
  sig_valid (verifySignature (authorization request) (signature request)
               (net_chainId networkInfo) (x402Network networkInfo)) = true ->
  let a := authorization request in
  let now := now_window / 1000 in
  ((exists error,
      handlePayment payload config executor now_window now_receipt random36
      = Ok {| status := 400; body := ErrorBody error |})
   <-> le (ToNumber (validBefore a)) (Finite (inject_Z now)) = true \/
       lt (Finite (inject_Z now)) (ToNumber (validAfter a)) = true) /\
  (time_valid (validateTimeWindow a now_window) = true
   <-> ~ (le (ToNumber (validBefore a)) (Finite (inject_Z now)) = true \/
          lt (Finite (inject_Z now)) (ToNumber (validAfter a)) = true)) /\
  (forall after before : Q,
     validAfter a = JNum (Finite after) -> validBefore a = JNum (Finite before) ->
     (le (ToNumber (validBefore a)) (Finite (inject_Z now)) = true \/
      lt (Finite (inject_Z now)) (ToNumber (validAfter a)) = true)
     <-> (before <= inject_Z now \/ inject_Z now < after)%Q).
Proof.
  intros Hvalid Hnet Hsig. cbv zeta.
  pose proof (validateTimeWindow_spec (authorization request) now_window) as Hspec.
  split; [|split].
  - rewrite <- Hspec. unfold handlePayment. rewrite Hvalid, Hnet. cbv zeta.
    rewrite Hsig. cbn [negb].
    destruct (time_valid (validateTimeWindow (authorization request) now_window)); cbn [negb].
    + split; [|discriminate]. intros [error Herr]. exfalso. revert Herr.
      destruct (calculateFee_of _ _) as [fees|e];
        cbn [mbind Result_bind]; [|discriminate].
      destruct (executor _) as [[txHash []]|e]; cbn [negb success]; discriminate.
    + split; [reflexivity|]. intros _. eauto.
  - rewrite <- Hspec. destruct (time_valid _); split; congruence.
  - intros after before Ha Hb. rewrite Ha, Hb. cbn [ToNumber le lt negb].
    rewrite negb_involutive.
    rewrite Qle_bool_iff. rewrite negb_true_iff.
    split; (intros [Hle|Hlt]; [now left | right]).
    + apply Qnot_le_lt. intros Hc. apply Qle_bool_iff in Hc. congruence.
    + destruct (Qle_bool after (inject_Z (now_window / 1000))) eqn:Hc; [|reflexivity].
      apply Qle_bool_iff in Hc. exfalso. apply (Qlt_not_le _ _ Hlt Hc).
Qed.


End FacilitatorProperties.

Section FacilitatorExamples.
Import JSString JSNumber Constants Types Jose Receipt Fee JSON Facilitator Sample.

Lemma C3_time_window_witness :
  (exists error,
     handlePayment (Some payload) config MockTransferExecutor 99999999990000 99999999990500
       "0.4fzyo82mvyr"
     = Ok {| status := 400; body := ErrorBody error |}) /\
  ~ (exists error,
       handlePayment (Some payload) config MockTransferExecutor 1700000000123 1700000001999
         "0.4fzyo82mvyr"
       = Ok {| status := 400; body := ErrorBody error |}).
Proof.
  split.
  - destruct (C3_time_window (Some payload) config MockTransferExecutor
                99999999990000 99999999990500 "0.4fzyo82mvyr" validated mainnet)
      as [H400 _]; [reflexivity | reflexivity | vm_compute; reflexivity |].
    apply H400. left. vm_compute. reflexivity.
  - destruct (C3_time_window (Some payload) config MockTransferExecutor
                1700000000123 1700000001999 "0.4fzyo82mvyr" validated mainnet)
      as [H400 _]; [reflexivity | reflexivity | vm_compute; reflexivity |].
    intros Herr. apply H400 in Herr.
    destruct Herr as [Herr|Herr]; vm_compute in Herr; discriminate.
Defined.


End FacilitatorExamples.

(** ** Budget *)

Section BudgetProperties.
Import JSString JSNumber Pricing Receipt Budget RejectionCode.
Import JSFacts Binary64Facts.

Lemma span_digits_all (s : string) :
  all_chars is_digit s = true -> span_digits s = (s, EmptyString).
Proof.
  induction s as [|c s IH]; simpl; [reflexivity|].
  intros [Hc Hs]%andb_prop. now rewrite Hc, (IH Hs).
Qed.

Lemma digits_Z_nonneg (s : string) : 0 <= digits_Z s.
Proof.
  unfold digits_Z. destruct (NilEmpty.uint_of_string s) as [d|]; [|lia].
  unfold Z.of_uint. apply N2Z.is_nonneg.
Qed.

(** [parseInt] of a run of digits is a number that is not negative. *)
Lemma parseInt10_digits (s : string) :
  s <> EmptyString -> all_chars is_digit s = true ->
  parseInt10 s = of_Z (digits_Z s).
Proof.
  intros Hne Hs. unfold parseInt10.
  destruct s as [|c s]; [congruence|].
  pose proof Hs as Hs'. simpl in Hs'. apply andb_prop in Hs' as [Hc _].
  rewrite trimStart_id by (apply negb_true_iff; now apply is_digit_not_whitespace).
  assert (Hsign : split_sign (String c s) = (false, String c s)).
  { destruct c as [[] [] [] [] [] [] [] []]; try discriminate Hc; reflexivity. }
  rewrite Hsign, (span_digits_all _ Hs). reflexivity.
Qed.

Lemma of_Z_nonneg (z : Z) :
  0 <= z -> isNaN (of_Z z) = false /\ lt (of_Z z) (Finite 0) = false.
Proof.
  intros Hz. unfold of_Z.
  destruct (binary64_nonneg (inject_Z z)) as [-> | (y & -> & Hy)].
  - change 0%Q with (inject_Z 0). now rewrite <- Zle_Qle.
  - now split.
  - split; [reflexivity|]. cbn [lt]. apply negb_false_iff. now apply Qle_bool_iff.
Qed.

(** The text of a bigint that is not negative is formatted without error. *)
Lemma formatPrice_nonneg (r : Z) (options : FormatOptions) :
  0 <= r -> decimals options = None ->
  exists text, formatPrice (Text (JSBigInt.toString r)) options = Ok text.
Proof.
  intros Hr Hd. unfold formatPrice. rewrite Hd. cbn [default].
  assert (Hparse : exists z, 0 <= z /\ parseInt10 (JSBigInt.toString r) = of_Z z).
  { unfold JSBigInt.toString. destruct r as [|p|p]; [| |lia].
    - exists 0. split; [lia | reflexivity].
    - cbn [Z.to_int NilZero.string_of_int].
      eexists. split; [apply digits_Z_nonneg|]. apply parseInt10_digits.
      + apply NilZero_string_of_uint_nonempty.
      + apply NilZero_string_of_uint_digits. }
  destruct Hparse as (z & Hz & ->).
  destruct (of_Z_nonneg z Hz) as [-> ->]. cbn [orb].
  unfold toFixed. change (Z.min 2 Constants.USDC_DECIMALS) with 2.
  change ((2 <? 0) || (100 <? 2)) with false. cbv iota.
  destruct (div (of_Z z) (Math_pow10 Constants.USDC_DECIMALS)) as [| |q];
    cbn [mbind Result_bind]; [eauto | eauto |].
  destruct (Qle_bool _ _); cbn [mbind Result_bind]; eauto.
Qed.

Lemma smallest_Ok (amount : string) (a : Z) :
  smallest amount = Ok a ->
  exists s, parsePrice (Text amount) = Ok s /\ JSBigInt.BigInt s = Ok a.
Proof.
  unfold smallest. destruct (parsePrice (Text amount)) as [s|]; [|discriminate].
  cbn [mbind Result_bind]. eauto.
Qed.

(** What a check that allows the spend has established. *)
Lemma checkSpend_allowed (b : BudgetManager) (amount : string) (domain : option string)
    (check : SpendCheckResult) :
  checkSpend b amount domain = Ok check -> allowed check = true ->
  exists a, smallest amount = Ok a /\
    match truthy_opt (maxTotal (policy b)) with
    | Some limit => exists m, smallest limit = Ok m /\ totalSpent b + a <= m
    | None => True
    end.
Proof.
  unfold checkSpend.
  destruct (match truthy_opt domain with Some _ => _ | None => _ end) as [rejected|] eqn:Hd.
  { intros [= <-]. revert Hd.
    destruct (truthy_opt domain); [|discriminate].
    destruct (allowedDomains (policy b)); [|discriminate].
    destruct (_ && _); [|discriminate]. now intros [= <-]. }
  destruct (smallest amount) as [a|]; [|discriminate]. cbn [mbind Result_bind].
  destruct (truthy_opt (maxPerRequest (policy b))) as [limit|].
  - destruct (smallest limit) as [m|]; [|discriminate]. cbn [mbind Result_bind].
    destruct (m <? a); cbn [mbind Result_bind]; [now intros [= <-]|].
    destruct (truthy_opt (maxTotal (policy b))) as [limit'|]; [|eauto].
    destruct (smallest limit') as [m'|]; [|discriminate]. cbn [mbind Result_bind].
    destruct (Z.ltb_spec m' (totalSpent b + a)).
    + destruct (formatPrice _ _); cbn [mbind Result_bind]; [now intros [= <-] | discriminate].
    + intros _ _. exists a. split; [reflexivity|]. exists m'. split; [reflexivity | lia].
  - cbn [mbind Result_bind].
    destruct (truthy_opt (maxTotal (policy b))) as [limit'|]; [|eauto].
    destruct (smallest limit') as [m'|]; [|discriminate]. cbn [mbind Result_bind].
    destruct (Z.ltb_spec m' (totalSpent b + a)).
    + destruct (formatPrice _ _); cbn [mbind Result_bind]; [now intros [= <-] | discriminate].
    + intros _ _. exists a. split; [reflexivity|]. exists m'. split; [reflexivity | lia].
Qed.

Lemma assertSpend_Ok (b : BudgetManager) (amount : string) (domain : option string) :
  assertSpend b amount domain = Ok tt ->
  exists a, smallest amount = Ok a /\
    match truthy_opt (maxTotal (policy b)) with
    | Some limit => exists m, smallest limit = Ok m /\ totalSpent b + a <= m
    | None => True
    end.
Proof.
  unfold assertSpend.
  destruct (checkSpend b amount domain) as [check|] eqn:Hcheck; [|discriminate].
  cbn [mbind Result_bind].
  destruct (allowed check) eqn:Hallowed; cbn [negb].
  - intros _. now apply (checkSpend_allowed b amount domain check).
  - destruct (match truthy_opt domain with Some _ => _ | None => _ end); [discriminate|].
    destruct (match truthy_opt (maxPerRequest (policy b)) with Some _ => _ | None => _ end)
      as [[]|]; discriminate.
Qed.

(** A spend that the policy allows is recorded without error. *)
Lemma recordSpend_allowed (b : BudgetManager) (s contentId domain : string) (now a : Z) :
  JSBigInt.BigInt s = Ok a ->
  match truthy_opt (maxTotal (policy b)) with
  | Some limit => exists m, smallest limit = Ok m /\ totalSpent b + a <= m
  | None => True
  end ->
  exists warning,
    recordSpend b s contentId domain now =
      (Ok warning,
       {| policy := policy b;
          totalSpent := totalSpent b + a;
          history := history b ++ [{| contentId := contentId; amount := s;
                                      domain := domain; timestamp := now |}];
          onBudgetWarning := onBudgetWarning b |}).
Proof.
  intros Ha Htotal. unfold recordSpend. rewrite Ha. cbn [policy totalSpent onBudgetWarning].
  destruct (truthy_opt (maxTotal (policy b))) as [limit|]; [|eauto].
  destruct Htotal as (m & -> & Hle). cbn [mbind Result_bind].
  destruct (_ && _); [|eauto].
  destruct (formatPrice_nonneg (m - (totalSpent b + a)) no_symbol) as [text ->];
    [lia | reflexivity |]. cbn [mbind Result_bind]. eauto.
Qed.


(** Unless the allow-list is the empty list, [assertSpend] throws the code
    of the check that [checkSpend] rejected the spend for, and it returns
    when [checkSpend] allows the spend. *)
Lemma assertSpend_code_agrees (b : BudgetManager) (amount : string) (domain : option string)
    (check : SpendCheckResult) :
  allowedDomains (policy b) <> Some [] ->
  checkSpend b amount domain = Ok check ->
  if allowed check then assertSpend b amount domain = Ok tt
  else exists message,
         reason check = Some message /\
         assertSpend b amount domain = Throw (X402BudgetError message (code_of_reason message)).
Proof.
  intros Hlist Hcheck. unfold assertSpend. rewrite Hcheck. cbn [mbind Result_bind].
  revert Hcheck. unfold checkSpend.
  assert (Hdomain :
    match truthy_opt domain, allowedDomains (policy b) with
    | Some d, Some l => (0 <? Z.of_nat (length l)) && negb (includes l d) = negb (includes l d)
    | _, _ => True
    end).
  { destruct (truthy_opt domain); [|exact I].
    destruct (allowedDomains (policy b)) as [[|d0 l]|]; [congruence | reflexivity | exact I]. }
  destruct (truthy_opt domain) as [d|]; [destruct (allowedDomains (policy b)) as [l|]|].
  1: rewrite Hdomain; destruct (includes l d); cbn [negb];
       [|intros [= <-]; cbn [allowed reason negb default]; eexists; (split; [reflexivity|]); unfold code_of_reason; simpl; reflexivity].
  all: destruct (smallest amount) as [a|]; [|discriminate]; cbn [mbind Result_bind];
       (destruct (truthy_opt (maxPerRequest (policy b))) as [limit|];
        [destruct (smallest limit) as [m|]; [|discriminate]; cbn [mbind Result_bind];
         destruct (m <? a);
         [intros [= <-]; cbn [allowed reason negb default mbind Result_bind];
          eexists; (split; [reflexivity|]); unfold code_of_reason; simpl; reflexivity|]
        |]);
       cbn [mbind Result_bind];
       (destruct (truthy_opt (maxTotal (policy b))) as [limit'|];
        [destruct (smallest limit') as [m'|]; [|discriminate]; cbn [mbind Result_bind];
         destruct (m' <? totalSpent b + a);
         [destruct (formatPrice _ _) as [text|]; [|discriminate]; cbn [mbind Result_bind];
          intros [= <-]; cbn [allowed reason negb default mbind Result_bind];
          eexists; (split; [reflexivity|]); unfold code_of_reason; simpl; reflexivity|]
        |]);
       intros [= <-]; reflexivity.
Qed.

(** C8.  With an allow-list that is empty [checkSpend] skips the domain
    check and rejects an amount above the per-request limit for that limit;
    [assertSpend] then reports the code of the domain check. *)
Theorem C8_empty_allow_list_misreported :
  let b := new Sample.empty_allow_list in
  checkSpend b "2.00" (Some "evil.com")
    = Ok {| allowed := false;
            reason := Some "Amount 2.00 USDC exceeds per-request limit of 1.00 USDC" |} /\
  assertSpend b "2.00" (Some "evil.com")
    = Throw (X402BudgetError "Amount 2.00 USDC exceeds per-request limit of 1.00 USDC"
               DOMAIN_NOT_ALLOWED).
Proof. split; vm_compute; reflexivity. Qed.

End BudgetProperties.

(** ** Agent client *)

Section ClientProperties.
Import JSString JSNumber Pricing Receipt EIP712 FacilitatorClient Client.
Import JSFacts Binary64Facts.

(** A response of the retry loop is the response of one of its attempts. *)
Lemma attempts_Ok (submit : Submission) (url : string) (payload : FacilitatorPayload)
    (remaining attempt : nat) (lastError : option exn) (response : FacilitatorResponse) :
  attempts submit url payload remaining attempt lastError = Ok response ->
  exists i, submit i url payload = Ok response.
Proof.
  revert attempt lastError.
  induction remaining as [|remaining IH]; intros attempt lastError; simpl; [discriminate|].
  destruct (submit attempt url payload) as [r|err] eqn:Hs.
  - intros [= <-]. eauto.
  - destruct (non_retryable err); [discriminate | apply IH].
Qed.

(** A receipt obtained: the budget allowed the spend, and the facilitator
    answered the receipt at one of the attempts. *)
Lemma obtain_receipt_Ok (env : Environment) (c : X402AgentClient) (pr : PaymentRequest)
    (domain : string) (response : FacilitatorResponse) :
  obtain_receipt env c pr domain = Ok response ->
  Budget.assertSpend (budget c) (price pr) (Some domain) = Ok tt /\
  exists i url payload, submitToFacilitator env i url payload = Ok response.
Proof.
  unfold obtain_receipt.
  destruct (Budget.assertSpend _ _ _) as [[]|]; [|discriminate]. cbn [mbind Result_bind].
  destruct (buildTransferAuthorization _ _ _) as [[typedData authorization]|]; [|discriminate].
  cbn [mbind Result_bind].
  destruct (signTypedData env typedData) as [signature|]; [|discriminate].
  cbn [mbind Result_bind]. unfold submitToFacilitatorWithRetry.
  intros Hr. split; [reflexivity|]. apply attempts_Ok in Hr as [i Hi]. eauto.
Qed.

(** After a spend that the budget allowed, settling does not throw. *)
Lemma settle_allowed (env : Environment) (c : X402AgentClient) (pr : PaymentRequest)
    (domain : string) (response : FacilitatorResponse) :
  Budget.assertSpend (budget c) (price pr) (Some domain) = Ok tt ->
  exists (s : string) (a : Z) (c' : X402AgentClient),
    parsePrice (Text (price pr)) = Ok s /\ JSBigInt.BigInt s = Ok a /\
    settle env c pr domain response =
      (Ok {| receiptToken := receipt response; paid_txHash := txHash response |}, c') /\
    receiptCache c' =
      Cache.set (contentId pr) (receipt response) None (t_end env) (receiptCache c) /\
    budget c' =
      {| Budget.policy := Budget.policy (budget c);
         Budget.totalSpent := Budget.totalSpent (budget c) + a;
         Budget.history :=
           Budget.history (budget c)
           ++ [{| Budget.contentId := contentId pr; Budget.amount := s;
                  Budget.domain := domain; Budget.timestamp := t_end env |}];
         Budget.onBudgetWarning := Budget.onBudgetWarning (budget c) |}.
Proof.
  intros Hassert.
  destruct (assertSpend_Ok _ _ _ Hassert) as (a & Ha & Htotal).
  destruct (smallest_Ok _ _ Ha) as (s & Hs & Hb).
  destruct (recordSpend_allowed (budget c) s (contentId pr) domain (t_end env) a Hb Htotal)
    as [warning Hrecord].
  exists s, a. unfold settle. rewrite Hs. cbn [with_receiptCache budget].
  rewrite Hrecord. cbn [with_budget budget].
  set (b' := {| Budget.policy := _; Budget.totalSpent := _; Budget.history := _;
                Budget.onBudgetWarning := _ |}).
  assert (Hremaining : exists shown,
            (match Budget.getRemainingSmallest b' with
             | Ok remaining =>
                 match truthy_opt remaining with
                 | Some remaining => text ← formatPrice (Text remaining) Budget.no_symbol;
                                     Ok (Some text)
                 | None => Ok None
                 end
             | Throw err => Throw err
             end) = Ok shown /\ exists remaining, Budget.getRemainingSmallest b' = Ok remaining).
  { unfold Budget.getRemainingSmallest. cbn [Budget.policy Budget.totalSpent b'].
    destruct (truthy_opt (Budget.maxTotal (Budget.policy (budget c)))) as [limit|]; [|eauto].
    destruct Htotal as (m & -> & Hle). cbn [mbind Result_bind].
    destruct (truthy_opt (Some _)) as [remaining|] eqn:Hr; [|eauto].
    apply truthy_opt_inv in Hr as [[= <-] _].
    destruct (formatPrice_nonneg (m - (Budget.totalSpent (budget c) + a)) Budget.no_symbol)
      as [text ->]; [lia | reflexivity |]. cbn [mbind Result_bind]. eauto. }
  destruct Hremaining as (shown & Hshown & remaining & Hremaining).
  destruct warning as [text|]; cbn [emit budget with_budget with_receiptCache receiptCache];
    rewrite Hremaining in Hshown |- *; rewrite Hshown;
    eexists; (split; [reflexivity|]); (split; [exact Hb|]);
    (split; [reflexivity|]); split; reflexivity.
Qed.

(** C10. When [executePayment] throws, the receipt cache and the budget
    are what they were before the call.  When it returns, the facilitator
    has answered the receipt at one of the attempts, the receipt is cached
    under the content id, and the spend is added to the total and appended
    to the history. *)
Theorem C10_payment_atomic (env : Environment) (c : X402AgentClient) (pr : PaymentRequest) :
  match executePayment env c pr with
  | (Throw err, c') =>
      receiptCache c' = receiptCache c /\ budget c' = budget c
  | (Ok paid, c') =>
      exists (response : FacilitatorResponse) (s : string) (a : Z),
        (exists i url payload, submitToFacilitator env i url payload = Ok response) /\
        receiptToken paid = receipt response /\
        parsePrice (Text (price pr)) = Ok s /\ JSBigInt.BigInt s = Ok a /\
        receiptCache c' =
          Cache.set (contentId pr) (receipt response) None (t_end env) (receiptCache c) /\
        Budget.totalSpent (budget c') = Budget.totalSpent (budget c) + a /\
        Budget.history (budget c') =
          (Budget.history (budget c)
           ++ [{| Budget.contentId := contentId pr; Budget.amount := s;
                  Budget.domain := extractDomain env (pr_facilitatorUrl pr);
                  Budget.timestamp := t_end env |}])%list
  end.
Proof.
  unfold executePayment.
  set (domain := extractDomain env (pr_facilitatorUrl pr)).
  set (c0 := emit _ c).
  destruct (obtain_receipt env c0 pr domain) as [response|err] eqn:Hobtain.
  - apply obtain_receipt_Ok in Hobtain as [Hassert Hsubmit].
    destruct (settle_allowed env c0 pr domain response Hassert)
      as (s & a & c' & Hs & Ha & -> & Hcache & Hbudget).
    exists response, s, a. cbn [receiptToken]. rewrite Hcache, Hbudget. cbn.
    repeat split; assumption.
  - cbn. split; reflexivity.
Qed.

End ClientProperties.

(** ** The test suites of the repository, run on the embedding *)

Section FacilitatorTests.
Import JSString JSNumber Constants Pricing Fee Types Jose Receipt JSON Facilitator Sample.

(** [pricing.test.ts] *)
Example parsePrice_tests :
  map (fun p => parsePrice (Text p)) ["$0.10"; "$1.00"; "$0.001"; "$0.01"; "0.10"; "0"; "$0"]
    = map Ok ["100000"; "1000000"; "1000"; "10000"; "100000"; "0"; "0"] /\
  map (fun p => parsePrice (Num (parseFloat p))) ["0.1"; "1"; "0.01"; "0"]
    = map Ok ["100000"; "1000000"; "10000"; "0"] /\
  parsePrice (Text "invalid") = Throw (Error "Invalid price: invalid") /\
  parsePrice (Num (Finite (-1))) = Throw (Error "Invalid price: -1").
Proof. repeat split; vm_compute; reflexivity. Qed.

Example formatPrice_tests :
  map (fun a => formatPrice (Text a) default_options) ["100000"; "1000000"; "10000"]
    = map Ok ["$0.10"; "$1.00"; "$0.01"] /\
  formatPrice (Text "100000") {| symbol := Some false; decimals := None |} = Ok "0.10" /\
  formatPrice (Text "123456") {| symbol := None; decimals := Some 4 |} = Ok "$0.1235" /\
  formatPrice (Text "123456") {| symbol := None; decimals := Some 6 |} = Ok "$0.123456" /\
  formatPrice (Num (Finite 100000)) default_options = Ok "$0.10" /\
  formatPrice (Text "invalid") default_options = Throw (Error "Invalid amount: invalid") /\
  formatPrice (Num (Finite (-1))) default_options = Throw (Error "Invalid amount: -1").
Proof. repeat split; vm_compute; reflexivity. Qed.

(** [fee.test.ts] *)
Example calculateFee_tests :
  calculateFee "100000" (Finite 2)
    = Ok {| totalAmount := "100000"; publisherAmount := "98000"; feeAmount := "2000";
            Fee.feePercent := Finite 2 |} /\
  (Result_map publisherAmount (calculateFee "100000" (Finite 0))) = Ok "100000" /\
  (Result_map feeAmount (calculateFee "1000" (Finite 2))) = Ok "20" /\
  (Result_map feeAmount (calculateFee "1" (Finite 2))) = Ok "0" /\
  (Result_map feeAmount (calculateFee "1000000000" (Finite 3))) = Ok "30000000" /\
  (Result_map feeAmount (calculateFee "100000" (parseFloat "1.5"))) = Ok "1500".
Proof. repeat split; vm_compute; reflexivity. Qed.

(** [signature.test.ts], [handler.test.ts] *)
Example resolveNetwork_tests :
  resolveNetwork "eip155:8453" = Some {| x402Network := base_mainnet; net_chainId := 8453 |} /\
  resolveNetwork "eip155:84532" = Some {| x402Network := base_sepolia; net_chainId := 84532 |} /\
  resolveNetwork "eip155:1" = None.
Proof. repeat split. Qed.

Example handlePayment_tests :
  let run body executor := handlePayment body config executor 1700000000123 1700000001999 "0.4f" in
  (Result_map status (run (Some payload) MockTransferExecutor)) = Ok 200 /\
  run (Some JNull) MockTransferExecutor
    = Ok {| status := 400; body := ErrorBody (Some "Request body must be a JSON object") |} /\
  run (Some (with_field "x402Version" (JNum (Finite 2)) payload)) MockTransferExecutor
    = Ok {| status := 400; body := ErrorBody (Some "Unsupported x402Version: 2. Expected 1") |} /\
  run (Some (with_field "network" (JStr "eip155:1") payload)) MockTransferExecutor
    = Ok {| status := 400; body := ErrorBody (Some "Unsupported network: eip155:1") |} /\
  run (Some payload) failingExecutor
    = Ok {| status := 500; body := ErrorBody (Some "Transfer execution failed") |} /\
  run (Some (with_field "payload" (JObj [("authorization", JObj [])]) payload)) MockTransferExecutor
    = Ok {| status := 400; body := ErrorBody (Some "Missing or invalid payload.signature") |} /\
  run (Some (with_field "payload"
               (JObj [("signature", JStr "0xaa"); ("authorization", JObj [("from", JStr "0xabc")])])
               payload)) MockTransferExecutor
    = Ok {| status := 400; body := ErrorBody (Some "Missing payload.authorization.to") |}.
Proof. repeat split; vm_compute; reflexivity. Qed.

End FacilitatorTests.

Section ReceiptTests.
Import JSString Types Jose Receipt Sample.

(** [receipt.test.ts] *)
Example buildReceipt_tests :
  let r := test_receipt "article-123" None in
  id r = "rcpt_loyw3v5n4fzyo82m" /\
  contentId r = "article-123" /\ amount r = "100000" /\ currency r = "USDC" /\
  chainId r = 8453 /\ paidAt r = 1700000000 /\ expiresAt r = 1700086400 /\
  facilitator r = "https://x402.org/facilitator" /\
  expiresAt (test_receipt "article-123" (Some 3600)) - paidAt r = 3600.
Proof. repeat split; vm_compute; reflexivity. Qed.

Example verifyReceipt_tests :
  let now := 1700000000456 in
  let secret s := {| jwtSecret := Some s; facilitatorPublicKey := None;
                     expectedContentId := None |} in
  let t := createReceiptToken (test_receipt "test-content" None) "test-secret" in
  verifyReceipt t (secret "test-secret") now
    = {| valid := true; receipt := Some (Unchecked.of_receipt (test_receipt "test-content" None)); error := None |} /\
  verifyReceipt t (secret "wrong-secret") now
    = {| valid := false; receipt := None;
         error := Some "Receipt verification failed: signature verification failed" |} /\
  verifyReceipt (createReceiptToken (test_receipt "test-content" (Some (-1))) "test-secret")
      (secret "test-secret") now
    = {| valid := false; receipt := None;
         error := Some ("Receipt verification failed: " ++ quoted "exp"
                        ++ " claim timestamp check failed") |} /\
  verifyReceipt (createReceiptToken (test_receipt "content-a" None) "test-secret")
      {| jwtSecret := Some "test-secret"; facilitatorPublicKey := None;
         expectedContentId := Some "content-b" |} now
    = {| valid := false; receipt := Some (Unchecked.of_receipt (test_receipt "content-a" None));
         error := Some ("Receipt is for content " ++ quoted "content-a" ++ ", not "
                        ++ quoted "content-b") |} /\
  decodeReceipt t = Some (Unchecked.of_receipt (test_receipt "test-content" None)) /\
  decodeReceipt (Malformed "invalid.token") = None /\
  decodeReceipt (Malformed "not-a-jwt") = None.
Proof. repeat split; vm_compute; reflexivity. Qed.

Example extractReceiptFromHeaders_tests :
  extractReceiptFromHeaders (OfHeaders [("x-402-receipt", "my-token")]) = Some "my-token" /\
  extractReceiptFromHeaders (OfHeaders [("authorization", "X402 my-token")]) = Some "my-token" /\
  extractReceiptFromHeaders
    (OfHeaders [("x-402-receipt", "receipt-token"); ("authorization", "X402 auth-token")])
    = Some "receipt-token" /\
  extractReceiptFromHeaders (OfRecord {[ "X-402-Receipt" := "token" ]}) = Some "token" /\
  extractReceiptFromHeaders (OfRecord {[ "Authorization" := "X402 token" ]}) = Some "token" /\
  extractReceiptFromHeaders (OfHeaders []) = None /\
  extractReceiptFromHeaders (OfRecord ∅) = None.
Proof. repeat split; vm_compute; reflexivity. Qed.

End ReceiptTests.

Section CacheTests.
Import Cache.

(** [cache.test.ts], the clock starting at [t0] *)
Example cache_tests :
  let t0 := 1700000000000 in
  (get "article-1" t0 (set "article-1" "jwt.token.here" None t0 (new None))).1
    = Some "jwt.token.here" /\
  (get "nonexistent" t0 (new None)).1 = None /\
  (get "article-1" t0
     (set "article-1" "token-2" None t0 (set "article-1" "token-1" None t0 (new None)))).1
    = Some "token-2" /\
  (get "article-1" (t0 + 30 * 1000) (set "article-1" "jwt.token" None t0 (new (Some 60)))).1
    = Some "jwt.token" /\
  (get "article-1" (t0 + 61 * 1000) (set "article-1" "jwt.token" None t0 (new (Some 60)))).1
    = None /\
  (let c := set "long-lived" "token-2" None t0
              (set "short-lived" "token-1" (Some 10) t0 (new (Some 3600))) in
   let r := get "short-lived" (t0 + 15 * 1000) c in
   r.1 = None /\ (get "long-lived" (t0 + 15 * 1000) r.2).1 = Some "token-2") /\
  (has "article-1" t0 (set "article-1" "jwt.token" None t0 (new None))).1 = true /\
  (has "nonexistent" t0 (new None)).1 = false /\
  (has "article-1" (t0 + 11 * 1000) (set "article-1" "jwt.token" (Some 10) t0 (new None))).1
    = false /\
  (get "article-1" t0 (delete "article-1" (set "article-1" "jwt.token" None t0 (new None)))).1
    = None.
Proof. repeat split; vm_compute; reflexivity. Qed.

End CacheTests.

Section BudgetTests.
Import JSString Budget Sample.

(** [budget.test.ts] *)
Example checkSpend_tests :
  checkSpend (limits None None None) "100.00" None = Ok {| allowed := true; reason := None |} /\
  checkSpend (limits (Some "1.00") None None) "0.50" None = Ok {| allowed := true; reason := None |} /\
  checkSpend (limits (Some "1.00") None None) "1.50" None
    = Ok {| allowed := false;
            reason := Some "Amount 1.50 USDC exceeds per-request limit of 1.00 USDC" |} /\
  checkSpend (limits None (Some "10.00") None) "5.00" None = Ok {| allowed := true; reason := None |} /\
  checkSpend (recordSpend (limits None (Some "10.00") None) "8000000" "item-1" "example.com" 1).2
      "3.00" None
    = Ok {| allowed := false; reason := Some "Would exceed total budget. Remaining: 2.00 USDC" |} /\
  checkSpend (limits None None (Some ["api.example.com"; "data.example.com"])) "1.00"
      (Some "api.example.com") = Ok {| allowed := true; reason := None |} /\
  checkSpend (limits None None (Some ["api.example.com"])) "1.00" (Some "evil.com")
    = Ok {| allowed := false;
            reason := Some ("Domain " ++ quoted "evil.com" ++ " is not in the allowed list") |} /\
  checkSpend (limits None None (Some ["api.example.com"])) "1.00" None
    = Ok {| allowed := true; reason := None |}.
Proof. repeat split; vm_compute; reflexivity. Qed.

Example recordSpend_tests :
  let b := limits None (Some "10.00") None in
  (recordSpend (listening b) "8000000" "item-1" "example.com" 1).1 = Ok (Some "2.00") /\
  (recordSpend (listening b) "7000000" "item-1" "example.com" 1).1 = Ok None /\
  totalSpent (recordSpend (recordSpend b "1000000" "item-1" "example.com" 1).2
                "2000000" "item-2" "example.com" 2).2 = 3000000 /\
  getRemainingSmallest (limits None None None) = Ok None /\
  getRemainingSmallest (recordSpend b "3000000" "item-1" "example.com" 1).2 = Ok (Some "7000000") /\
  history (recordSpend (limits None None None) "1000000" "article-1" "api.example.com" 1).2
    = [{| contentId := "article-1"; amount := "1000000"; domain := "api.example.com";
          timestamp := 1 |}] /\
  reset (recordSpend b "5000000" "item-1" "example.com" 1).2 = b.
Proof. repeat split; vm_compute; reflexivity. Qed.

Example assertSpend_tests :
  assertSpend (limits (Some "5.00") None None) "1.00" None = Ok tt /\
  assertSpend (limits (Some "1.00") None None) "2.00" None
    = Throw (X402BudgetError "Amount 2.00 USDC exceeds per-request limit of 1.00 USDC"
               PER_REQUEST_LIMIT) /\
  assertSpend (recordSpend (limits None (Some "5.00") None) "4000000" "item-1" "example.com" 1).2
      "2.00" None
    = Throw (X402BudgetError "Would exceed total budget. Remaining: 1.00 USDC" BUDGET_EXCEEDED) /\
  assertSpend (limits None None (Some ["good.com"])) "1.00" (Some "evil.com")
    = Throw (X402BudgetError ("Domain " ++ quoted "evil.com" ++ " is not in the allowed list")
               DOMAIN_NOT_ALLOWED).
Proof. repeat split; vm_compute; reflexivity. Qed.

End BudgetTests.

Section ClientTests.
Import FacilitatorClient Client Sample.

(** [client.test.ts] *)
Example executePayment_tests :
  let up := executePayment facilitator_up agent (request "0.01") in
  let down := executePayment facilitator_down agent (request "0.01") in
  up.1 = Ok {| receiptToken := "jwt.retry.token"; paid_txHash := None |} /\
  (Cache.get "api.example.com/premium" 1700000002000 (receiptCache up.2)).1
    = Some "jwt.retry.token" /\
  Budget.totalSpent (budget up.2) = 10000 /\
  down.1 = Throw (X402PaymentError "Server down" FACILITATOR_ERROR) /\
  receiptCache down.2 = receiptCache agent /\ budget down.2 = budget agent /\
  map type (emitted down.2) = [payment_started; payment_failed] /\
  (executePayment facilitator_up agent (request "2.00")).1
    = Throw (X402BudgetError "Amount 2.00 USDC exceeds per-request limit of 1.00 USDC"
               PER_REQUEST_LIMIT).
Proof. repeat split; vm_compute; reflexivity. Qed.

End ClientTests.

(** * Further properties *)

(** ** Amounts are not negative *)

Module AmountFacts.
Import JSString JSBigInt JSNumber Pricing JSFacts Binary64Facts TextShape.

Lemma starts_with_digit_app s t : starts_with_digit s = true -> starts_with_digit (s ++ t) = true.
Proof. now destruct s. Qed.

Lemma digits_of_starts z : starts_with_digit (digits_of z) = true.
Proof.
  unfold digits_of.
  pose proof (NilZero_string_of_uint_digits (N.to_uint (Z.to_N z))) as Hd.
  pose proof (NilZero_string_of_uint_nonempty (N.to_uint (Z.to_N z))) as Hn.
  destruct (NilZero.string_of_uint _); [congruence|].
  simpl in *. now apply andb_prop in Hd.
Qed.

Lemma substring_starts n s :
  starts_with_digit s = true -> starts_with_digit (substring 0 (S n) s) = true.
Proof. now destruct s. Qed.

Lemma toString_pos_starts x : starts_with_digit (toString_pos x) = true.
Proof.
  unfold toString_pos.
  destruct (shortest_digits 17 1 (decimal_exponent x) x) as [[s k] n].
  pose proof (digits_of_starts s) as Hd.
  destruct ((k <=? n)%Z && (n <=? 21)%Z); [now apply starts_with_digit_app|].
  destruct ((0 <? n)%Z && (n <=? 21)%Z) eqn:Hn.
  { apply andb_prop in Hn as [Hn _]. apply Z.ltb_lt in Hn.
    destruct (Z.to_nat n) eqn:E; [lia|].
    apply starts_with_digit_app. now apply substring_starts. }
  destruct ((-6 <? n)%Z && (n <=? 0)%Z); [reflexivity|].
  destruct (k =? 1)%Z; [now apply starts_with_digit_app|].
  apply starts_with_digit_app. now apply (substring_starts 0).
Qed.

Lemma digits_value_nonneg radix s acc z :
  0 <= radix -> 0 <= acc -> digits_value radix acc s = Some z -> 0 <= z.
Proof.
  intros Hr. revert acc. induction s as [|c s IH]; simpl; intros acc Hacc.
  - intros [= <-]. exact Hacc.
  - destruct (digit_value c) as [d|] eqn:Hd; [|discriminate].
    destruct (d <? radix); [|discriminate].
    apply IH.
    unfold digit_value in Hd.
    repeat match type of Hd with
    | (if ?b then _ else _) = _ => destruct b eqn:?; [injection Hd as <-|]
    end; try discriminate; nia.
Qed.

Lemma radix_literal_nonneg radix s z : 0 <= radix -> radix_literal radix s = Some z -> 0 <= z.
Proof.
  intros Hr. unfold radix_literal. destruct s; [discriminate|].
  apply digits_value_nonneg; [exact Hr | lia].
Qed.

Lemma decimal_literal_nonneg s z : decimal_literal s = Some z -> 0 <= z.
Proof.
  unfold decimal_literal. destruct (NilZero.uint_of_string s) as [d|]; [|discriminate].
  intros [= <-]. unfold Z.of_uint. lia.
Qed.

Lemma trim_starts s :
  starts_with_digit s = true -> exists c r, trim s = String c r /\ is_digit c = true.
Proof.
  destruct s as [|c s]; [discriminate|]. simpl. intros Hc.
  pose proof (is_digit_not_whitespace c Hc) as Hw.
  unfold not_whitespace in Hw. apply negb_true_iff in Hw.
  unfold trim. simpl. rewrite Hw.
  destruct (trimEnd s); simpl; rewrite Hw; eauto.
Qed.

(** A text that begins with a digit reads as a bigint that is not negative. *)
Lemma StringToBigInt_starts s z :
  starts_with_digit s = true -> StringToBigInt s = Some z -> 0 <= z.
Proof.
  intros Hs. destruct (trim_starts s Hs) as (c & r & Ht & Hc).
  unfold StringToBigInt. rewrite Ht.
  destruct c as [[] [] [] [] [] [] [] []]; try discriminate Hc;
    try (apply decimal_literal_nonneg).
  destruct r as [|c' r']; [apply decimal_literal_nonneg|].
  destruct c' as [[] [] [] [] [] [] [] []];
    try (apply decimal_literal_nonneg); apply radix_literal_nonneg; lia.
Qed.

Lemma toString_nonneg q z :
  (0 <= q)%Q -> StringToBigInt (JSNumber.toString (Finite q)) = Some z -> 0 <= z.
Proof.
  intros Hq. unfold JSNumber.toString.
  destruct (is_zero q); [change (StringToBigInt "0") with (Some 0); intros [= <-]; lia|].
  unfold is_negative. apply Qle_bool_iff in Hq. rewrite Hq. simpl.
  apply StringToBigInt_starts, toString_pos_starts.
Qed.

Lemma Math_pow10_6 : Math_pow10 Constants.USDC_DECIMALS = Finite 1000000.
Proof. vm_compute. reflexivity. Qed.

(** The amount [parsePrice] returns, read as a bigint, is not negative. *)
Lemma parsePrice_nonneg price s z :
  parsePrice price = Ok s -> JSBigInt.BigInt s = Ok z -> 0 <= z.
Proof.
  unfold parsePrice. rewrite Math_pow10_6.
  set (n := match price with Text t => _ | Num n => n end).
  destruct (isNaN n || lt n (Finite 0)) eqn:Hn; [discriminate|].
  apply orb_false_elim in Hn as [Hnan Hneg].
  intros [= <-]. unfold JSBigInt.BigInt.
  destruct (StringToBigInt _) as [z'|] eqn:Hz; [|discriminate]. intros [= <-].
  destruct n as [|sg|q]; [discriminate| |].
  - destruct sg; [discriminate|]. discriminate Hz.
  - simpl in Hneg. apply negb_false_iff, Qle_bool_iff in Hneg.
    change (mul (Finite q) (Finite 1000000)) with (binary64 (q * 1000000)) in Hz.
    destruct (binary64_nonneg (q * 1000000)) as [Hinf|(y & Hy & Hy0)]; [lra| |].
    + rewrite Hinf in Hz. discriminate Hz.
    + rewrite Hy in Hz. cbn [Math_round] in Hz.
      apply toString_nonneg in Hz; [exact Hz|].
      assert (H : (0 <= y + (1 # 2))%Q) by lra.
      apply Qfloor_resp_le in H. change (Qfloor 0) with 0 in H.
      change 0%Q with (inject_Z 0). now rewrite <- Zle_Qle.
Qed.

Lemma smallest_nonneg amount a : Budget.smallest amount = Ok a -> 0 <= a.
Proof.
  unfold Budget.smallest. destruct (parsePrice (Text amount)) as [s|] eqn:Hs; [|discriminate].
  cbn [mbind Result_bind]. now apply parsePrice_nonneg with (price := Text amount).
Qed.

End AmountFacts.

Section PriceOpsProperties.
Import JSString JSBigInt JSNumber Constants Pricing PriceOps JSFacts Binary64Facts AmountFacts.

Lemma minimum_amount : parsePrice (Text MIN_PRICE_USDC) = Ok "1000".
Proof. vm_compute. reflexivity. Qed.

(** [Math.round(x * 10000)] for a share [x] between 0 and 1 is an integer
    between 0 and 10000. *)
Lemma round_share q :
  (0 <= q <= 1)%Q ->
  exists basis, Math_round (mul (Finite q) (Finite 10000)) = Finite (inject_Z basis) /\
                0 <= basis <= 10000.
Proof.
  intros [Hlo Hhi].
  assert (Hx : (q * 10000 <= 10000)%Q) by lra. revert Hx.
  change (mul (Finite q) (Finite 10000)) with (binary64 (q * 10000)).
  assert (H0 : (0 <= q * 10000)%Q) by lra.
  revert H0. generalize (q * 10000)%Q as x. intros x H0 Hx.
  assert (Hnum : 0 <= Qnum x).
  { unfold Qle in H0. simpl in H0. lia. }
  unfold binary64.
  destruct (Qnum x) as [|n|n] eqn:Hn; [| |lia].
  - exists 0. split; [reflexivity | lia].
  - destruct (binary64_pos_error x 14) as (y & -> & Hy0 & Hy1 & Hy2); [| |lia|].
    + unfold Qlt. simpl. rewrite Hn. lia.
    + change (inject_Z (2 ^ 14)) with 16384%Q. lra.
    + change (pow2 (14 - 54)) with (1 # 1099511627776)%Q in *.
      exists (Qfloor (y + (1 # 2))). split; [reflexivity|].
      assert (H1 : (0 <= y + (1 # 2))%Q) by lra.
      assert (H2 : (y + (1 # 2) <= 10000 + (3 # 4))%Q) by lra.
      apply Qfloor_resp_le in H1, H2.
      change (Qfloor 0) with 0 in H1. change (Qfloor (10000 + (3 # 4))) with 10000 in H2.
      lia.
Qed.

(** X1.  [validatePrice] accepts a price exactly when it parses to an
    amount of at least 1000 units (the minimum price, 0.001 USDC); it then
    returns that amount, and otherwise an error and no amount.  It never
    throws. *)
Theorem validatePrice_minimum (price : amount_arg) :
  (valid (validatePrice price) = true <->
   exists s z, parsePrice price = Ok s /\ JSBigInt.BigInt s = Ok z /\ 1000 <= z) /\
  (valid (validatePrice price) = true ->
   exists s, parsePrice price = Ok s /\ validatePrice price
     = {| valid := true; amount := Some s; error := None |}) /\
  (valid (validatePrice price) = false ->
   amount (validatePrice price) = None /\ error (validatePrice price) <> None).
Proof.
  unfold validatePrice. rewrite minimum_amount.
  destruct (parsePrice price) as [s|e]; cbn [mbind Result_bind].
  2:{ simpl. split; [split; [discriminate | intros (? & ? & [=] & _)] |].
      split; [discriminate|]. intros _. split; [reflexivity | discriminate]. }
  destruct (JSBigInt.BigInt s) as [z|e] eqn:Hz; cbn [mbind Result_bind].
  2:{ simpl. split; [split; [discriminate | intros (? & ? & [= <-] & ? & _); congruence] |].
      split; [discriminate|]. intros _. split; [reflexivity | discriminate]. }
  change (JSBigInt.BigInt "1000") with (@Ok Z 1000). cbn [mbind Result_bind].
  destruct (Z.ltb_spec z 1000); simpl.
  - split; [split; [discriminate | intros (? & z' & [= <-] & Hz' & ?);
                     assert (z' = z) by congruence; lia] |].
    split; [discriminate|]. intros _. split; [reflexivity | discriminate].
  - split; [split; [eauto | reflexivity] |].
    split; [eauto | discriminate].
Qed.

(** X2.  [comparePrice] returns the sign of the difference of the two
    parsed amounts, hence -1, 0 or 1; comparing the other way round gives
    the opposite. *)
Theorem comparePrice_sign (a b : amount_arg) (c : Z) :
  comparePrice a b = Ok c ->
  (exists sa sb x y,
     parsePrice a = Ok sa /\ JSBigInt.BigInt sa = Ok x /\
     parsePrice b = Ok sb /\ JSBigInt.BigInt sb = Ok y /\
     c = Z.sgn (x - y)) /\
  comparePrice b a = Ok (- c).
Proof.
  unfold comparePrice.
  destruct (parsePrice a) as [sa|] eqn:Ha; [|discriminate]. cbn [mbind Result_bind].
  destruct (JSBigInt.BigInt sa) as [x|] eqn:Hx; [|discriminate]. cbn [mbind Result_bind].
  destruct (parsePrice b) as [sb|] eqn:Hb; [|discriminate]. cbn [mbind Result_bind].
  destruct (JSBigInt.BigInt sb) as [y|] eqn:Hy; [|discriminate]. cbn [mbind Result_bind].
  pose proof (Z.sgn_spec (x - y)) as Hsgn.
  destruct (Z.ltb_spec x y), (Z.ltb_spec y x); intros [= <-]; try lia;
    (split; [exists sa, sb, x, y; repeat split; try assumption; lia | reflexivity]).
Qed.

Lemma comparePrice_sign_witness :
  comparePrice (Text "$0.01") (Num (parseFloat "0.02")) = Ok (-1) /\
  comparePrice (Num (parseFloat "0.02")) (Text "$0.01") = Ok 1.
Proof.
  split; [vm_compute; reflexivity|].
  apply (proj2 (comparePrice_sign (Text "$0.01") (Num (parseFloat "0.02")) (-1)
                  ltac:(vm_compute; reflexivity))).
Defined.

(** X3.  [addPrices] returns the decimal text of the sum of the two parsed
    amounts: a text that reads back as that sum, which is not negative, and
    is the same in either order. *)
Theorem addPrices_sum (a b : amount_arg) (s : string) :
  addPrices a b = Ok s ->
  (exists sa sb x y,
     parsePrice a = Ok sa /\ JSBigInt.BigInt sa = Ok x /\
     parsePrice b = Ok sb /\ JSBigInt.BigInt sb = Ok y /\
     0 <= x /\ 0 <= y /\ JSBigInt.BigInt s = Ok (x + y)) /\
  addPrices b a = Ok s.
Proof.
  unfold addPrices.
  destruct (parsePrice a) as [sa|] eqn:Ha; [|discriminate]. cbn [mbind Result_bind].
  destruct (JSBigInt.BigInt sa) as [x|] eqn:Hx; [|discriminate]. cbn [mbind Result_bind].
  destruct (parsePrice b) as [sb|] eqn:Hb; [|discriminate]. cbn [mbind Result_bind].
  destruct (JSBigInt.BigInt sb) as [y|] eqn:Hy; [|discriminate]. cbn [mbind Result_bind].
  intros [= <-]. split.
  - exists sa, sb, x, y. repeat split; try assumption.
    + exact (parsePrice_nonneg _ _ _ Ha Hx).
    + exact (parsePrice_nonneg _ _ _ Hb Hy).
    + apply BigInt_toString.
  - now rewrite Z.add_comm.
Qed.

Lemma addPrices_sum_witness :
  addPrices (Text "$0.50") (Text "0.25") = Ok "750000" /\
  addPrices (Text "0.25") (Text "$0.50") = Ok "750000".
Proof.
  split; [vm_compute; reflexivity|].
  apply (proj2 (addPrices_sum (Text "$0.50") (Text "0.25") "750000"
                  ltac:(vm_compute; reflexivity))).
Defined.

(** X4.  For a share between 0 and 1, [percentageOfPrice] returns the part
    [amount * Math.round(share * 10000) / 10000] of the parsed amount,
    truncated: a part between 0 and the amount. *)
Theorem percentageOfPrice_bounds (price : amount_arg) (share : Q) (s : string) (v : Z) :
  parsePrice price = Ok s -> JSBigInt.BigInt s = Ok v ->
  (0 <= share <= 1)%Q ->
  exists basis part : Z,
    Math_round (mul (Finite share) (Finite 10000)) = Finite (inject_Z basis) /\
    0 <= basis <= 10000 /\
    part = Z.quot (v * basis) 10000 /\
    percentageOfPrice price (Finite share) = Ok (JSBigInt.toString part) /\
    JSBigInt.BigInt (JSBigInt.toString part) = Ok part /\
    0 <= part <= v.
Proof.
  intros Hs Hv Hq.
  pose proof (parsePrice_nonneg _ _ _ Hs Hv) as Hpos.
  destruct (round_share share Hq) as (basis & Hb & Hlo & Hhi).
  exists basis, (Z.quot (v * basis) 10000).
  split; [exact Hb|]. split; [lia|]. split; [reflexivity|].
  split.
  { unfold percentageOfPrice. rewrite Hs. cbn [mbind Result_bind].
    rewrite Hv. cbn [mbind Result_bind]. rewrite Hb.
    unfold JSNumber.BigInt. rewrite Qfloor_Z, Qeq_bool_refl. reflexivity. }
  split; [apply BigInt_toString|].
  rewrite Z.quot_div_nonneg by nia.
  split; [apply Z.div_pos; nia|].
  apply Z.div_le_upper_bound; nia.
Qed.

Lemma percentageOfPrice_bounds_witness :
  exists basis part : Z,
    Math_round (mul (parseFloat "0.1") (Finite 10000)) = Finite (inject_Z basis) /\
    0 <= basis <= 10000 /\
    part = Z.quot (1000000 * basis) 10000 /\
    percentageOfPrice (Text "$1.00") (parseFloat "0.1") = Ok (JSBigInt.toString part) /\
    JSBigInt.BigInt (JSBigInt.toString part) = Ok part /\
    0 <= part <= 1000000.
Proof.
  apply (percentageOfPrice_bounds (Text "$1.00") _ "1000000" 1000000);
    [vm_compute; reflexivity | vm_compute; reflexivity | split; vm_compute; discriminate].
Defined.

End PriceOpsProperties.

Section ReceiptStatusProperties.
Import JSString JSNumber Types JSON Jose Receipt ReceiptStatus TextShape.
Context `{Primitives}.

Lemma has_space_app (a b : string) : has_space (a ++ String " " b) = true.
Proof. induction a as [|c a IH]; simpl; [reflexivity|]. rewrite IH. apply orb_true_r. Qed.

Lemma counted_not_Expired (n : Z) (unit : string) : counted n unit <> "Expired".
Proof.
  unfold counted. intros E. pose proof (has_space_app (JSNumber.toString (of_Z n))
    (unit ++ (if n =? 1 then EmptyString else "s"))) as Hs.
  change (String " " ?x) with (" " ++ x) in Hs. rewrite E in Hs. discriminate Hs.
Qed.

(** X5.  Without a secret and without a public key, [verifyReceipt] accepts
    a token exactly when [decodeReceipt] reads a receipt off it that
    [isReceiptValid] accepts for the expected content id at that time. *)
Theorem decode_only_verification (t : token) (options : VerifyOptions) (now_ms : Z) :
  truthy_opt (jwtSecret options) = None ->
  truthy_opt (facilitatorPublicKey options) = None ->
  valid (verifyReceipt t options now_ms) =
    match decodeReceipt t with
    | Some r => isReceiptValid r (expectedContentId options) now_ms
    | None => false
    end.
Proof.
  intros Hs Hk. unfold verifyReceipt, verified_payload, decodeReceipt, isReceiptValid.
  rewrite Hs, Hk.
  destruct (decodeJwt t) as [payload|]; cbn [mbind Result_bind]; [|reflexivity].
  destruct (lt _ _); [reflexivity|].
  destruct (truthy_opt (expectedContentId options)); [|reflexivity].
  now destruct (differs_from _ _).
Qed.

(** X6.  A receipt is shown as [Expired] from the second of its expiry on,
    while [isReceiptValid] accepts it up to and including that second: the
    two disagree in the second of the expiry, and only then. *)
Theorem expired_label_and_validity (r : X402Receipt) (now_ms : Z) :
  (formatReceiptExpiry r now_ms = "Expired" <-> expiresAt r <= now_ms / 1000) /\
  (getReceiptRemainingTime r now_ms = 0 <-> expiresAt r <= now_ms / 1000) /\
  (isReceiptValid (Unchecked.of_receipt r) None now_ms = true
   <-> now_ms / 1000 <= expiresAt r) /\
  (isReceiptValid (Unchecked.of_receipt r) None now_ms = true /\
   formatReceiptExpiry r now_ms = "Expired"
   <-> expiresAt r = now_ms / 1000).
Proof.
  assert (Hf : formatReceiptExpiry r now_ms = "Expired" <-> expiresAt r <= now_ms / 1000).
  { unfold formatReceiptExpiry, getReceiptRemainingTime.
    destruct (Z.eqb_spec (Z.max 0 (expiresAt r - now_ms / 1000)) 0) as [E|E].
    - split; [lia | reflexivity].
    - split; [|lia]. intros Hx. exfalso. revert Hx.
      repeat match goal with |- context [if ?b then _ else _] => destruct b end;
        apply counted_not_Expired. }
  assert (Hv : isReceiptValid (Unchecked.of_receipt r) None now_ms = true
               <-> now_ms / 1000 <= expiresAt r).
  { unfold isReceiptValid. cbn [Unchecked.expiresAt Unchecked.of_receipt truthy_opt].
    rewrite expired_integer.
    destruct (Z.ltb_spec (expiresAt r) (now_ms / 1000)); split;
      first [discriminate | lia | reflexivity]. }
  split; [exact Hf|]. split; [unfold getReceiptRemainingTime; lia|].
  split; [exact Hv|]. rewrite Hf, Hv. lia.
Qed.

(** X7.  The time left of a receipt is shown in one unit, truncated: a
    count [n] of minutes below one hour, of hours from one hour up to 25
    hours, of days from 25 hours on, with [n] units not above and [n + 1]
    units above the seconds left. *)
Theorem formatReceiptExpiry_truncates (r : X402Receipt) (now_ms : Z) :
  let remaining := expiresAt r - now_ms / 1000 in
  0 < remaining ->
  exists (n : Z) (unit : string) (len : Z),
    formatReceiptExpiry r now_ms = counted n unit /\
    n * len <= remaining < (n + 1) * len /\
    ((unit = "minute" /\ len = 60 /\ remaining < 3600) \/
     (unit = "hour" /\ len = 3600 /\ 3600 <= remaining < 90000) \/
     (unit = "day" /\ len = 86400 /\ 90000 <= remaining)).
Proof.
  intros remaining Hpos.
  unfold formatReceiptExpiry, getReceiptRemainingTime. fold remaining.
  rewrite Z.max_r by lia.
  destruct (Z.eqb_spec remaining 0); [lia|].
  destruct (Z.ltb_spec 24 (remaining / 3600)) as [Hd|Hd].
  - exists (remaining / 3600 / 24), "day", 86400. split; [reflexivity|].
    rewrite Z.div_div by lia. change (3600 * 24) with 86400.
    split; [|right; right; repeat split; Z.div_mod_to_equations; lia].
    Z.div_mod_to_equations. lia.
  - destruct (Z.ltb_spec 0 (remaining / 3600)) as [Hh|Hh].
    + exists (remaining / 3600), "hour", 3600. split; [reflexivity|].
      split; [|right; left; repeat split]; Z.div_mod_to_equations; lia.
    + exists (Z.rem remaining 3600 / 60), "minute", 60. split; [reflexivity|].
      rewrite Z.rem_mod_nonneg by lia.
      split; [|left; repeat split]; Z.div_mod_to_equations; lia.
Qed.

End ReceiptStatusProperties.

Section ReceiptStatusExamples.
Import JSString Types Jose Receipt ReceiptStatus Sample.

Lemma decode_only_verification_witness :
  valid (verifyReceipt (createReceiptToken receipt_a "k")
           {| jwtSecret := Some EmptyString; facilitatorPublicKey := None;
              expectedContentId := Some "b" |} 1999000)
  = isReceiptValid (Unchecked.of_receipt receipt_a) (Some "b") 1999000.
Proof.
  apply (decode_only_verification (createReceiptToken receipt_a "k")
           {| jwtSecret := Some EmptyString; facilitatorPublicKey := None;
              expectedContentId := Some "b" |} 1999000); reflexivity.
Defined.

Lemma formatReceiptExpiry_truncates_witness :
  exists (n : Z) (unit : string) (len : Z),
    formatReceiptExpiry receipt_a 1910500 = counted n unit /\
    n * len <= 2000 - 1910500 / 1000 < (n + 1) * len /\
    ((unit = "minute" /\ len = 60 /\ 2000 - 1910500 / 1000 < 3600) \/
     (unit = "hour" /\ len = 3600 /\ 3600 <= 2000 - 1910500 / 1000 < 90000) \/
     (unit = "day" /\ len = 86400 /\ 90000 <= 2000 - 1910500 / 1000)).
Proof.
  apply (formatReceiptExpiry_truncates receipt_a 1910500). reflexivity.
Defined.

(** [formatReceiptExpiry] in the tests of [receipt.test.ts] and at the
    edges of its units. *)
Example formatReceiptExpiry_tests :
  let left (seconds : Z) := formatReceiptExpiry receipt_a ((2000 - seconds) * 1000) in
  map left [0; 1; 59; 60; 119; 3599; 3600; 7200; 89999; 90000; 172799; 172800]
  = ["Expired"; "0 minutes"; "0 minutes"; "1 minute"; "1 minute"; "59 minutes"; "1 hour";
     "2 hours"; "24 hours"; "1 day"; "1 day"; "2 days"].
Proof. vm_compute. reflexivity. Qed.

End ReceiptStatusExamples.

Section CacheViewProperties.
Import Cache CacheSize.

(** What [get] and [has] answer for an id depends on its entry only. *)
Lemma get_value (id : string) (now : Z) (c : ReceiptCache) :
  (get id now c).1 =
    match cache c !! id with
    | Some e => if expiresAt e <? now then None else Some (token e)
    | None => None
    end.
Proof.
  pose proof (get_spec id now c) as Hg.
  destruct (cache c !! id) as [e|]; [destruct (expiresAt e <? now)|]; apply Hg.
Qed.

Lemma has_value (id : string) (now : Z) (c : ReceiptCache) :
  (has id now c).1 =
    match cache c !! id with
    | Some e => negb (expiresAt e <? now)
    | None => false
    end.
Proof.
  unfold has. destruct (cache c !! id) as [e|]; [|reflexivity].
  now destruct (expiresAt e <? now).
Qed.

(** The entries after [get], [has] and [size]: those before, without
    expired ones. *)
Lemma get_entries (id id' : string) (now : Z) (c : ReceiptCache) (e : CacheEntry) :
  cache (get id now c).2 !! id' = Some e ->
  cache c !! id' = Some e.
Proof.
  unfold get.
  set (c1 := {| cache := cache c; defaultTTL := defaultTTL c; accessCount := accessCount c + 1 |}).
  set (c2 := if Z.rem (accessCount c1) cleanupInterval =? 0 then cleanup now c1 else c1).
  assert (Hsub : forall k x, cache c2 !! k = Some x -> cache c !! k = Some x).
  { intros k x. unfold c2. destruct (_ =? 0); [|trivial].
    rewrite cleanup_lookup. cbn [cache c1].
    destruct (cache c !! k) as [y|]; [|discriminate]. now destruct (expiresAt y <? now). }
  clearbody c2.
  destruct (cache c2 !! id) as [x|] eqn:Hx; [|apply Hsub].
  destruct (expiresAt x <? now); [|apply Hsub].
  cbn [snd cache with_cache]. intros Hd.
  apply lookup_delete_Some in Hd as [_ Hd]. now apply Hsub.
Qed.

Lemma get_keeps (id id' : string) (now : Z) (c : ReceiptCache) (e : CacheEntry) :
  cache c !! id' = Some e -> now <= expiresAt e ->
  cache (get id now c).2 !! id' = Some e.
Proof.
  intros He Hlive. unfold get.
  set (c1 := {| cache := cache c; defaultTTL := defaultTTL c; accessCount := accessCount c + 1 |}).
  set (c2 := if Z.rem (accessCount c1) cleanupInterval =? 0 then cleanup now c1 else c1).
  assert (H2 : cache c2 !! id' = Some e).
  { unfold c2. destruct (_ =? 0); [|exact He].
    rewrite cleanup_lookup. cbn [cache c1]. rewrite He.
    destruct (Z.ltb_spec (expiresAt e) now); [lia | reflexivity]. }
  clearbody c2.
  destruct (cache c2 !! id) as [x|] eqn:Hx; [|exact H2].
  destruct (Z.ltb_spec (expiresAt x) now); [|exact H2].
  cbn [snd cache with_cache]. apply lookup_delete_Some. split; [|exact H2].
  intros ->. rewrite H2 in Hx. injection Hx as ->. lia.
Qed.

(** [has] answers true for an id exactly when [get] returns a token
    for it, at the same time and on the same cache. *)
Theorem has_iff_get (id : string) (now : Z) (c : ReceiptCache) :
  (has id now c).1 = true <-> exists tok, (get id now c).1 = Some tok.
Proof.
  rewrite has_value, get_value.
  destruct (cache c !! id) as [e|].
  - destruct (expiresAt e <? now); simpl; split; eauto; try discriminate.
    intros [? [=]].
  - split; [discriminate | intros [? [=]]].
Qed.

(** X8.  Setting or deleting the entry of one id does not change what
    [get] and [has] answer for another id; after [delete], and after
    [clear], [get] finds nothing for the id. *)
Theorem cache_frame (id id' tok : string) (ttl : option Z) (t0 now : Z) (c : ReceiptCache) :
  id' <> id ->
  (get id' now (set id tok ttl t0 c)).1 = (get id' now c).1 /\
  (has id' now (set id tok ttl t0 c)).1 = (has id' now c).1 /\
  (get id' now (delete id c)).1 = (get id' now c).1 /\
  (has id' now (delete id c)).1 = (has id' now c).1 /\
  (get id now (delete id c)).1 = None /\
  (get id now (clear c)).1 = None.
Proof.
  intros Hne. rewrite !get_value, !has_value.
  unfold set, delete, clear. cbn [cache with_cache].
  rewrite !lookup_insert_ne, !lookup_delete_ne, lookup_delete_eq, lookup_empty by congruence.
  repeat split.
Qed.

Lemma cache_frame_witness :
  let c := set "a" "t1" None 0 (set "b" "t2" (Some 10) 0 (new None)) in
  (get "b" 5000 (set "a" "t3" None 1 c)).1 = (get "b" 5000 c).1 /\
  (has "b" 5000 (set "a" "t3" None 1 c)).1 = (has "b" 5000 c).1 /\
  (get "b" 5000 (delete "a" c)).1 = (get "b" 5000 c).1 /\
  (has "b" 5000 (delete "a" c)).1 = (has "b" 5000 c).1 /\
  (get "a" 5000 (delete "a" c)).1 = None /\
  (get "a" 5000 (clear c)).1 = None.
Proof.
  intros c. apply (cache_frame "a" "b" "t3" None 1 5000 c). discriminate.
Defined.

(** X9.  [get], [has] and [size] never add an entry and never remove one
    that has not expired: an entry with [now <= expiresAt] is still there
    after the call, and every entry there after the call was there before. *)
Theorem live_entries_survive (id id' : string) (now : Z) (c : ReceiptCache) (e : CacheEntry) :
  (cache c !! id' = Some e -> now <= expiresAt e ->
   cache (get id now c).2 !! id' = Some e /\
   cache (has id now c).2 !! id' = Some e /\
   cache (size now c).2 !! id' = Some e) /\
  (cache (get id now c).2 !! id' = Some e \/
   cache (has id now c).2 !! id' = Some e \/
   cache (size now c).2 !! id' = Some e ->
   cache c !! id' = Some e).
Proof.
  split.
  - intros He Hlive. split; [now apply get_keeps|]. split.
    + unfold has. destruct (cache c !! id) as [x|] eqn:Hx; [|exact He].
      destruct (Z.ltb_spec (expiresAt x) now); [|exact He].
      cbn [snd cache with_cache]. apply lookup_delete_Some. split; [|exact He].
      intros ->. rewrite He in Hx. injection Hx as ->. lia.
    + unfold size. cbn [snd]. rewrite cleanup_lookup, He.
      destruct (Z.ltb_spec (expiresAt e) now); [lia | reflexivity].
  - intros [Hg|[Hh|Hs]].
    + now apply get_entries in Hg.
    + revert Hh. unfold has. destruct (cache c !! id) as [x|] eqn:Hx; [|trivial].
      destruct (expiresAt x <? now); [|trivial].
      cbn [snd cache with_cache]. intros Hd. now apply lookup_delete_Some in Hd.
    + revert Hs. unfold size. cbn [snd]. rewrite cleanup_lookup.
      destruct (cache c !! id') as [y|]; [|discriminate]. now destruct (expiresAt y <? now).
Qed.

(** X10.  [size] is the number of ids for which [has] answers true, and
    reading it changes no answer of [has]. *)
Theorem size_counts_live (now : Z) (c : ReceiptCache) :
  exists live : gset string,
    (forall id, id ∈ live <-> (has id now c).1 = true) /\
    (size now c).1 = Z.of_nat (base.size live) /\
    (forall id, (has id now (size now c).2).1 = (has id now c).1).
Proof.
  exists (dom (cache (cleanup now c))). split; [|split].
  - intros id. rewrite elem_of_dom, has_value, cleanup_lookup.
    destruct (cache c !! id) as [e|].
    + destruct (expiresAt e <? now); simpl; split; eauto; try discriminate.
      intros [? [=]].
    + split; [intros [? [=]] | discriminate].
  - unfold size. cbn [fst]. now rewrite size_dom.
  - intros id. unfold size. cbn [snd]. rewrite !has_value, cleanup_lookup.
    destruct (cache c !! id) as [e|]; [|reflexivity].
    destruct (expiresAt e <? now) eqn:E; [reflexivity|]. now rewrite E.
Qed.

End CacheViewProperties.

Section BudgetLedgerProperties.
Import JSString JSNumber Pricing Receipt Budget Ledger BudgetInvariant.
Import JSFacts AmountFacts.

Lemma recorded_total_app (h : list PaymentRecord) (r : PaymentRecord) (t a : Z) :
  recorded_total h = Ok t -> JSBigInt.BigInt (amount r) = Ok a ->
  recorded_total (h ++ [r]) = Ok (t + a).
Proof.
  revert t. induction h as [|x h IH]; simpl; intros t.
  - intros [= <-] ->. cbn [mbind Result_bind]. f_equal. lia.
  - destruct (JSBigInt.BigInt (amount x)) as [ax|]; [|discriminate]. cbn [mbind Result_bind].
    destruct (recorded_total h) as [th|]; [|discriminate]. cbn [mbind Result_bind].
    intros [= <-] Ha. rewrite (IH th eq_refl Ha). cbn [mbind Result_bind]. f_equal. lia.
Qed.

(** The state [recordSpend] leaves: the spend added, or the state as it
    was when the amount is no bigint. *)
Lemma recordSpend_state (b : BudgetManager) (s contentId domain : string) (now : Z) :
  (recordSpend b s contentId domain now).2 =
    match JSBigInt.BigInt s with
    | Ok a =>
        {| policy := policy b;
           totalSpent := totalSpent b + a;
           history := history b ++ [{| contentId := contentId; amount := s;
                                       domain := domain; timestamp := now |}];
           onBudgetWarning := onBudgetWarning b |}
    | Throw _ => b
    end.
Proof.
  unfold recordSpend. destruct (JSBigInt.BigInt s) as [a|]; [|reflexivity].
  cbn [policy]. now destruct (truthy_opt (maxTotal (policy b))).
Qed.

(** X11.  The total of a budget manager is the sum of the amounts in its
    history: so it is for a new manager, and so it stays through
    [recordSpend], whether it returns or throws, and through [reset]. *)
Theorem ledger_balanced :
  (forall policy, balanced (new policy)) /\
  (forall b, balanced (reset b)) /\
  (forall b s contentId domain now,
     balanced b -> balanced (recordSpend b s contentId domain now).2).
Proof.
  split; [reflexivity|]. split; [reflexivity|].
  intros b s contentId domain now Hb. rewrite recordSpend_state.
  destruct (JSBigInt.BigInt s) as [a|] eqn:Ha; [|exact Hb].
  unfold balanced. cbn [history totalSpent].
  now apply recorded_total_app.
Qed.

Lemma ledger_balanced_witness :
  balanced (recordSpend (new {| maxPerRequest := None; maxTotal := Some "10.00";
                                allowedDomains := None |})
              "8000000" "item-1" "example.com" 1).2.
Proof.
  apply (proj2 (proj2 ledger_balanced)). reflexivity.
Defined.

(** X12.  A spend that [checkSpend] allows is within the policy: the
    domain, when one is given and the allow-list is not empty, is on the
    list; the amount parses, is not negative and is not above the
    per-request limit; and the total with the amount is not above the
    lifetime limit. *)
Theorem checkSpend_sound (b : BudgetManager) (amount : string) (domain : option string)
    (check : SpendCheckResult) :
  checkSpend b amount domain = Ok check -> allowed check = true ->
  reason check = None /\
  (forall d list, truthy_opt domain = Some d -> allowedDomains (policy b) = Some list ->
                  list <> [] -> In d list) /\
  exists a, smallest amount = Ok a /\ 0 <= a /\
    (forall limit, truthy_opt (maxPerRequest (policy b)) = Some limit ->
                   exists m, smallest limit = Ok m /\ a <= m) /\
    (forall limit, truthy_opt (maxTotal (policy b)) = Some limit ->
                   exists m, smallest limit = Ok m /\ totalSpent b + a <= m).
Proof.
  unfold checkSpend.
  destruct (match truthy_opt domain with Some _ => _ | None => _ end) as [rejected|] eqn:Hd.
  { intros [= <-]. revert Hd.
    destruct (truthy_opt domain); [|discriminate].
    destruct (allowedDomains (policy b)); [|discriminate].
    destruct (_ && _); [|discriminate]. now intros [= <-]. }
  assert (Hdomain : forall d list, truthy_opt domain = Some d ->
            allowedDomains (policy b) = Some list -> list <> [] -> In d list).
  { intros d list Hdom Hlist Hne. rewrite Hdom, Hlist in Hd.
    destruct list as [|x list]; [congruence|].
    cbn [length Nat2Z.inj_succ] in Hd.
    replace (0 <? Z.of_nat (length (x :: list))) with true in Hd
      by (symmetry; apply Z.ltb_lt; simpl; lia).
    cbn [andb] in Hd. destruct (includes (x :: list) d) eqn:Hin; [|discriminate].
    unfold includes in Hin. apply existsb_exists in Hin as (y & Hy & Heq).
    apply String.eqb_eq in Heq. now subst. }
  destruct (smallest amount) as [a|] eqn:Ha; [|discriminate]. cbn [mbind Result_bind].
  pose proof (smallest_nonneg _ _ Ha) as Hpos.
  assert (Htotal : forall P : Prop,
    (forall limit, truthy_opt (maxPerRequest (policy b)) = Some limit ->
                   exists m, smallest limit = Ok m /\ a <= m) ->
    match truthy_opt (maxTotal (policy b)) with
    | Some limit =>
        maxTotal ← smallest limit;
        let projectedTotal := totalSpent b + a in
        if maxTotal <? projectedTotal then
          let remaining := maxTotal - totalSpent b in
          text ← formatPrice (Text (JSBigInt.toString remaining)) no_symbol;
          Ok {| allowed := false;
                reason := Some ("Would exceed total budget. Remaining: " ++ text ++ " USDC") |}
        else Ok {| allowed := true; reason := None |}
    | None => Ok {| allowed := true; reason := None |}
    end = Ok check ->
    allowed check = true ->
    reason check = None /\
    (forall d list, truthy_opt domain = Some d -> allowedDomains (policy b) = Some list ->
                    list <> [] -> In d list) /\
    exists a', Ok a = Ok a' /\ 0 <= a' /\
      (forall limit, truthy_opt (maxPerRequest (policy b)) = Some limit ->
                     exists m, smallest limit = Ok m /\ a' <= m) /\
      (forall limit, truthy_opt (maxTotal (policy b)) = Some limit ->
                     exists m, smallest limit = Ok m /\ totalSpent b + a' <= m)).
  { intros _ Hper.
    destruct (truthy_opt (maxTotal (policy b))) as [limit'|].
    - destruct (smallest limit') as [m'|] eqn:Hm'; [|discriminate]. cbn [mbind Result_bind].
      destruct (Z.ltb_spec m' (totalSpent b + a)).
      + destruct (formatPrice _ _); cbn [mbind Result_bind]; [now intros [= <-] | discriminate].
      + intros [= <-] _. split; [reflexivity|]. split; [exact Hdomain|].
        exists a. repeat split; try assumption.
        intros limit [= <-]. eauto.
    - intros [= <-] _. split; [reflexivity|]. split; [exact Hdomain|].
      exists a. repeat split; try assumption. discriminate. }
  destruct (truthy_opt (maxPerRequest (policy b))) as [limit|].
  - destruct (smallest limit) as [m|] eqn:Hm; [|discriminate]. cbn [mbind Result_bind].
    destruct (Z.ltb_spec m a); cbn [mbind Result_bind]; [now intros [= <-]|].
    apply (Htotal True). intros ? [= <-]. eauto.
  - cbn [mbind Result_bind]. apply (Htotal True). discriminate.
Qed.

Lemma checkSpend_sound_witness :
  let b := new {| maxPerRequest := Some "1.00"; maxTotal := Some "10.00";
                  allowedDomains := Some ["api.example.com"] |} in
  reason {| allowed := true; reason := None |} = None /\
  (forall d list, truthy_opt (Some "api.example.com") = Some d ->
                  allowedDomains (policy b) = Some list -> list <> [] -> In d list) /\
  exists a, smallest "0.50" = Ok a /\ 0 <= a /\
    (forall limit, truthy_opt (maxPerRequest (policy b)) = Some limit ->
                   exists m, smallest limit = Ok m /\ a <= m) /\
    (forall limit, truthy_opt (maxTotal (policy b)) = Some limit ->
                   exists m, smallest limit = Ok m /\ totalSpent b + a <= m).
Proof.
  intros b.
  apply (checkSpend_sound b "0.50" (Some "api.example.com") {| allowed := true; reason := None |});
    [vm_compute; reflexivity | reflexivity].
Defined.

(** X13.  For a manager whose total is not negative and within the
    lifetime limit, [getStatus] returns: the count of payments is the
    length of the history, and the per-request limit is shown as given. *)
Theorem getStatus_returns (b : BudgetManager) :
  0 <= totalSpent b -> within_total b ->
  exists status,
    BudgetStatus.getStatus b = Ok status /\
    BudgetStatus.paymentCount status = Z.of_nat (length (BudgetStatus.getHistory b)) /\
    BudgetStatus.perRequest status =
      match truthy_opt (maxPerRequest (policy b)) with
      | Some limit => limit ++ " USDC"
      | None => "unlimited"
      end /\
    (truthy_opt (maxTotal (policy b)) = None -> BudgetStatus.totalRemaining status = "unlimited").
Proof.
  intros Hpos Hwithin. unfold BudgetStatus.getStatus, within_total in *.
  destruct (formatPrice_nonneg (totalSpent b) no_symbol Hpos eq_refl) as [spent Hspent].
  destruct (truthy_opt (maxTotal (policy b))) as [limit|].
  - destruct Hwithin as (m & -> & Hle). cbn [mbind Result_bind].
    destruct (formatPrice_nonneg (m - totalSpent b) no_symbol) as [text ->];
      [lia | reflexivity |].
    cbn [mbind Result_bind]. rewrite Hspent. cbn [mbind Result_bind].
    eexists. split; [reflexivity|]. repeat split. discriminate.
  - cbn [mbind Result_bind]. rewrite Hspent. cbn [mbind Result_bind].
    eexists. split; [reflexivity|]. repeat split.
Qed.

Lemma getStatus_returns_witness :
  exists status,
    BudgetStatus.getStatus (Sample.limits (Some "2.00") (Some "100.00") None) = Ok status /\
    BudgetStatus.paymentCount status = 0 /\
    BudgetStatus.perRequest status = "2.00 USDC" /\
    (truthy_opt (Some "100.00") = None -> BudgetStatus.totalRemaining status = "unlimited").
Proof.
  apply (getStatus_returns (Sample.limits (Some "2.00") (Some "100.00") None));
    [simpl; lia | exists 100000000; split; [vm_compute; reflexivity | simpl; lia]].
Defined.

(** [getStatus] in the tests of [budget.test.ts]; on a manager that has
    spent more than its limit it throws. *)
Example getStatus_tests :
  BudgetStatus.getStatus (new {| maxPerRequest := None; maxTotal := None; allowedDomains := None |})
    = Ok {| BudgetStatus.perRequest := "unlimited"; BudgetStatus.totalRemaining := "unlimited";
            BudgetStatus.totalSpent := "0.00 USDC"; BudgetStatus.paymentCount := 0 |} /\
  BudgetStatus.getStatus (recordSpend (Sample.limits (Some "2.00") (Some "100.00") None)
               "5000000" "item-1" "example.com" 1).2
    = Ok {| BudgetStatus.perRequest := "2.00 USDC"; BudgetStatus.totalRemaining := "95.00 USDC";
            BudgetStatus.totalSpent := "5.00 USDC"; BudgetStatus.paymentCount := 1 |} /\
  BudgetStatus.getStatus (recordSpend (Sample.limits None (Some "1.00") None)
               "5000000" "item-1" "example.com" 1).2
    = Throw (Error "Invalid amount: -4000000").
Proof. repeat split; vm_compute; reflexivity. Qed.

End BudgetLedgerProperties.

Section PaymentFlowProperties.
Import JSString JSNumber Pricing Receipt EIP712 FacilitatorClient Client.
Import Ledger BudgetInvariant JSFacts AmountFacts.

(** The retry loop from attempt [attempt] on, [remaining] attempts to go:
    it answers the first response, or throws the first error that is not
    to be retried, or the error of the last attempt. *)
Lemma attempts_outcome (submit : Submission) (url : string) (payload : FacilitatorPayload)
    (remaining attempt : nat) (lastError : option exn) :
  match attempts submit url payload remaining attempt lastError with
  | Ok response =>
      exists i, (attempt <= i < attempt + remaining)%nat /\
        submit i url payload = Ok response /\
        forall j, (attempt <= j < i)%nat ->
                  exists e, submit j url payload = Throw e /\ non_retryable e = false
  | Throw err =>
      (remaining = O /\
       err = default (X402PaymentError "Facilitator request failed after retries" FACILITATOR_ERROR)
               lastError) \/
      exists i, (attempt <= i < attempt + remaining)%nat /\
        submit i url payload = Throw err /\
        (non_retryable err = true \/ S i = (attempt + remaining)%nat) /\
        forall j, (attempt <= j < i)%nat ->
                  exists e, submit j url payload = Throw e /\ non_retryable e = false
  end.
Proof.
  revert attempt lastError.
  induction remaining as [|remaining IH]; intros attempt lastError; simpl; [now left|].
  destruct (submit attempt url payload) as [r|err] eqn:Hs.
  - exists attempt. split; [lia|]. split; [exact Hs|]. intros j Hj. lia.
  - destruct (non_retryable err) eqn:Hn.
    + right. exists attempt. split; [lia|]. split; [exact Hs|]. split; [now left|].
      intros j Hj. lia.
    + specialize (IH (S attempt) (Some err)).
      assert (Hbefore : forall i, (S attempt <= i)%nat ->
                (forall j, (S attempt <= j < i)%nat ->
                   exists e, submit j url payload = Throw e /\ non_retryable e = false) ->
                forall j, (attempt <= j < i)%nat ->
                   exists e, submit j url payload = Throw e /\ non_retryable e = false).
      { intros i Hi Hall j Hj. destruct (Nat.eq_dec j attempt) as [->|]; [eauto|].
        apply Hall. lia. }
      destruct (attempts submit url payload remaining (S attempt) (Some err)) as [r|err'].
      * destruct IH as (i & Hi & Hr & Hall). exists i. split; [lia|]. split; [exact Hr|].
        apply Hbefore; [lia | exact Hall].
      * right. destruct IH as [[-> ->]|(i & Hi & Hr & Hlast & Hall)].
        -- exists attempt. split; [lia|]. split; [exact Hs|]. split; [right; lia|].
           intros j Hj. lia.
        -- exists i. split; [lia|]. split; [exact Hr|]. split.
           ++ destruct Hlast; [now left | right; lia].
           ++ apply Hbefore; [lia | exact Hall].
Qed.

(** X14.  [submitToFacilitatorWithRetry] makes at most [maxRetries + 1]
    attempts, in order.  It returns the response of the first attempt that
    succeeds, every earlier attempt having thrown an error that is retried.
    It throws the first error that is not retried (a payment error with a
    code other than FACILITATOR_ERROR) or else the error of the last
    attempt; with no attempt to make it throws its own error. *)
Theorem retry_outcome (submit : Submission) (url : string) (payload : FacilitatorPayload)
    (options : RetryConfig) :
  let n := Z.to_nat (maxRetries options + 1) in
  match submitToFacilitatorWithRetry submit url payload options with
  | Ok response =>
      exists i, (i < n)%nat /\
        submit i url payload = Ok response /\
        forall j, (j < i)%nat ->
                  exists e, submit j url payload = Throw e /\ non_retryable e = false
  | Throw err =>
      (maxRetries options < 0 /\
       err = X402PaymentError "Facilitator request failed after retries" FACILITATOR_ERROR) \/
      exists i, (i < n)%nat /\
        submit i url payload = Throw err /\
        (non_retryable err = true \/ S i = n) /\
        forall j, (j < i)%nat ->
                  exists e, submit j url payload = Throw e /\ non_retryable e = false
  end.
Proof.
  intros n. unfold submitToFacilitatorWithRetry. fold n.
  pose proof (attempts_outcome submit url payload n 0 None) as H.
  destruct (attempts submit url payload n 0 None) as [r|err].
  - destruct H as (i & Hi & Hr & Hall). exists i. split; [lia|]. split; [exact Hr|].
    intros j Hj. apply Hall. lia.
  - destruct H as [[Hn ->]|(i & Hi & Hr & Hlast & Hall)].
    + left. split; [unfold n in Hn; lia | reflexivity].
    + right. exists i. split; [lia|]. split; [exact Hr|]. split; [exact Hlast|].
      intros j Hj. apply Hall. lia.
Qed.

(** What [settle] does after a spend that the budget allowed. *)
Lemma settle_trace (env : Environment) (c : X402AgentClient) (pr : PaymentRequest)
    (domain : string) (response : FacilitatorResponse) :
  Budget.assertSpend (budget c) (price pr) (Some domain) = Ok tt ->
  exists (s : string) (a : Z) (warning shown : option string) (c' : X402AgentClient),
    parsePrice (Text (price pr)) = Ok s /\ JSBigInt.BigInt s = Ok a /\ 0 <= a /\
    match Receipt.truthy_opt (Budget.maxTotal (Budget.policy (budget c))) with
    | Some limit => exists m, Budget.smallest limit = Ok m /\ Budget.totalSpent (budget c) + a <= m
    | None => True
    end /\
    settle env c pr domain response =
      (Ok {| receiptToken := receipt response; paid_txHash := txHash response |}, c') /\
    budget c' =
      {| Budget.policy := Budget.policy (budget c);
         Budget.totalSpent := Budget.totalSpent (budget c) + a;
         Budget.history :=
           Budget.history (budget c)
           ++ [{| Budget.contentId := contentId pr; Budget.amount := s;
                  Budget.domain := domain; Budget.timestamp := t_end env |}];
         Budget.onBudgetWarning := Budget.onBudgetWarning (budget c) |} /\
    emitted c' =
      (emitted c
       ++ match warning with
          | Some remaining =>
              [{| type := budget_warning; ev_contentId := EmptyString; ev_amount := None;
                  ev_error := None; budgetRemaining := Some remaining;
                  timestamp := t_end env |}]
          | None => []
          end
       ++ [{| type := payment_success; ev_contentId := contentId pr;
              ev_amount := Some (price pr); ev_error := None; budgetRemaining := shown;
              timestamp := t_end env |}])%list.
Proof.
  intros Hassert.
  destruct (assertSpend_Ok _ _ _ Hassert) as (a & Ha & Htotal).
  destruct (smallest_Ok _ _ Ha) as (s & Hs & Hb).
  pose proof (parsePrice_nonneg _ _ _ Hs Hb) as Hpos.
  destruct (recordSpend_allowed (budget c) s (contentId pr) domain (t_end env) a Hb Htotal)
    as [warning Hrecord].
  exists s, a, warning. unfold settle. rewrite Hs. cbn [with_receiptCache budget].
  rewrite Hrecord. cbn [with_budget budget].
  set (b' := {| Budget.policy := _; Budget.totalSpent := _; Budget.history := _;
                Budget.onBudgetWarning := _ |}).
  assert (Hremaining : exists shown,
            (match Budget.getRemainingSmallest b' with
             | Ok remaining =>
                 match truthy_opt remaining with
                 | Some remaining => text ← formatPrice (Text remaining) Budget.no_symbol;
                                     Ok (Some text)
                 | None => Ok None
                 end
             | Throw err => Throw err
             end) = Ok shown /\ exists remaining, Budget.getRemainingSmallest b' = Ok remaining).
  { unfold Budget.getRemainingSmallest. cbn [Budget.policy Budget.totalSpent b'].
    destruct (truthy_opt (Budget.maxTotal (Budget.policy (budget c)))) as [limit|]; [|eauto].
    destruct Htotal as (m & -> & Hle). cbn [mbind Result_bind].
    destruct (truthy_opt (Some _)) as [remaining|] eqn:Hr; [|eauto].
    apply truthy_opt_inv in Hr as [[= <-] _].
    destruct (formatPrice_nonneg (m - (Budget.totalSpent (budget c) + a)) Budget.no_symbol)
      as [text ->]; [lia | reflexivity |]. cbn [mbind Result_bind]. eauto. }
  destruct Hremaining as (shown & Hshown & remaining & Hremaining).
  exists shown.
  destruct warning as [text|]; cbn [emit budget with_budget with_receiptCache receiptCache];
    rewrite Hremaining in Hshown |- *; rewrite Hshown;
    eexists; (split; [reflexivity|]); (split; [exact Hb|]); (split; [exact Hpos|]);
    (split; [exact Htotal|]); (split; [reflexivity|]); (split; [reflexivity|]);
    cbn [emitted emit with_budget with_receiptCache]; now rewrite <- ?app_assoc.
Qed.

(** X15.  Whatever [executePayment] does, the policy of the budget is
    kept, its total does not go down, a total within the lifetime limit
    stays within it, and a total that is the sum of the history stays so. *)
Theorem executePayment_keeps_budget (env : Environment) (c : X402AgentClient)
    (pr : PaymentRequest) :
  let c' := (executePayment env c pr).2 in
  Budget.policy (budget c') = Budget.policy (budget c) /\
  Budget.totalSpent (budget c) <= Budget.totalSpent (budget c') /\
  (within_total (budget c) -> within_total (budget c')) /\
  (balanced (budget c) -> balanced (budget c')).
Proof.
  unfold executePayment.
  set (domain := extractDomain env (pr_facilitatorUrl pr)).
  set (c0 := emit _ c).
  destruct (obtain_receipt env c0 pr domain) as [response|err] eqn:Hobtain.
  - apply obtain_receipt_Ok in Hobtain as [Hassert _].
    destruct (settle_trace env c0 pr domain response Hassert)
      as (s & a & warning & shown & c' & Hs & Ha & Hpos & Htotal & -> & Hbudget & _).
    cbn [snd]. rewrite Hbudget. cbn [Budget.policy Budget.totalSpent Budget.history budget c0 emit].
    split; [reflexivity|]. split; [lia|]. split.
    + intros _. unfold within_total. cbn [Budget.policy Budget.totalSpent].
      cbn [budget c0 emit] in Htotal.
      destruct (truthy_opt (Budget.maxTotal (Budget.policy (budget c)))); [exact Htotal | exact I].
    + intros Hbal. unfold balanced. cbn [Budget.history Budget.totalSpent].
      now apply recorded_total_app.
  - cbn. repeat split; [lia | trivial | trivial].
Qed.

Lemma executePayment_keeps_budget_witness :
  let c' := (executePayment Sample.facilitator_up Sample.agent (Sample.request "0.01")).2 in
  within_total (budget c') /\ balanced (budget c').
Proof.
  pose proof (executePayment_keeps_budget Sample.facilitator_up Sample.agent
                (Sample.request "0.01")) as (_ & _ & Hw & Hb).
  split.
  - apply Hw. exists 10000000. split; [vm_compute; reflexivity | simpl; lia].
  - apply Hb. reflexivity.
Defined.

(** X16.  [executePayment] emits [payment_started] first and one closing
    event last: [payment_success] when it returns, [payment_failed] with the
    error thrown when it throws.  Between the two it emits nothing, or,
    when it returns, at most one [budget_warning]. *)
Theorem executePayment_events (env : Environment) (c : X402AgentClient) (pr : PaymentRequest) :
  let started :=
    {| type := payment_started; ev_contentId := contentId pr; ev_amount := Some (price pr);
       ev_error := None; budgetRemaining := None; timestamp := t_start env |} in
  match executePayment env c pr with
  | (Ok paid, c') =>
      exists (between : list PaymentEvent) (shown : option string),
        emitted c' =
          (emitted c ++ [started] ++ between
           ++ [{| type := payment_success; ev_contentId := contentId pr;
                  ev_amount := Some (price pr); ev_error := None; budgetRemaining := shown;
                  timestamp := t_end env |}])%list /\
        (between = [] \/
         exists remaining,
           between = [{| type := budget_warning; ev_contentId := EmptyString;
                         ev_amount := None; ev_error := None;
                         budgetRemaining := Some remaining; timestamp := t_end env |}])
  | (Throw err, c') =>
      emitted c' =
        (emitted c ++ [started]
         ++ [{| type := payment_failed; ev_contentId := contentId pr;
                ev_amount := Some (price pr); ev_error := Some err; budgetRemaining := None;
                timestamp := t_end env |}])%list
  end.
Proof.
  intros started. unfold executePayment.
  set (domain := extractDomain env (pr_facilitatorUrl pr)).
  fold started. set (c0 := emit started c).
  destruct (obtain_receipt env c0 pr domain) as [response|err] eqn:Hobtain.
  - apply obtain_receipt_Ok in Hobtain as [Hassert _].
    destruct (settle_trace env c0 pr domain response Hassert)
      as (s & a & warning & shown & c' & _ & _ & _ & _ & -> & _ & Hemitted).
    exists (match warning with
            | Some remaining =>
                [{| type := budget_warning; ev_contentId := EmptyString; ev_amount := None;
                    ev_error := None; budgetRemaining := Some remaining;
                    timestamp := t_end env |}]
            | None => []
            end), shown.
    split.
    + rewrite Hemitted. cbn [emitted c0 emit]. now rewrite <- !app_assoc.
    + destruct warning; eauto.
  - cbn [emitted emit c0]. now rewrite <- !app_assoc.
Qed.

(** X17.  When the budget check throws, [executePayment] throws that error
    without signing and without a request to the facilitator: whatever the
    wallet and the facilitator would do, the outcome is the same, and the
    cache and the budget are untouched. *)
Theorem budget_rejection_comes_first (env env' : Environment) (c : X402AgentClient)
    (pr : PaymentRequest) (err : exn) :
  Budget.assertSpend (budget c) (price pr)
    (Some (extractDomain env (pr_facilitatorUrl pr))) = Throw err ->
  hostname env' = hostname env -> t_start env' = t_start env -> t_end env' = t_end env ->
  (executePayment env c pr).1 = Throw err /\
  executePayment env' c pr = executePayment env c pr /\
  receiptCache (executePayment env c pr).2 = receiptCache c /\
  budget (executePayment env c pr).2 = budget c.
Proof.
  intros Hassert Hh Hs He.
  assert (Hrun : forall e : Environment,
            hostname e = hostname env -> t_start e = t_start env -> t_end e = t_end env ->
            executePayment e c pr =
              (Throw err,
               emit {| type := payment_failed; ev_contentId := contentId pr;
                       ev_amount := Some (price pr); ev_error := Some err;
                       budgetRemaining := None; timestamp := t_end env |}
                 (emit {| type := payment_started; ev_contentId := contentId pr;
                          ev_amount := Some (price pr); ev_error := None;
                          budgetRemaining := None; timestamp := t_start env |} c))).
  { intros e Hh' Hs' He'. unfold executePayment, obtain_receipt, extractDomain in *.
    rewrite Hh', Hs', He'. cbn [budget emit]. rewrite Hassert. reflexivity. }
  rewrite (Hrun env' Hh Hs He), (Hrun env eq_refl eq_refl eq_refl).
  repeat split.
Qed.

Lemma budget_rejection_comes_first_witness :
  (executePayment Sample.facilitator_up Sample.agent (Sample.request "2.00")).1
    = Throw (X402BudgetError "Amount 2.00 USDC exceeds per-request limit of 1.00 USDC"
               PER_REQUEST_LIMIT) /\
  executePayment
    {| hostname := hostname Sample.facilitator_up; generateNonce := "0x01";
       signTypedData := fun _ => Throw (Error "no key");
       submitToFacilitator := submitToFacilitator Sample.facilitator_down;
       t_start := 1700000000000; t_end := 1700000001000 |}
    Sample.agent (Sample.request "2.00")
  = executePayment Sample.facilitator_up Sample.agent (Sample.request "2.00").
Proof.
  pose proof (budget_rejection_comes_first Sample.facilitator_up
    {| hostname := hostname Sample.facilitator_up; generateNonce := "0x01";
       signTypedData := fun _ => Throw (Error "no key");
       submitToFacilitator := submitToFacilitator Sample.facilitator_down;
       t_start := 1700000000000; t_end := 1700000001000 |}
    Sample.agent (Sample.request "2.00")
    (X402BudgetError "Amount 2.00 USDC exceeds per-request limit of 1.00 USDC" PER_REQUEST_LIMIT))
    as H.
  destruct H as (H1 & H2 & _); [vm_compute; reflexivity | reflexivity | reflexivity | reflexivity |].
  split; [exact H1 | exact H2].
Defined.

End PaymentFlowProperties.

Section HandlerProperties.
Import JSString JSNumber Constants Types Jose Receipt Fee JSON Facilitator.
Context `{Primitives} `{Recovery}.

(** X18.  [handlePayment] answers 200, 400 or 500.  It answers 200, and a
    receipt, only when the payload was valid, its network resolved, its
    signature recovered the sender, its time window was open and the
    executor reported a successful transfer; the receipt is then that of
    the transfer, signed with the secret of the facilitator.  Every other
    answer carries an error and no receipt. *)
Theorem receipt_only_after_transfer (payload : unknown) (config : FacilitatorConfig)
    (executor : TransferExecutor) (now_window now_receipt : Z) (random36 : string)
    (result : HandlerResult) :
  handlePayment payload config executor now_window now_receipt random36 = Ok result ->
  (status result = 200 \/ status result = 400 \/ status result = 500) /\
  (status result <> 200 -> exists error, body result = ErrorBody error) /\
  (status result = 200 ->
   exists (request : FacilitatorPayload) (networkInfo : NetworkInfo) (hash : string)
          (receipt : X402Receipt),
     validatePayload payload = ValidPayload request /\
     resolveNetwork (network request) = Some networkInfo /\
     sig_valid (verifySignature (authorization request) (signature request)
                  (net_chainId networkInfo) (x402Network networkInfo)) = true /\
     time_valid (validateTimeWindow (authorization request) now_window) = true /\
     executor {| e_authorization := authorization request;
                 e_signature := signature request;
                 e_chainId := net_chainId networkInfo |}
       = Ok {| r_txHash := hash; success := true |} /\
     body result = ReceiptBody (createReceiptToken receipt (jwtSecret config)) hash /\
     payer receipt = from (authorization request) /\
     payee receipt = to (authorization request) /\
     contentId receipt = resource request /\
     txHash receipt = hash).
Proof.
  unfold handlePayment.
  destruct (validatePayload payload) as [request|error] eqn:Hvalid.
  2:{ intros [= <-]. cbn. split; [auto|]. split; [eauto | discriminate]. }
  destruct (resolveNetwork (network request)) as [networkInfo|] eqn:Hnetwork.
  2:{ intros [= <-]. cbn. split; [auto|]. split; [eauto | discriminate]. }
  cbv zeta.
  destruct (sig_valid _) eqn:Hsig; cbn [negb].
  2:{ intros [= <-]. cbn. split; [auto|]. split; [eauto | discriminate]. }
  destruct (time_valid _) eqn:Htime; cbn [negb].
  2:{ intros [= <-]. cbn. split; [auto|]. split; [eauto | discriminate]. }
  destruct (calculateFee_of _ _) as [fees|]; cbn [mbind Result_bind]; [|discriminate].
  destruct (executor _) as [[hash ok]|err] eqn:Hexec.
  2:{ intros [= <-]. cbn. split; [auto|]. split; [eauto | discriminate]. }
  destruct ok; cbn [negb success r_txHash].
  2:{ intros [= <-]. cbn. split; [auto|]. split; [eauto | discriminate]. }
  intros [= <-]. cbn [status body]. split; [auto|]. split; [congruence|].
  intros _. exists request, networkInfo, hash. eexists.
  repeat (split; [reflexivity || eassumption|]). reflexivity.
Qed.

(** X19.  A request that [handlePayment] answers with 400 is answered so
    whatever the executor, the configuration, the later clock and the
    random draw are: the rejection depends on the payload and on the clock
    of the time window only, and the executor has no part in it. *)
Theorem rejection_needs_no_transfer (payload : unknown) (config config' : FacilitatorConfig)
    (executor executor' : TransferExecutor) (now_window now_receipt now_receipt' : Z)
    (random36 random36' : string) (answer : HandlerBody) :
  handlePayment payload config executor now_window now_receipt random36
    = Ok {| status := 400; body := answer |} ->
  handlePayment payload config' executor' now_window now_receipt' random36'
    = Ok {| status := 400; body := answer |}.
Proof.
  unfold handlePayment.
  destruct (validatePayload payload) as [request|error]; [|trivial].
  destruct (resolveNetwork (network request)) as [networkInfo|]; [|trivial].
  cbv zeta.
  destruct (sig_valid _); cbn [negb]; [|trivial].
  destruct (time_valid _); cbn [negb]; [|trivial].
  destruct (calculateFee_of _ (feePercent config)) as [fees|]; cbn [mbind Result_bind];
    [|discriminate].
  destruct (executor _) as [[hash []]|err]; cbn [negb success]; discriminate.
Qed.

(** A payload that [validatePayload] accepts is an object of version
    1 and scheme [exact] whose network and resource are the strings kept,
    whose signature, sender, recipient and nonce are strings that begin with
    [0x], and whose amount and two bounds are present and not null; nothing
    else is checked of these three. *)
Theorem validatePayload_accepts (body : unknown) (request : FacilitatorPayload) :
  validatePayload body = ValidPayload request ->
  exists (obj inner auth : json),
    body = Some obj /\
    (exists q, get obj "x402Version" = Some (JNum (Finite q)) /\ (q == 1)%Q) /\
    get obj "scheme" = Some (JStr "exact") /\
    get obj "network" = Some (JStr (network request)) /\
    get obj "resource" = Some (JStr (resource request)) /\
    get obj "payload" = Some inner /\
    get inner "signature" = Some (JStr (signature request)) /\
    get inner "authorization" = Some auth /\
    get auth "from" = Some (JStr (from (authorization request))) /\
    get auth "to" = Some (JStr (to (authorization request))) /\
    get auth "nonce" = Some (JStr (nonce (authorization request))) /\
    get auth "value" = Some (value (authorization request)) /\
    get auth "validAfter" = Some (validAfter (authorization request)) /\
    get auth "validBefore" = Some (validBefore (authorization request)) /\
    startsWith (signature request) "0x" = true /\
    startsWith (from (authorization request)) "0x" = true /\
    startsWith (to (authorization request)) "0x" = true /\
    startsWith (nonce (authorization request)) "0x" = true /\
    nullish (Some (value (authorization request))) = false /\
    nullish (Some (validAfter (authorization request))) = false /\
    nullish (Some (validBefore (authorization request))) = false.
Proof.
  assert (H0x : forall v s, is_0x v = Some s -> v = Some (JStr s) /\ startsWith s "0x" = true).
  { intros v s. unfold is_0x, as_string.
    destruct v as [[]|]; try discriminate.
    destruct (startsWith _ "0x") eqn:E; [|discriminate]. now intros [= <-]. }
  assert (Hstr : forall v s, as_string v = Some s -> v = Some (JStr s)).
  { intros v s. unfold as_string. destruct v as [[]|]; try discriminate. now intros [= <-]. }
  unfold validatePayload.
  destruct body as [obj|]; [|discriminate].
  destruct (falsy (Some obj) || negb (is_object (Some obj))); [discriminate|].
  destruct (get obj "x402Version") as [[| |[| |q]| | |]|] eqn:Hversion; try discriminate.
  destruct (Qeq_bool q 1) eqn:Hq; cbn [negb]; [|discriminate].
  destruct (get obj "scheme") as [[| | |scheme| |]|] eqn:Hscheme; try discriminate.
  do 5 (destruct scheme as [|[[] [] [] [] [] [] [] []] scheme]; try discriminate).
  destruct scheme; [|discriminate].
  destruct (as_string (get obj "network")) as [network|] eqn:Hnetwork; [|discriminate].
  destruct (as_string (get obj "resource")) as [resource|] eqn:Hresource; [|discriminate].
  destruct (get obj "payload") as [inner|] eqn:Hpayload; [|discriminate].
  destruct (falsy (Some inner) || negb (is_object (Some inner))); [discriminate|].
  destruct (is_0x (get inner "signature")) as [signature|] eqn:Hsignature; [|discriminate].
  destruct (get inner "authorization") as [auth|] eqn:Hauth; [|discriminate].
  destruct (falsy (Some auth) || negb (is_object (Some auth))); [discriminate|].
  destruct (find _ _) eqn:Hfind; [discriminate|].
  destruct (is_0x (get auth "from")) as [from|] eqn:Hfrom; [|discriminate].
  destruct (is_0x (get auth "to")) as [to|] eqn:Hto; [|discriminate].
  destruct (is_0x (get auth "nonce")) as [nonce|] eqn:Hnonce; [|discriminate].
  destruct (get auth "value") as [value|] eqn:Hvalue; [|discriminate].
  destruct (get auth "validAfter") as [validAfter|] eqn:HvalidAfter; [|discriminate].
  destruct (get auth "validBefore") as [validBefore|] eqn:HvalidBefore; [|discriminate].
  intros [= <-].
  cbn [Facilitator.network Facilitator.resource Facilitator.signature
       Facilitator.authorization Facilitator.from Facilitator.to Facilitator.nonce
       Facilitator.value Facilitator.validAfter Facilitator.validBefore].
  apply H0x in Hsignature as [Hsignature ?], Hfrom as [Hfrom ?], Hto as [Hto ?],
    Hnonce as [Hnonce ?].
  apply Hstr in Hnetwork, Hresource.
  assert (Hpresent : forall field, In field ["value"; "validAfter"; "validBefore"] ->
            nullish (get auth field) = false).
  { intros field Hin.
    pose proof (find_none _ _ Hfind field) as Hnone. apply Hnone.
    simpl in Hin |- *. intuition. }
  exists obj, inner, auth.
  split; [reflexivity|]. split; [exists q; split; [exact Hversion | now apply Qeq_bool_iff]|].
  repeat (split; [assumption || reflexivity|]).
  rewrite <- Hvalue, <- HvalidAfter, <- HvalidBefore.
  repeat split; apply Hpresent; simpl; auto.
Qed.

End HandlerProperties.

Section HandlerExamples.
Import JSString JSNumber Constants Types Jose Receipt Fee JSON Facilitator Sample.

Lemma receipt_only_after_transfer_witness :
  exists (result : HandlerResult) (receipt : X402Receipt),
    handlePayment (Some payload) config MockTransferExecutor 1700000000123 1700000001999
      "0.4fzyo82mvyr" = Ok result /\
    body result = ReceiptBody (createReceiptToken receipt "test-secret") mock_hash /\
    payer receipt = "0xAAAA" /\ payee receipt = "0xBBBB" /\ contentId receipt = "article-1".
Proof.
  destruct (handlePayment (Some payload) config MockTransferExecutor 1700000000123
              1700000001999 "0.4fzyo82mvyr") as [result|e] eqn:Hrun;
    [|vm_compute in Hrun; discriminate].
  destruct (receipt_only_after_transfer _ _ _ _ _ _ _ Hrun) as (_ & _ & H200).
  destruct H200 as (request & networkInfo & hash & receipt & Hvalid & _ & _ & _ & Hexec
                    & Hbody & Hpayer & Hpayee & Hcontent & _).
  { vm_compute in Hrun. injection Hrun as <-. reflexivity. }
  vm_compute in Hvalid. injection Hvalid as <-.
  vm_compute in Hexec. injection Hexec as <-.
  exists result, receipt. split; [reflexivity|]. split; [exact Hbody|].
  split; [exact Hpayer|]. split; [exact Hpayee|exact Hcontent].
Defined.

Lemma rejection_needs_no_transfer_witness :
  exists answer : HandlerBody,
    handlePayment (Some payload) config failingExecutor 99999999990000 0 EmptyString
    = Ok {| status := 400; body := answer |}.
Proof.
  eexists.
  apply (rejection_needs_no_transfer (Some payload) config config MockTransferExecutor
           failingExecutor 99999999990000 99999999990500 0 "0.4fzyo82mvyr" EmptyString).
  vm_compute. reflexivity.
Defined.

Lemma validatePayload_accepts_witness :
  get payload "scheme" = Some (JStr "exact") /\
  startsWith (signature validated) "0x" = true.
Proof.
  destruct (validatePayload_accepts (Some payload) validated)
    as (obj & inner & auth & Hbody & _ & Hscheme & _ & _ & _ & _ & _ & _ & _ & _ & _ & _ & _
        & H0x & _); [reflexivity|].
  injection Hbody as <-. split; [exact Hscheme|exact H0x].
Defined.

End HandlerExamples.

Section WireProperties.
Import JSString JSNumber Constants JSON Wire.

(** The network a client writes into its payload is one the
    facilitator resolves, to the network and the chain id of the client;
    the EIP-712 domain the facilitator recovers the signer with is then the
    domain the client has signed; and the facilitator resolves no other
    text than the ones a client writes. *)
Theorem network_round_trip :
  (forall (signature : string) (authorization : EIP712.TransferAuthorization)
          (network : X402Network) (contentId : string),
     let sent := FacilitatorClient.buildFacilitatorPayload signature authorization network
                   contentId in
     let resolved := {| Facilitator.x402Network := network;
                        Facilitator.net_chainId := NUMERIC_CHAIN_IDS network |} in
     let signed := EIP712.buildUSDCDomain network in
     let checked := Facilitator.buildDomain (Facilitator.net_chainId resolved)
                      (Facilitator.x402Network resolved) in
     Facilitator.resolveNetwork (FacilitatorClient.network sent) = Some resolved /\
     Facilitator.d_name checked = EIP712.name signed /\
     Facilitator.d_version checked = EIP712.version signed /\
     Facilitator.d_chainId checked = EIP712.chainId signed /\
     Facilitator.d_verifyingContract checked = EIP712.verifyingContract signed) /\
  (forall (text : string) (info : Facilitator.NetworkInfo),
     Facilitator.resolveNetwork text = Some info ->
     exists network : X402Network,
       info = {| Facilitator.x402Network := network;
                 Facilitator.net_chainId := NUMERIC_CHAIN_IDS network |} /\
       forall (signature : string) (authorization : EIP712.TransferAuthorization)
              (contentId : string),
         FacilitatorClient.network
           (FacilitatorClient.buildFacilitatorPayload signature authorization network contentId)
         = text).
Proof.
  split.
  - intros signature authorization network contentId. cbv zeta.
    destruct network; repeat split.
  - intros text info. unfold Facilitator.resolveNetwork.
    destruct (find _ _) as [[name id]|] eqn:Hfind; [|discriminate].
    intros [= <-]. apply find_some in Hfind as [Hin Heq].
    apply String.eqb_eq in Heq. subst text.
    exists name. simpl in Hin.
    destruct Hin as [[= <- <-]|[[= <- <-]|[]]]; split; reflexivity.
Qed.

Lemma network_round_trip_witness :
  exists network : X402Network,
    {| Facilitator.x402Network := base_sepolia; Facilitator.net_chainId := 84532 |}
    = {| Facilitator.x402Network := network;
         Facilitator.net_chainId := NUMERIC_CHAIN_IDS network |} /\
    forall (signature : string) (authorization : EIP712.TransferAuthorization)
           (contentId : string),
      FacilitatorClient.network
        (FacilitatorClient.buildFacilitatorPayload signature authorization network contentId)
      = "eip155:84532".
Proof.
  apply (proj2 network_round_trip "eip155:84532"). reflexivity.
Defined.

(** X20.  The payload a client builds for a price, with a sender, a
    recipient, a signature and a nonce that begin with [0x], passes
    [validatePayload] at the facilitator as it arrives on the wire, with
    the fields the client gave it; its network resolves; and its time window
    is open from the second it was built, for one hour. *)
Theorem client_payload_is_accepted (params : EIP712.BuildTransferAuthorizationParams)
    (now_ms : Z) (fresh_nonce signature contentId : string)
    (typedData : EIP712.TypedData) (authorization : EIP712.TransferAuthorization) :
  EIP712.p_validAfter params = None -> EIP712.p_validBefore params = None ->
  EIP712.buildTransferAuthorization params now_ms fresh_nonce = Ok (typedData, authorization) ->
  startsWith (EIP712.p_from params) "0x" = true ->
  startsWith (EIP712.p_to params) "0x" = true ->
  startsWith (EIP712.nonce authorization) "0x" = true ->
  startsWith signature "0x" = true ->
  let sent := FacilitatorClient.buildFacilitatorPayload signature authorization
                (EIP712.p_network params) contentId in
  exists (request : Facilitator.FacilitatorPayload) (amount : string),
    Facilitator.validatePayload (Some (to_json sent)) = Facilitator.ValidPayload request /\
    Pricing.parsePrice (Pricing.Text (EIP712.p_price params)) = Ok amount /\
    Facilitator.signature request = signature /\
    Facilitator.resource request = contentId /\
    Facilitator.from (Facilitator.authorization request) = EIP712.p_from params /\
    Facilitator.to (Facilitator.authorization request) = EIP712.p_to params /\
    Facilitator.value (Facilitator.authorization request) = JStr amount /\
    Facilitator.nonce (Facilitator.authorization request) = EIP712.nonce authorization /\
    Facilitator.resolveNetwork (Facilitator.network request)
      = Some {| Facilitator.x402Network := EIP712.p_network params;
                Facilitator.net_chainId := NUMERIC_CHAIN_IDS (EIP712.p_network params) |} /\
    forall t_ms : Z,
      0 <= t_ms / 1000 ->
      Facilitator.time_valid (Facilitator.validateTimeWindow (Facilitator.authorization request) t_ms)
      = (t_ms / 1000 <? now_ms / 1000 + 3600).
Proof.
  intros Hafter Hbefore Hbuild Hfrom Hto Hnonce Hsignature sent.
  unfold EIP712.buildTransferAuthorization in Hbuild. rewrite Hafter, Hbefore in Hbuild.
  destruct (Pricing.parsePrice _) as [amount|] eqn:Hprice; [|discriminate].
  cbn [mbind Result_bind default] in Hbuild. injection Hbuild as <- <-.
  cbn [EIP712.nonce] in Hnonce.
  eexists. exists amount.
  split.
  { unfold Facilitator.validatePayload, sent, to_json, authorization_json,
      FacilitatorClient.buildFacilitatorPayload.
    cbn [FacilitatorClient.x402Version FacilitatorClient.scheme FacilitatorClient.network
         FacilitatorClient.signature FacilitatorClient.authorization FacilitatorClient.resource
         EIP712.from EIP712.to EIP712.value EIP712.validAfter EIP712.validBefore EIP712.nonce].
    cbn -[startsWith JSBigInt.toString NUMERIC_CHAIN_IDS].
    rewrite Hsignature, Hfrom, Hto, Hnonce. reflexivity. }
  split; [reflexivity|].
  cbn [Facilitator.signature Facilitator.resource Facilitator.authorization Facilitator.from
       Facilitator.to Facilitator.value Facilitator.nonce Facilitator.network
       Facilitator.validAfter Facilitator.validBefore].
  repeat (split; [reflexivity|]).
  split; [now destruct (EIP712.p_network params)|].
  intros t_ms Ht. unfold Facilitator.validateTimeWindow.
  cbn [Facilitator.validBefore Facilitator.validAfter ToNumber integer].
  rewrite le_integers.
  change (Finite (inject_Z 0)) with (Finite 0).
  replace (lt (Finite (inject_Z (t_ms / 1000))) (Finite 0)) with false.
  2:{ symmetry. change (Finite 0) with (Finite (inject_Z 0)). rewrite lt_integers.
      apply Z.ltb_ge. exact Ht. }
  rewrite Z.leb_antisym. now destruct (t_ms / 1000 <? now_ms / 1000 + 3600).
Qed.

End WireProperties.

Section WireExamples.
Import JSString JSNumber Constants JSON Wire.

Lemma client_payload_is_accepted_witness :
  let params :=
    {| EIP712.p_from := "0xAAAA"; EIP712.p_to := "0xBBBB"; EIP712.p_price := "0.10";
       EIP712.p_network := base_mainnet; EIP712.p_validAfter := None;
       EIP712.p_validBefore := None; EIP712.p_nonce := None |} in
  exists (typedData : EIP712.TypedData) (authorization : EIP712.TransferAuthorization)
         (request : Facilitator.FacilitatorPayload),
    EIP712.buildTransferAuthorization params 1700000000123 "0x00" = Ok (typedData, authorization) /\
    Facilitator.validatePayload
      (Some (to_json (FacilitatorClient.buildFacilitatorPayload "0x1234" authorization
                        base_mainnet "article-1")))
    = Facilitator.ValidPayload request /\
    Facilitator.value (Facilitator.authorization request) = JStr "100000" /\
    Facilitator.time_valid
      (Facilitator.validateTimeWindow (Facilitator.authorization request) 1700003599999) = true /\
    Facilitator.time_valid
      (Facilitator.validateTimeWindow (Facilitator.authorization request) 1700003600000) = false.
Proof.
  intros params.
  destruct (EIP712.buildTransferAuthorization params 1700000000123 "0x00")
    as [[typedData authorization]|] eqn:Hbuild; [|vm_compute in Hbuild; discriminate].
  destruct (client_payload_is_accepted params 1700000000123 "0x00" "0x1234" "article-1"
              typedData authorization)
    as (request & amount & Hvalid & Hprice & _ & _ & _ & _ & Hvalue & _ & _ & Hwindow);
    [reflexivity | reflexivity | exact Hbuild | reflexivity | reflexivity
    | vm_compute in Hbuild; injection Hbuild as <- <-; reflexivity | reflexivity |].
  exists typedData, authorization, request. split; [reflexivity|]. split; [exact Hvalid|].
  split.
  - rewrite Hvalue. vm_compute in Hprice. injection Hprice as <-. reflexivity.
  - split; rewrite Hwindow by (vm_compute; discriminate); reflexivity.
Defined.

End WireExamples.

Section ConfigProperties.
Import JSString JSNumber Receipt Config.

Lemma or_string_truthy (v : option string) (d : string) :
  truthy (or_string v d) = true -> truthy d = false -> v = Some (or_string v d).
Proof.
  unfold or_string, truthy_opt. destruct v as [s|]; [|congruence].
  destruct (truthy s) eqn:Hs; [reflexivity | congruence].
Qed.

Lemma loadConfig_mock (env : gmap string string) (config : FacilitatorConfig) :
  loadConfig env = Ok config ->
  (mockTransfers config = false <-> env !! "MOCK_TRANSFERS" = Some "false").
Proof.
  unfold loadConfig.
  destruct (negb _); [discriminate|]. destruct (_ || _); [discriminate|].
  destruct (_ && _); [discriminate|]. intros [= <-]. cbn [mockTransfers].
  destruct (env !! "MOCK_TRANSFERS") as [s|]; [|split; discriminate].
  destruct (String.eqb_spec s "false") as [Heq|Hne]; simpl; split; intros; congruence.
Qed.

Lemma calculateFee_NaN (amount : string) :
  exists e, Fee.calculateFee amount NaN = Throw e.
Proof.
  unfold Fee.calculateFee. destruct (JSBigInt.BigInt amount); cbn; eauto.
Qed.

Lemma calculateFee_of_NaN (amount : JSON.json) :
  exists e, Facilitator.calculateFee_of amount NaN = Throw e.
Proof.
  unfold Facilitator.calculateFee_of.
  destruct amount; try apply calculateFee_NaN;
    (destruct (JSON.BigInt _); cbn [mbind Result_bind]; [apply calculateFee_NaN | eauto]).
Qed.

(** X21.  A configuration that [loadConfig] returns has the secret of the
    environment, which is not empty; a fee percent that is a number
    between 0 and 50, or else is not a number at all; and, outside the mock
    mode, a private key that is not empty. *)
Theorem loadConfig_accepts (env : gmap string string) (config : FacilitatorConfig) :
  loadConfig env = Ok config ->
  env !! "JWT_SECRET" = Some (jwtSecret config) /\ jwtSecret config <> EmptyString /\
  feePercent config = parseFloat (or_string (env !! "FEE_PERCENT") "2") /\
  (feePercent config = NaN \/
   exists q : Q, feePercent config = Finite q /\ (0 <= q <= 50)%Q) /\
  (mockTransfers config = false <-> env !! "MOCK_TRANSFERS" = Some "false") /\
  (mockTransfers config = false ->
   exists key, facilitatorPrivateKey config = Some key /\ key <> EmptyString).
Proof.
  unfold loadConfig.
  destruct (truthy (or_string (env !! "JWT_SECRET") EmptyString)) eqn:Hsecret;
    cbn [negb]; [|discriminate].
  set (fee := parseFloat _).
  destruct (lt fee (Finite 0) || lt (Finite 50) fee) eqn:Hfee; [discriminate|].
  apply orb_false_elim in Hfee as [Hlo Hhi].
  set (mock := match env !! "MOCK_TRANSFERS" with Some s => _ | None => true end).
  destruct (negb mock && negb (truthy (default EmptyString (env !! "FACILITATOR_PRIVATE_KEY"))))
    eqn:Hkey; [discriminate|].
  intros [= <-]. cbn [jwtSecret feePercent mockTransfers facilitatorPrivateKey].
  split; [now apply or_string_truthy|].
  split; [intros E; rewrite E in Hsecret; discriminate|].
  split; [reflexivity|].
  split.
  { destruct fee as [|sg|q]; [now left| |].
    - destruct sg; discriminate.
    - right. exists q. split; [reflexivity|].
      simpl in Hlo, Hhi. apply negb_false_iff, Qle_bool_iff in Hlo, Hhi. now split. }
  assert (Hmock : mock = false <-> env !! "MOCK_TRANSFERS" = Some "false").
  { unfold mock. destruct (env !! "MOCK_TRANSFERS") as [s|]; [|split; discriminate].
    destruct (String.eqb_spec s "false") as [Heq|Hne]; simpl; split; intros; congruence. }
  split; [exact Hmock|].
  intros Hm. rewrite Hm in Hkey. cbn [negb andb] in Hkey.
  apply negb_false_iff in Hkey.
  destruct (env !! "FACILITATOR_PRIVATE_KEY") as [key|]; [|discriminate].
  exists key. split; [reflexivity|]. intros ->. discriminate.
Qed.


Lemma loadConfig_accepts_witness :
  let config := {| port := Finite 4020; jwtSecret := "s3cret"; feePercent := Finite (5 # 2);
                   facilitatorUrl := "http://localhost:4020"; mockTransfers := true;
                   facilitatorPrivateKey := None; rpcUrl := None |} in
  feePercent config = NaN \/
  exists q : Q, feePercent config = Finite q /\ (0 <= q <= 50)%Q.
Proof.
  intros config.
  apply (loadConfig_accepts {[ "JWT_SECRET" := "s3cret"; "FEE_PERCENT" := "2.5" ]} config).
  vm_compute. reflexivity.
Defined.

(** X22.  A fee percent that is not a number passes [loadConfig]; with
    such a configuration [calculateFee] throws on every amount, and
    [handlePayment] answers no request with 200 or 500: it answers 400, or
    throws once the checks of the request have passed. *)
Theorem fee_percent_not_a_number (env : gmap string string) (text : string) :
  env !! "FEE_PERCENT" = Some text -> text <> EmptyString -> parseFloat text = NaN ->
  truthy (or_string (env !! "JWT_SECRET") EmptyString) = true ->
  env !! "MOCK_TRANSFERS" <> Some "false" ->
  (exists config, loadConfig env = Ok config /\ feePercent config = NaN) /\
  (forall amount, is_Ok (Fee.calculateFee amount NaN) = false) /\
  (forall `{Jose.Primitives} `{Facilitator.Recovery}
          (payload : JSON.unknown) (handler_config : Facilitator.FacilitatorConfig)
          (executor : Facilitator.TransferExecutor) (now_window now_receipt : Z)
          (random36 : string) (result : Facilitator.HandlerResult),
     Facilitator.feePercent handler_config = NaN ->
     Facilitator.handlePayment payload handler_config executor now_window now_receipt random36
       = Ok result ->
     Facilitator.status result = 400).
Proof.
  intros Htext Hne Hnan Hsecret Hmock. split; [|split].
  - unfold loadConfig. rewrite Hsecret, Htext. cbn [negb].
    replace (or_string (Some text) "2") with text
      by (unfold or_string, truthy_opt; destruct text; [congruence | reflexivity]).
    rewrite Hnan. cbn [lt orb].
    replace (match env !! "MOCK_TRANSFERS" with Some s => negb (String.eqb s "false") | None => true end)
      with true.
    2:{ destruct (env !! "MOCK_TRANSFERS") as [s|]; [|reflexivity].
        destruct (String.eqb_spec s "false") as [->|]; [congruence | reflexivity]. }
    cbn [negb andb]. eexists. split; reflexivity.
  - intros amount. now destruct (calculateFee_NaN amount) as [e ->].
  - intros P R payload handler_config executor now_window now_receipt random36 result Hfee.
    unfold Facilitator.handlePayment.
    destruct (Facilitator.validatePayload payload) as [request|]; [|now intros [= <-]].
    destruct (Facilitator.resolveNetwork _) as [networkInfo|]; [|now intros [= <-]].
    cbv zeta.
    destruct (Facilitator.sig_valid _); cbn [negb]; [|now intros [= <-]].
    destruct (Facilitator.time_valid _); cbn [negb]; [|now intros [= <-]].
    rewrite Hfee.
    destruct (calculateFee_of_NaN (Facilitator.value (Facilitator.authorization request)))
      as [e ->].
    discriminate.
Qed.

Lemma fee_percent_not_a_number_witness :
  exists config,
    loadConfig {[ "JWT_SECRET" := "s3cret"; "FEE_PERCENT" := "two" ]} = Ok config /\
    feePercent config = NaN.
Proof.
  apply (fee_percent_not_a_number {[ "JWT_SECRET" := "s3cret"; "FEE_PERCENT" := "two" ]} "two");
    [reflexivity | discriminate | reflexivity | reflexivity | discriminate].
Defined.

(** X23.  The facilitator starts with the mock executor or not at all:
    when [MOCK_TRANSFERS] is [false] the start throws, also with a private
    key; otherwise it starts exactly when [loadConfig] returns. *)
Theorem start_is_mock_only (env : gmap string string) :
  (env !! "MOCK_TRANSFERS" = Some "false" -> is_Ok (start env) = false) /\
  (env !! "MOCK_TRANSFERS" <> Some "false" ->
   start env = (config ← loadConfig env; Ok (config, Facilitator.MockTransferExecutor))) /\
  (forall config executor,
     start env = Ok (config, executor) ->
     loadConfig env = Ok config /\ mockTransfers config = true /\
     executor = Facilitator.MockTransferExecutor).
Proof.
  unfold start. split; [|split].
  - intros Hfalse. destruct (loadConfig env) as [config|] eqn:Hload; [|reflexivity].
    cbn [mbind Result_bind].
    pose proof (loadConfig_mock env config Hload) as Hmock.
    apply Hmock in Hfalse. rewrite Hfalse. reflexivity.
  - intros Hmode. destruct (loadConfig env) as [config|] eqn:Hload; [|reflexivity].
    cbn [mbind Result_bind].
    pose proof (loadConfig_mock env config Hload) as Hmock.
    destruct (mockTransfers config); [reflexivity|].
    exfalso. apply Hmode. now apply Hmock.
  - intros config executor. destruct (loadConfig env) as [config'|]; [|discriminate].
    cbn [mbind Result_bind]. destruct (mockTransfers config') eqn:Hm; [|discriminate].
    cbn [createTransferExecutor mbind Result_bind]. intros [= <- <-]. auto.
Qed.

End ConfigProperties.

Section NonceProperties.
Import JSString Nonce.

(** A byte is written as two digits, which read back as the byte. *)
Lemma byte_digits (b : Byte.byte) :
  exists h l, padStart 2 "0" (toString16 b) = String h (String l EmptyString) /\
              byte_of_hex (String h (String l EmptyString)) = Some b.
Proof. destruct b; do 2 eexists; split; reflexivity. Qed.

Lemma length_append (s t : string) :
  String.length (s ++ t) = (String.length s + String.length t)%nat.
Proof.
  induction s as [|c s IH]; [reflexivity|].
  change (String c s ++ t) with (String c (s ++ t)). simpl. now rewrite IH.
Qed.

Lemma join_map_length (bytes : list Byte.byte) :
  String.length (join_map (fun b => padStart 2 "0" (toString16 b)) bytes)
  = (2 * length bytes)%nat.
Proof.
  induction bytes as [|b bytes IH]; [reflexivity|].
  cbn [join_map length]. destruct (byte_digits b) as (h & l & -> & _).
  rewrite length_append, IH. simpl String.length. lia.
Qed.

Lemma join_map_injective (bytes bytes' : list Byte.byte) :
  join_map (fun b => padStart 2 "0" (toString16 b)) bytes
  = join_map (fun b => padStart 2 "0" (toString16 b)) bytes' ->
  bytes = bytes'.
Proof.
  revert bytes'. induction bytes as [|b bytes IH]; intros [|b' bytes']; cbn [join_map].
  - reflexivity.
  - destruct (byte_digits b') as (h & l & -> & _).
    change (String ?a (String ?b EmptyString) ++ ?r) with (String a (String b r)). discriminate.
  - destruct (byte_digits b) as (h & l & -> & _).
    change (String ?a (String ?b EmptyString) ++ ?r) with (String a (String b r)). discriminate.
  - destruct (byte_digits b) as (h & l & Hb & Hr), (byte_digits b') as (h' & l' & Hb' & Hr').
    rewrite Hb, Hb'.
    change (String ?a (String ?b EmptyString) ++ ?r) with (String a (String b r)).
    intros [= -> -> Hrest].
    rewrite Hr in Hr'. injection Hr' as ->. f_equal. now apply IH.
Qed.

(** X24.  The nonce [generateNonce] makes of 32 bytes is [0x] followed by
    64 characters, two for each byte; two arrays of bytes that differ give
    two nonces that differ; and the mock executor turns such a nonce into a
    transaction hash of 66 characters that begins with [0x] and twelve zero
    bytes. *)
Theorem generateNonce_shape :
  (forall bytes : list Byte.byte,
     startsWith (generateNonce bytes) "0x" = true /\
     String.length (generateNonce bytes) = (2 + 2 * length bytes)%nat) /\
  (forall bytes bytes' : list Byte.byte,
     generateNonce bytes = generateNonce bytes' -> bytes = bytes') /\
  (forall (bytes : list Byte.byte) (authorization : Facilitator.TransferAuthorization)
          (signature : string) (chainId : Z),
     length bytes = 32%nat ->
     Facilitator.nonce authorization = generateNonce bytes ->
     exists hash,
       Facilitator.MockTransferExecutor
         {| Facilitator.e_authorization := authorization;
            Facilitator.e_signature := signature;
            Facilitator.e_chainId := chainId |}
       = Ok {| Facilitator.r_txHash := hash; Facilitator.success := true |} /\
       String.length hash = 66%nat /\
       startsWith hash "0x000000000000000000000000" = true).
Proof.
  split; [|split].
  - intros bytes. split; [reflexivity|].
    unfold generateNonce. rewrite length_append, join_map_length. reflexivity.
  - intros bytes bytes'. unfold generateNonce.
    change ("0x" ++ ?r) with (String "0" (String "x" r)). intros [= Hrest].
    now apply join_map_injective.
  - intros bytes authorization signature chainId Hlen Hnonce.
    unfold Facilitator.MockTransferExecutor. cbn [Facilitator.e_authorization].
    rewrite Hnonce. unfold generateNonce.
    set (digits := join_map _ bytes).
    assert (Hdigits : String.length digits = 64%nat)
      by (unfold digits; rewrite join_map_length; lia).
    change (slice 2 ("0x" ++ digits)) with digits.
    assert (Hsub : forall (n : nat) (s : string),
              (n <= String.length s)%nat -> String.length (substring 0 n s) = n).
    { induction n as [|n IH]; intros [|c s] Hle; simpl in *; try lia; try reflexivity.
      rewrite IH; lia. }
    eexists. split; [reflexivity|]. split; [|reflexivity].
    rewrite !length_append, Hsub by lia. reflexivity.
Qed.

Lemma generateNonce_shape_witness :
  exists hash,
    Facilitator.MockTransferExecutor
      {| Facilitator.e_authorization :=
           {| Facilitator.from := "0xAAAA"; Facilitator.to := "0xBBBB";
              Facilitator.value := JSON.JStr "1"; Facilitator.validAfter := JSON.JNull;
              Facilitator.validBefore := JSON.JNull;
              Facilitator.nonce := generateNonce (List.repeat Byte.xab 32) |};
         Facilitator.e_signature := "0x12";
         Facilitator.e_chainId := 8453 |}
    = Ok {| Facilitator.r_txHash := hash; Facilitator.success := true |} /\
    String.length hash = 66%nat /\
    startsWith hash "0x000000000000000000000000" = true.
Proof.
  apply (proj2 (proj2 generateNonce_shape) (List.repeat Byte.xab 32)); reflexivity.
Defined.

End NonceProperties.

Section ProtocolProperties.
Import JSString Constants Pricing Receipt Protocol.

Lemma or_else_truthy (a b : option string) (s : string) :
  truthy_opt a = Some s -> or_else a b = Some s.
Proof. unfold or_else. now intros ->. Qed.

Lemma or_else_falsy (a b : option string) : truthy_opt a = None -> or_else a b = b.
Proof. unfold or_else. now intros ->. Qed.

Lemma or_else_same (s : string) (d : string) :
  d <> EmptyString ->
  or_else (or_else (Some s) (Some s)) (Some d) = Some (if truthy s then s else d).
Proof.
  intros Hd. unfold or_else. destruct s; [|reflexivity]. cbn. now destruct d.
Qed.

(** X25.  A 402 response that [buildPaymentRequiredResponse] makes for a
    recipient, a price and a content id that are not empty is read back by
    [parsePaymentRequiredFromParts] as the request of the configuration:
    from the headers and the body together, from the headers alone, and from
    the body alone; an empty currency or facilitator URL reads as the
    default, an empty description as none.  When the recipient is an
    address, the request read passes [validatePaymentRequest]. *)
Theorem payment_required_round_trip (config : PaymentConfig)
    (response : PaymentRequiredResponse) :
  buildPaymentRequiredResponse config = Ok response ->
  c_payTo config <> EmptyString -> c_price config <> EmptyString ->
  c_contentId config <> EmptyString ->
  let request :=
    {| r_payTo := c_payTo config;
       r_price := c_price config;
       r_currency := default "USDC" (truthy_opt (c_currency config));
       r_contentId := c_contentId config;
       r_network := network_name (c_network config);
       r_facilitatorUrl := default DEFAULT_FACILITATOR_URL (truthy_opt (c_facilitatorUrl config));
       r_description := truthy_opt (c_description config) |} in
  status response = 402 /\
  parsePaymentRequiredFromParts (headers response) (fields_of (body response)) = Some request /\
  parsePaymentRequiredFromParts (headers response) no_fields = Some request /\
  parsePaymentRequiredFromParts ∅ (fields_of (body response)) = Some request /\
  (is_address (c_payTo config) = true ->
   validatePaymentRequest (fields_of_request request) = {| valid := true; errors := [] |}).
Proof.
  intros Hbuild HpayTo Hprice HcontentId request.
  unfold buildPaymentRequiredResponse in Hbuild.
  destruct (parsePrice (Text (c_price config))) as [amount|] eqn:Hamount; [|discriminate].
  cbn [mbind Result_bind] in Hbuild. injection Hbuild as <-.
  cbn [status headers body].
  set (h0 := <[ "Content-Type" := _ ]> _).
  set (h := match truthy_opt (c_description config) with Some _ => _ | None => h0 end).
  assert (Hh0 : forall k, k <> X402_HEADERS.DESCRIPTION -> h !! k = h0 !! k).
  { intros k Hk. unfold h. destruct (truthy_opt (c_description config)); [|reflexivity].
    now rewrite lookup_insert_ne. }
  assert (Hdesc : h !! X402_HEADERS.DESCRIPTION = truthy_opt (c_description config)).
  { unfold h. destruct (truthy_opt (c_description config)) as [text|] eqn:E.
    - now rewrite lookup_insert_eq.
    - reflexivity. }
  assert (Hget : h !! X402_HEADERS.PAY_TO = Some (c_payTo config) /\
                 h !! X402_HEADERS.PRICE = Some (c_price config) /\
                 h !! X402_HEADERS.CURRENCY = Some (default "USDC" (c_currency config)) /\
                 h !! X402_HEADERS.CONTENT_ID = Some (c_contentId config) /\
                 h !! X402_HEADERS.NETWORK = Some (network_name (c_network config)) /\
                 h !! X402_HEADERS.FACILITATOR
                   = Some (default DEFAULT_FACILITATOR_URL (c_facilitatorUrl config))).
  { rewrite !Hh0 by discriminate. unfold h0. repeat split; reflexivity. }
  destruct Hget as (H1 & H2 & H3 & H4 & H5 & H6).
  assert (Htruthy : forall s, s <> EmptyString -> truthy_opt (Some s) = Some s)
    by (intros [|] ?; [congruence | reflexivity]).
  assert (Hnet : truthy_opt (Some (network_name (c_network config)))
                 = Some (network_name (c_network config)))
    by now destruct (c_network config).
  assert (Hcur : forall (v : option string) (d : string), d <> EmptyString ->
            default d (truthy_opt (Some (default d v))) = default d (truthy_opt v)).
  { intros [[|c s]|] [|c' d] Hne; try congruence; reflexivity. }
  split; [reflexivity|].
  unfold parsePaymentRequiredFromParts, fields_of, no_fields.
  cbn [p_payTo p_price p_currency p_contentId p_network p_facilitatorUrl p_description
       payTo price currency contentId network facilitatorUrl description].
  rewrite H1, H2, H3, H4, H5, H6, Hdesc, !lookup_empty.
  split; [|split; [|split]].
  - rewrite !(or_else_truthy _ _ _ (Htruthy _ HpayTo)), !(or_else_truthy _ _ _ (Htruthy _ Hprice)),
      !(or_else_truthy _ _ _ (Htruthy _ HcontentId)), !(or_else_truthy _ _ _ Hnet).
    rewrite (Htruthy _ HpayTo), (Htruthy _ Hprice), (Htruthy _ HcontentId), Hnet.
    rewrite !or_else_same by discriminate.
    unfold request. f_equal. f_equal.
    + cbn [default]. destruct (c_currency config) as [[|c s]|]; reflexivity.
    + cbn [default]. destruct (c_facilitatorUrl config) as [[|c s]|]; reflexivity.
    + unfold or_else. destruct (truthy_opt (c_description config)) eqn:E; [reflexivity|].
      reflexivity.
  - rewrite !or_else_falsy by reflexivity.
    rewrite (Htruthy _ HpayTo), (Htruthy _ Hprice), (Htruthy _ HcontentId), Hnet.
    unfold request. f_equal. f_equal.
    + destruct (c_currency config) as [[|c s]|]; reflexivity.
    + destruct (c_facilitatorUrl config) as [[|c s]|]; reflexivity.
  - rewrite !(or_else_truthy _ _ _ (Htruthy _ HpayTo)), !(or_else_truthy _ _ _ (Htruthy _ Hprice)),
      !(or_else_truthy _ _ _ (Htruthy _ HcontentId)), !(or_else_truthy _ _ _ Hnet).
    rewrite (Htruthy _ HpayTo), (Htruthy _ Hprice), (Htruthy _ HcontentId), Hnet.
    unfold request. f_equal. f_equal.
    + destruct (c_currency config) as [[|c s]|]; reflexivity.
    + destruct (c_facilitatorUrl config) as [[|c s]|]; reflexivity.
    + unfold or_else. now destruct (truthy_opt (c_description config)).
  - intros Haddress. unfold validatePaymentRequest, fields_of_request, request.
    cbn [p_payTo p_price p_contentId p_network r_payTo r_price r_contentId r_network].
    rewrite (Htruthy _ HpayTo), (Htruthy _ Hprice), (Htruthy _ HcontentId), Hnet, Haddress,
      Hamount.
    now destruct (c_network config).
Qed.

Lemma payment_required_round_trip_witness :
  let config :=
    {| c_payTo := "0x1234567890123456789012345678901234567890"; c_price := "0.01";
       c_currency := None; c_contentId := "article-123"; c_network := base_mainnet;
       c_facilitatorUrl := None; c_description := Some EmptyString |} in
  let request :=
    {| r_payTo := "0x1234567890123456789012345678901234567890"; r_price := "0.01";
       r_currency := "USDC"; r_contentId := "article-123"; r_network := "base-mainnet";
       r_facilitatorUrl := "https://x402.org/facilitator"; r_description := None |} in
  exists response,
    buildPaymentRequiredResponse config = Ok response /\
    parsePaymentRequiredFromParts (headers response) no_fields = Some request /\
    validatePaymentRequest (fields_of_request request) = {| valid := true; errors := [] |}.
Proof.
  intros config request.
  destruct (buildPaymentRequiredResponse config) as [response|] eqn:Hbuild;
    [|vm_compute in Hbuild; discriminate].
  exists response. split; [reflexivity|].
  destruct (payment_required_round_trip config response Hbuild)
    as (_ & _ & Hheaders & _ & Hvalid); [discriminate | discriminate | discriminate |].
  split; [exact Hheaders | apply Hvalid; reflexivity].
Defined.

(** X26.  The payment scheme a 402 response advertises is the one a client
    acts on: its amount is the amount the client authorizes for the price,
    its recipient the recipient of the transfer, its network the text the
    client sends to the facilitator, and its EIP-712 domain the domain the
    client signs. *)
Theorem advertised_scheme_is_signed (config : PaymentConfig)
    (response : PaymentRequiredResponse) :
  buildPaymentRequiredResponse config = Ok response ->
  exists offer : PaymentScheme,
    accepts (body response) = [offer] /\
    scheme offer = "exact" /\ resource offer = c_contentId config /\
    forall (from fresh_nonce signature : string) (now_ms : Z),
    exists (typedData : EIP712.TypedData) (authorization : EIP712.TransferAuthorization),
      EIP712.buildTransferAuthorization
        {| EIP712.p_from := from; EIP712.p_to := payTo (body response);
           EIP712.p_price := price (body response);
           EIP712.p_network := network (body response);
           EIP712.p_validAfter := None; EIP712.p_validBefore := None;
           EIP712.p_nonce := None |} now_ms fresh_nonce
      = Ok (typedData, authorization) /\
      maxAmountRequired offer = EIP712.value authorization /\
      m_value (message (payload offer)) = EIP712.value authorization /\
      m_to (message (payload offer)) = EIP712.to authorization /\
      s_network offer
      = FacilitatorClient.network
          (FacilitatorClient.buildFacilitatorPayload signature authorization
             (network (body response)) (resource offer)) /\
      primaryType (payload offer) = EIP712.primaryType typedData /\
      d_name (domain (payload offer)) = EIP712.name (EIP712.domain typedData) /\
      d_version (domain (payload offer)) = EIP712.version (EIP712.domain typedData) /\
      d_chainId (domain (payload offer)) = EIP712.chainId (EIP712.domain typedData) /\
      d_verifyingContract (domain (payload offer))
      = EIP712.verifyingContract (EIP712.domain typedData).
Proof.
  unfold buildPaymentRequiredResponse.
  destruct (parsePrice (Text (c_price config))) as [amount|] eqn:Hamount; [|discriminate].
  cbn [mbind Result_bind]. intros [= <-]. cbn [body accepts].
  eexists. split; [reflexivity|]. cbn [scheme resource]. split; [reflexivity|].
  split; [reflexivity|].
  intros from fresh_nonce signature now_ms.
  unfold EIP712.buildTransferAuthorization.
  cbn [EIP712.p_price price EIP712.p_validAfter EIP712.p_validBefore EIP712.p_nonce default].
  rewrite Hamount. cbn [mbind Result_bind].
  do 2 eexists. split; [reflexivity|].
  cbn. now destruct (c_network config).
Qed.

Lemma advertised_scheme_is_signed_witness :
  let config :=
    {| c_payTo := "0x1234567890123456789012345678901234567890"; c_price := "0.01";
       c_currency := None; c_contentId := "article-123"; c_network := base_sepolia;
       c_facilitatorUrl := None; c_description := None |} in
  exists (response : PaymentRequiredResponse) (offer : PaymentScheme),
    buildPaymentRequiredResponse config = Ok response /\
    accepts (body response) = [offer] /\
    maxAmountRequired offer = "10000" /\
    s_network offer = "eip155:84532".
Proof.
  intros config.
  destruct (buildPaymentRequiredResponse config) as [response|] eqn:Hbuild;
    [|vm_compute in Hbuild; discriminate].
  destruct (advertised_scheme_is_signed config response Hbuild)
    as (offer & Haccepts & _ & _ & Hsigned).
  destruct (Hsigned "0xAAAA" "0x00" "0x1234" 1700000000123)
    as (typedData & authorization & Hauthorization & Hamount & _ & _ & Hnetwork & _).
  exists response, offer. split; [reflexivity|]. split; [exact Haccepts|].
  rewrite Hamount, Hnetwork.
  vm_compute in Hbuild. injection Hbuild as <-.
  vm_compute in Hauthorization. injection Hauthorization as <- <-.
  split; reflexivity.
Defined.

(** X27.  [validatePaymentRequest] accepts a request exactly when its
    recipient is [0x] followed by 40 hexadecimal digits, its price is not
    empty and parses, its content id is not empty and its network is one of
    the two networks; it then reports no error, and otherwise one error for
    each of the four fields that fails. *)
Theorem validatePaymentRequest_accepts (request : PartialFields) :
  let result := validatePaymentRequest request in
  let payTo_ok := match truthy_opt (p_payTo request) with
                  | Some payTo => is_address payTo
                  | None => false
                  end in
  let price_ok := match truthy_opt (p_price request) with
                  | Some price => is_Ok (parsePrice (Text price))
                  | None => false
                  end in
  let contentId_ok := match truthy_opt (p_contentId request) with
                      | Some _ => true
                      | None => false
                      end in
  let network_ok := match p_network request with
                    | Some network =>
                        String.eqb network "base-mainnet" || String.eqb network "base-sepolia"
                    | None => false
                    end in
  valid result = payTo_ok && price_ok && contentId_ok && network_ok /\
  (valid result = true <-> errors result = []) /\
  length (errors result)
  = (Nat.b2n (negb payTo_ok) + Nat.b2n (negb price_ok) + Nat.b2n (negb contentId_ok)
     + Nat.b2n (negb network_ok))%nat /\
  (forall payTo, truthy_opt (p_payTo request) = Some payTo -> is_address payTo = true ->
                 String.length payTo = 42%nat).
Proof.
  cbv zeta. unfold validatePaymentRequest, push.
  assert (Hnet : match truthy_opt (p_network request) with
                 | Some network =>
                     existsb (String.eqb network) ["base-mainnet"; "base-sepolia"]
                 | None => false
                 end
                 = match p_network request with
                   | Some network =>
                       String.eqb network "base-mainnet" || String.eqb network "base-sepolia"
                   | None => false
                   end).
  { destruct (p_network request) as [[|c s]|]; cbn; try reflexivity. now rewrite orb_false_r. }
  rewrite <- Hnet. clear Hnet.
  split; [|split; [|split]].
  - destruct (truthy_opt (p_payTo request)) as [payTo|]; [destruct (is_address payTo)|];
    (destruct (truthy_opt (p_price request)) as [price|]; [destruct (parsePrice _)|]);
    (destruct (truthy_opt (p_contentId request)) as [contentId|]);
    (destruct (truthy_opt (p_network request)) as [network|]; [destruct (existsb _ _)|]);
    reflexivity.
  - destruct (truthy_opt (p_payTo request)) as [payTo|]; [destruct (is_address payTo)|];
    (destruct (truthy_opt (p_price request)) as [price|]; [destruct (parsePrice _)|]);
    (destruct (truthy_opt (p_contentId request)) as [contentId|]);
    (destruct (truthy_opt (p_network request)) as [network|]; [destruct (existsb _ _)|]);
    cbn; split; congruence.
  - destruct (truthy_opt (p_payTo request)) as [payTo|]; [destruct (is_address payTo)|];
    (destruct (truthy_opt (p_price request)) as [price|]; [destruct (parsePrice _)|]);
    (destruct (truthy_opt (p_contentId request)) as [contentId|]);
    (destruct (truthy_opt (p_network request)) as [network|]; [destruct (existsb _ _)|]);
    reflexivity.
  - intros payTo _. unfold is_address.
    destruct payTo as [|[[] [] [] [] [] [] [] []] payTo]; try discriminate.
    destruct payTo as [|[[] [] [] [] [] [] [] []] payTo]; try discriminate.
    intros [Hlen _]%andb_prop. apply Nat.eqb_eq in Hlen. simpl. now rewrite Hlen.
Qed.

(** The tests of [x402.test.ts]. *)
Example validatePaymentRequest_tests :
  let request payTo network :=
    {| p_payTo := payTo; p_price := Some "0.01"; p_currency := None;
       p_contentId := Some "article-123"; p_network := Some network;
       p_facilitatorUrl := None; p_description := None |} in
  validatePaymentRequest (request (Some "0x1234567890123456789012345678901234567890") "base-mainnet")
    = {| valid := true; errors := [] |} /\
  validatePaymentRequest (request None "base-mainnet")
    = {| valid := false; errors := ["Missing payTo address"] |} /\
  validatePaymentRequest (request (Some "invalid-address") "base-mainnet")
    = {| valid := false; errors := ["Invalid payTo address format"] |} /\
  validatePaymentRequest (request (Some "0x1234567890123456789012345678901234567890") "ethereum")
    = {| valid := false; errors := ["Invalid network (must be base-mainnet or base-sepolia)"] |} /\
  parsePaymentRequiredFromParts ∅ no_fields = None /\
  createAuthenticatedHeaders "my-receipt-token" !! "X-402-Receipt" = Some "my-receipt-token".
Proof. repeat split; vm_compute; reflexivity. Qed.

End ProtocolProperties.

Section HeaderRecordProperties.
Import JSString Receipt HeaderOrder Protocol.

(** In a list of headers with distinct lower-case names, the values under
    a name are the one value under its lower-case form, if any. *)
Lemma Headers_values_unique (name : string) (l : list (string * string)) :
  NoDup l.*1 -> Forall (fun kv => toLowerCase kv.1 = kv.1) l ->
  (forall v, (toLowerCase name, v) ∈ l -> Headers_values name l = [v]) /\
  (toLowerCase name ∉ l.*1 -> Headers_values name l = []).
Proof.
  induction l as [|[k v] l IH]; [split; [intros v Hv; now apply elem_of_nil in Hv | reflexivity]|].
  cbn [fmap list_fmap fst]. intros Hnd Hlow.
  apply NoDup_cons in Hnd as [Hk Hnd]. apply Forall_cons in Hlow as [Hlk Hlow].
  cbn [fst] in Hlk. destruct (IH Hnd Hlow) as [IHin IHout].
  cbn [Headers_values]. rewrite Hlk.
  destruct (String.eqb_spec k (toLowerCase name)) as [->|Hne].
  - rewrite (IHout Hk). split; [|intros Hout; exfalso; apply Hout; left].
    intros w Hw. apply elem_of_cons in Hw as [[= <-]|Hw]; [reflexivity|].
    exfalso. apply Hk. apply list_elem_of_fmap. now exists (toLowerCase name, w).
  - split.
    + intros w Hw. apply elem_of_cons in Hw as [[= E _]|Hw]; [congruence | now apply IHin].
    + intros Hout. apply not_elem_of_cons in Hout as [_ Hout]. now apply IHout.
Qed.

Lemma Headers_get_record (o : gmap string string) (name : string) :
  (forall k, is_Some (o !! k) -> toLowerCase k = k) ->
  Headers_get (map_to_list o) name = o !! toLowerCase name.
Proof.
  intros Hlow. unfold Headers_get.
  destruct (Headers_values_unique name (map_to_list o)) as [Hin Hout].
  - apply NoDup_fst_map_to_list.
  - apply Forall_forall. intros [k v] Hkv. apply elem_of_map_to_list in Hkv.
    cbn. apply Hlow. now rewrite Hkv.
  - destruct (o !! toLowerCase name) as [v|] eqn:Hv.
    + apply elem_of_map_to_list in Hv. now rewrite (Hin v Hv).
    + rewrite Hout; [reflexivity|].
      intros Hk. apply list_elem_of_fmap in Hk as ([k v] & Hk & Hkv). cbn in Hk. subst k.
      apply elem_of_map_to_list in Hkv. congruence.
Qed.

(** X28.  On a plain record whose names are all in lower case, as the
    headers of a Node request are, [extractReceiptFromHeaders] finds what it
    finds in a [Headers] object of the same entries: the value under
    [x-402-receipt], else the one under [x-payment], else the token of an
    [authorization] of the X402 scheme. *)
Theorem record_of_lower_case_names (o : gmap string string) :
  (forall k, is_Some (o !! k) -> toLowerCase k = k) ->
  extractReceiptFromHeaders (OfRecord o) = extractReceiptFromHeaders (OfHeaders (map_to_list o)) /\
  extractReceiptFromHeaders (OfRecord o) =
    first_hit (o !! "x-402-receipt") (o !! "x-payment") (o !! "authorization").
Proof.
  intros Hlow.
  assert (Hupper : forall k, toLowerCase k <> k -> o !! k = None).
  { intros k Hk. destruct (o !! k) eqn:E; [|reflexivity].
    exfalso. apply Hk, Hlow. now rewrite E. }
  assert (Hrecord : extractReceiptFromHeaders (OfRecord o) =
                    first_hit (o !! "x-402-receipt") (o !! "x-payment") (o !! "authorization")).
  { rewrite extract_Record.
    rewrite (Hupper "X-402-Receipt"), (Hupper "X-PAYMENT"), (Hupper "Authorization")
      by discriminate.
    unfold or_else, first_hit. cbn [truthy_opt].
    destruct (truthy_opt (o !! "x-402-receipt")) eqn:E1; [reflexivity|].
    destruct (truthy_opt (o !! "x-payment")) eqn:E2; reflexivity. }
  split; [|exact Hrecord].
  rewrite Hrecord, extract_Headers, !Headers_get_record by exact Hlow. reflexivity.
Qed.

Lemma record_of_lower_case_names_witness :
  let o : gmap string string := {[ "x-payment" := "tok"; "host" := "example.com" ]} in
  extractReceiptFromHeaders (OfRecord o) = extractReceiptFromHeaders (OfHeaders (map_to_list o)).
Proof.
  intros o. destruct (record_of_lower_case_names o) as [Hsame _]; [|exact Hsame].
  intros k [v Hk].
  apply lookup_insert_Some in Hk as [[<- _]|[_ Hk]]; [reflexivity|].
  apply lookup_singleton_Some in Hk as [<- _]. reflexivity.
Defined.

(** From the headers [createAuthenticatedHeaders] makes of a token
    that is not empty, [extractReceiptFromHeaders] extracts that token, from
    the record and from a [Headers] object of the same entry; of an empty
    token it extracts nothing. *)
Theorem authenticated_headers_round_trip (receiptToken : string) :
  extractReceiptFromHeaders (OfRecord (createAuthenticatedHeaders receiptToken))
  = truthy_opt (Some receiptToken) /\
  extractReceiptFromHeaders (OfHeaders (map_to_list (createAuthenticatedHeaders receiptToken)))
  = truthy_opt (Some receiptToken).
Proof.
  unfold createAuthenticatedHeaders. rewrite map_to_list_singleton, extract_Record.
  split.
  - rewrite lookup_singleton_eq, !lookup_singleton_ne by discriminate.
    now destruct receiptToken.
  - now destruct receiptToken.
Qed.

End HeaderRecordProperties.

Section VerifierFacts.
Import JSString JSNumber Types JSON Jose Receipt Verifier.
Context `{Primitives}.

Lemma Map_get_keys (k : token) (m : list (token * CachedReceipt)) (c : CachedReceipt) :
  Map_get k m = Some c -> k ∈ m.*1.
Proof.
  induction m as [|[k' v'] m IH]; [discriminate|]. cbn [Map_get].
  destruct (decide (k = k')) as [->|Hne]; intros Hget.
  - apply elem_of_cons. left. reflexivity.
  - apply elem_of_cons. right. exact (IH Hget).
Qed.

Lemma Map_get_set (k k' : token) (v : CachedReceipt) (m : list (token * CachedReceipt)) :
  Map_get k (Map_set k' v m) = if decide (k = k') then Some v else Map_get k m.
Proof.
  induction m as [|[k0 v0] m IH]; cbn [Map_set Map_get].
  - destruct (decide (k = k')); reflexivity.
  - destruct (decide (k' = k0)) as [->|Hne]; cbn [Map_get].
    + destruct (decide (k = k0)); reflexivity.
    + rewrite IH. destruct (decide (k = k0)) as [->|Hne'].
      * destruct (decide (k0 = k')); [congruence|reflexivity].
      * reflexivity.
Qed.

Lemma Map_set_keys (k k' : token) (v : CachedReceipt) (m : list (token * CachedReceipt)) :
  k ∈ (Map_set k' v m).*1 -> k = k' \/ k ∈ m.*1.
Proof.
  induction m as [|[k0 v0] m IH]; cbn [Map_set].
  - intros Hin. apply list_elem_of_singleton in Hin. left. exact Hin.
  - destruct (decide (k' = k0)) as [->|Hne]; cbn [fmap list_fmap fst].
    + intros Hin. apply elem_of_cons in Hin as [->|Hin]; [left; reflexivity|].
      right. apply elem_of_cons. right. exact Hin.
    + intros Hin. apply elem_of_cons in Hin as [->|Hin].
      * right. apply elem_of_cons. left. reflexivity.
      * destruct (IH Hin) as [->|Hin']; [left; reflexivity|].
        right. apply elem_of_cons. right. exact Hin'.
Qed.

Lemma Map_set_NoDup (k : token) (v : CachedReceipt) (m : list (token * CachedReceipt)) :
  NoDup m.*1 -> NoDup (Map_set k v m).*1.
Proof.
  induction m as [|[k0 v0] m IH]; cbn [Map_set]; intros Hnd.
  - apply NoDup_singleton.
  - rewrite fmap_cons in Hnd. cbn [fst] in Hnd.
    apply NoDup_cons in Hnd as [Hnotin Hnd].
    destruct (decide (k = k0)) as [->|Hne]; rewrite fmap_cons; cbn [fst].
    + apply NoDup_cons. split; assumption.
    + apply NoDup_cons. split; [|exact (IH Hnd)].
      intros Hin. apply Map_set_keys in Hin as [->|Hin]; [congruence|].
      exact (Hnotin Hin).
Qed.

Lemma Map_get_filter (P : token * CachedReceipt -> Prop) `{!forall x, Decision (P x)}
    (k : token) (m : list (token * CachedReceipt)) (c : CachedReceipt) :
  NoDup m.*1 -> Map_get k (filter P m) = Some c -> Map_get k m = Some c /\ P (k, c).
Proof.
  induction m as [|[k0 v0] m IH]; [discriminate|]. intros Hnd.
  rewrite fmap_cons in Hnd. cbn [fst] in Hnd.
  apply NoDup_cons in Hnd as [Hnotin Hnd].
  rewrite filter_cons. destruct (decide (P (k0, v0))) as [HP|HP]; cbn [Map_get].
  - destruct (decide (k = k0)) as [->|Hne].
    + intros [= <-]. split; [reflexivity|exact HP].
    + exact (IH Hnd).
  - intros Hget. destruct (IH Hnd Hget) as [Hget' HP'].
    destruct (decide (k = k0)) as [->|Hne]; [|split; assumption].
    exfalso. apply Hnotin. exact (Map_get_keys _ _ _ Hget').
Qed.


Lemma filter_keys_NoDup (P : token * CachedReceipt -> Prop) `{!forall x, Decision (P x)}
    (m : list (token * CachedReceipt)) :
  NoDup m.*1 -> NoDup (filter P m).*1.
Proof.
  induction m as [|[k0 v0] m IH]; [intros; apply NoDup_nil_2|]. intros Hnd.
  rewrite fmap_cons in Hnd. cbn [fst] in Hnd.
  apply NoDup_cons in Hnd as [Hnotin Hnd].
  rewrite filter_cons. destruct (decide (P (k0, v0))); [|exact (IH Hnd)].
  rewrite fmap_cons. cbn [fst]. apply NoDup_cons. split; [|exact (IH Hnd)].
  intros Hin. apply Hnotin.
  apply list_elem_of_fmap in Hin as [[k1 v1] [-> Hin]].
  apply list_elem_of_filter in Hin as [_ Hin].
  apply list_elem_of_fmap. exists (k1, v1). split; [reflexivity|exact Hin].
Qed.

Lemma verifyReceipt_valid (t : token) (options : VerifyOptions) (now_ms : Z) :
  valid (verifyReceipt t options now_ms) = true ->
  exists rc,
    verifyReceipt t options now_ms = {| valid := true; receipt := Some rc; error := None |} /\
    forall x, truthy_opt (expectedContentId options) = Some x ->
              Unchecked.contentId rc = Some (JStr x).
Proof.
  unfold verifyReceipt.
  destruct (verified_payload t options (now_ms / 1000)) as [payload|e]; cbn [mbind Result_bind];
    [|discriminate].
  destruct (lt _ _); [discriminate|].
  destruct (truthy_opt (expectedContentId options)) as [expected|].
  - destruct (differs_from (Unchecked.contentId (receipt_of payload)) expected) eqn:Hsame;
      [discriminate|].
    intros _. exists (receipt_of payload). split; [reflexivity|].
    intros x [= <-]. apply differs_from_false. exact Hsame.
  - intros _. exists (receipt_of payload). split; [reflexivity|]. discriminate.
Qed.

(** X29.  The cache of a receipt verifier holds one entry for a token, and
    only receipts that [verifyReceipt] accepted for that token with the
    keys of the verifier; [verify] keeps it so.  A result of [verify] that
    is valid is a result [verifyReceipt] gave for this token at some time,
    and its receipt is for the expected content, when one is given. *)
Theorem verify_backed (v : ReceiptVerifier) (t : token) (expectedContentId : option string)
    (clock : Clock) :
  backed v ->
  backed (verify v t expectedContentId clock).2 /\
  config (verify v t expectedContentId clock).2 = config v /\
  (valid (verify v t expectedContentId clock).1 = true ->
   exists rc expected now_ms,
     (verify v t expectedContentId clock).1
     = {| valid := true; receipt := Some rc; error := None |} /\
     verifyReceipt t (options_of v expected) now_ms
     = {| valid := true; receipt := Some rc; error := None |} /\
     forall x, truthy_opt expectedContentId = Some x ->
               Unchecked.contentId rc = Some (JStr x)).
Proof.
  intros [Hnd Hbacked].
  assert (Hmiss : forall m : TokenMap,
            NoDup m.*1 ->
            (forall t' c, Map_get t' m = Some c -> Map_get t' (cache v) = Some c) ->
            let v0 := with_cache v m in
            let result := verifyReceipt t (options_of v expectedContentId) (at_verify clock) in
            let out :=
              match receipt result with
              | Some r =>
                  if valid result && default false (s_enableCache (config v)) then
                    let v1 := with_cache v0 (Map_set t {| c_receipt := r;
                                                         verifiedAt := at_store clock |}
                                              (cache v0)) in
                    let v2 := if (1000 <? length (cache v1))%nat
                              then cleanCache (at_clean clock) v1 else v1 in
                    (result, v2)
                  else (result, v0)
              | None => (result, v0)
              end in
            backed out.2 /\ config out.2 = config v /\
            (valid out.1 = true ->
             exists rc expected now_ms,
               out.1 = {| valid := true; receipt := Some rc; error := None |} /\
               verifyReceipt t (options_of v expected) now_ms
               = {| valid := true; receipt := Some rc; error := None |} /\
               forall x, truthy_opt expectedContentId = Some x ->
               Unchecked.contentId rc = Some (JStr x))).
  { intros m Hm Hsub v0 result out.
    assert (Hresult : valid result = true ->
              exists rc expected now_ms,
                result = {| valid := true; receipt := Some rc; error := None |} /\
                verifyReceipt t (options_of v expected) now_ms
                = {| valid := true; receipt := Some rc; error := None |} /\
                forall x, truthy_opt expectedContentId = Some x ->
               Unchecked.contentId rc = Some (JStr x)).
    { intros Hvalid. destruct (verifyReceipt_valid _ _ _ Hvalid) as (rc & Hrc & Hfor).
      exists rc, expectedContentId, (at_verify clock). split; [exact Hrc|].
      split; [exact Hrc|exact Hfor]. }
    assert (Hv0 : backed v0).
    { split; [exact Hm|]. intros t' c Hget. apply (Hbacked t' c). apply Hsub. exact Hget. }
    subst out. destruct (receipt result) as [r|] eqn:Hr.
    2:{ split; [exact Hv0|]. split; [reflexivity|exact Hresult]. }
    destruct (valid result && default false (s_enableCache (config v))) eqn:Hcache.
    2:{ split; [exact Hv0|]. split; [reflexivity|exact Hresult]. }
    apply andb_true_iff in Hcache as [Hvalid _].
    cbn [fst snd]. split; [|split; [|exact Hresult]].
    2:{ destruct (_ <? _)%nat; reflexivity. }
    assert (Hv1 : backed (with_cache v0 (Map_set t {| c_receipt := r;
                                                     verifiedAt := at_store clock |}
                                           (cache v0)))).
    { split.
      - apply Map_set_NoDup. exact Hm.
      - intros t' c. cbn [cache with_cache]. rewrite Map_get_set.
        destruct (decide (t' = t)) as [->|Hne].
        + intros [= <-]. cbn [c_receipt].
          destruct (Hresult Hvalid) as (rc & expected & now_ms & Hrc & Hat & _).
          exists expected, now_ms. subst result. rewrite Hrc in Hr.
          cbn [receipt] in Hr. injection Hr as <-. exact Hat.
        + intros Hget. apply (Hbacked t' c). apply Hsub. exact Hget. }
    destruct (_ <? _)%nat; [|exact Hv1].
    destruct Hv1 as [Hnd1 Hb1]. split.
    - apply filter_keys_NoDup. exact Hnd1.
    - intros t' c Hget. apply (Hb1 t' c).
      apply Map_get_filter in Hget as [Hget _]; [exact Hget|exact Hnd1]. }
  unfold verify.
  destruct (default false (s_enableCache (config v))) eqn:Henabled.
  2:{ specialize (Hmiss (cache v) Hnd (fun _ _ Hget => Hget)).
      cbn zeta in Hmiss. 
      destruct v as [cfg m]. exact Hmiss. }
  destruct (Map_get t (cache v)) as [cached|] eqn:Hcached.
  2:{ specialize (Hmiss (cache v) Hnd (fun _ _ Hget => Hget)).
      cbn zeta in Hmiss.
      destruct v as [cfg m]. exact Hmiss. }
  destruct (_ <? _) eqn:Hage.
  - destruct (Hbacked t cached Hcached) as (expected & now_ms & Hat).
    destruct (truthy_opt expectedContentId) as [x|] eqn:Hx.
    + destruct (differs_from (Unchecked.contentId (c_receipt cached)) x) eqn:Hsame;
        cbn [fst snd].
      * split; [split; assumption|]. split; [reflexivity|]. discriminate.
      * split; [split; assumption|]. split; [reflexivity|]. intros _.
        exists (c_receipt cached), expected, now_ms. split; [reflexivity|].
        split; [exact Hat|]. intros x' [= <-]. apply differs_from_false. exact Hsame.
    + cbn [fst snd]. split; [split; assumption|]. split; [reflexivity|]. intros _.
      exists (c_receipt cached), expected, now_ms. split; [reflexivity|].
      split; [exact Hat|]. discriminate.
  - assert (Hm : NoDup (Map_delete t (cache v)).*1).
    { apply filter_keys_NoDup. exact Hnd. }
    specialize (Hmiss (Map_delete t (cache v)) Hm).
    cbn zeta in Hmiss. apply Hmiss.
    intros t' c Hget. unfold Map_delete in Hget.
    apply Map_get_filter in Hget as [Hget _]; [exact Hget|exact Hnd].
Qed.


End VerifierFacts.

Section VerifierExamples.
Import JSString Types JSON Jose Receipt Verifier Sample VerifierSample.

Lemma verify_backed_witness :
  backed (verify verifier_a (createReceiptToken receipt_a "k") (Some "a") (at_time 1999000)).2.
Proof.
  apply (verify_backed verifier_a (createReceiptToken receipt_a "k") (Some "a")
           (at_time 1999000)).
  split; [apply NoDup_nil_2|]. intros t c Hget. discriminate Hget.
Defined.


End VerifierExamples.
